(** * Expense tracker: filtered ledger queries, aggregation, export, access policy

    A shallow embedding of the transaction repository
    ([internal/repository]: the SQL text it builds and what it does with the
    rows the ledger store answers), of the transaction service
    ([internal/service]: access checks, date normalisation, receipt upload,
    CSV export), of the filter the admin handlers build
    ([internal/handler]) and of the data model ([internal/model]), followed
    by the properties the specification states about them.

    Layout.
    - [Go]: the pieces of the Go language and library the code uses (int64,
      strconv, strings, path/filepath, time, errors, maps).
    - [model], [pg], [repository], [csv], [service], [handler]: the program.
      [pg] is the ledger store: two tables and an interpreter for the SELECT
      statements the repository sends.
    - [spec]: the vocabulary of the specification (the filter as a
      predicate, the filtered subset, groupings, the shape of a filter).
    - [sample]: a small ledger and a host on which everything is run.
    - [schema], [user_repo], [auth_service], [creation], [middleware],
      [transaction_handler]: the code around the above (the constraints
      AutoMigrate declares, the user repository, registration and login,
      the creation of a transaction, the middleware and what the
      transaction handler does before and after it calls the service),
      with [laws] and [fixtures] as their vocabulary and sample data.
    - Properties: general lemmas first, then one theorem per claim, then
      the further properties of the code (X1, X2, ...).

    Conventions.
    - Go [int] and [int64] values are [Z]; the one place where the code
      computes with them ([Balance]) has the 64-bit wrap-around written out,
      and a sum scanned from the store must be in range.
    - A Go pointer used as an optional field ([*string], [*int],
      [*time.Time]) is an [option]; a Go map is a [gmap] wrapped in
      [GoMap] so that a nil map and an empty map stay distinguishable.
    - [(value, error)] results are [result]; repository and service
      operations that change the store or the file system return the new
      one next to their result.
    - Record fields carry a short prefix ([tx_], [u_], [ur_], [af_], [uf_],
      [st_], [us_]) because Go reuses the same field names in several
      structs. *)

From Stdlib Require Import ZArith String Ascii List Lia Bool.
From Stdlib Require Import DecimalString DecimalZ DecimalPos.
From stdpp Require Import base option list gmap strings fin_maps.

Local Open Scope Z_scope.

(* ===================================================================== *)
(** ** Go primitives used by the code *)
(* ===================================================================== *)

Module Go.

(** *** int64 *)

Definition int64_min : Z := - 2 ^ 63.
Definition int64_max : Z := 2 ^ 63 - 1.

Definition fits_int64 (z : Z) : bool := (int64_min <=? z) && (z <=? int64_max).

(** Two's complement wrap-around of a mathematical integer into int64. *)
Definition wrap64 (z : Z) : Z := (z + 2 ^ 63) mod 2 ^ 64 - 2 ^ 63.

(** Go's [a - b] on int64 operands. *)
Definition sub64 (a b : Z) : Z := wrap64 (a - b).

(** *** strconv and fmt *)

(** [strconv.FormatInt(z, 10)], [strconv.Itoa(z)] and the [%d] verb. *)
Definition FormatInt (z : Z) : string := NilZero.string_of_int (Z.to_int z).
Definition Itoa (z : Z) : string := FormatInt z.

(** Inverse reading of a decimal integer, used to state that [FormatInt]
    is lossless. *)
Definition ParseInt (s : string) : option Z :=
  match NilZero.int_of_string s with
  | Some d => Some (Z.of_int d)
  | None => None
  end.

(** *** strings *)

Definition is_upper (c : ascii) : bool :=
  let n := nat_of_ascii c in (65 <=? n)%nat && (n <=? 90)%nat.

Definition lower_ascii (c : ascii) : ascii :=
  if is_upper c then ascii_of_nat (nat_of_ascii c + 32) else c.

(** [strings.ToLower] on the bytes of an ASCII string.  (On other input
    Go maps runes; no rune outside ASCII lower-cases to a letter of the
    extensions tested below, so membership in [allowedExts] is the same.) *)
Fixpoint ToLower (s : string) : string :=
  match s with
  | EmptyString => EmptyString
  | String c r => String (lower_ascii c) (ToLower r)
  end.

(** [strings.Join]. *)
Definition Join (elems : list string) (sep : string) : string :=
  String.concat sep elems.

(** *** path/filepath (slash-separated paths) *)

Definition slash : ascii := "/"%char.
Definition dot : ascii := "."%char.

(** The loop of [filepath.Ext], walking the path from its last byte:
    [for i := len(path)-1; i >= 0 && !IsPathSeparator(path[i]); i--]. *)
Fixpoint ext_scan (rev_path : list ascii) (suffix : string) : string :=
  match rev_path with
  | [] => EmptyString
  | c :: rest =>
      if Ascii.eqb c slash then EmptyString
      else if Ascii.eqb c dot then String c suffix
      else ext_scan rest (String c suffix)
  end.

Definition Ext (path : string) : string :=
  ext_scan (rev (list_ascii_of_string path)) EmptyString.

(** *** time *)

(** A location with a fixed offset, in seconds east of UTC. *)
Record Location := mkLocation { loc_name : string; loc_offset : Z }.

Definition UTC : Location := mkLocation "UTC" 0.

(** A [time.Time] seen through its accessors: the civil date and clock
    reading in its location. *)
Record Time := mkTime {
  Year : Z; Month : Z; Day : Z;
  Hour : Z; Minute : Z; Second : Z; Nanosecond : Z;
  Loc : Location
}.

(** [time.Date(year, month, day, hour, min, sec, nsec, loc)] for arguments
    that are already in range, which is how the code calls it (fields read
    back from a [Time], and the constants 0, 23, 59, 59, 999999999). *)
Definition Date (y m d h mi s ns : Z) (loc : Location) : Time :=
  mkTime y m d h mi s ns loc.

(** Days since 1970-01-01 of a proleptic Gregorian civil date. *)
Definition days_from_civil (y m d : Z) : Z :=
  let y' := if m <=? 2 then y - 1 else y in
  let era := y' / 400 in
  let yoe := y' - era * 400 in
  let mp := if m <=? 2 then m + 9 else m - 3 in
  let doy := (153 * mp + 2) / 5 + d - 1 in
  let doe := yoe * 365 + yoe / 4 - yoe / 100 + doy in
  era * 146097 + doe - 719468.

(** [t.Unix()]. *)
Definition Unix (t : Time) : Z :=
  days_from_civil (Year t) (Month t) (Day t) * 86400
  + Hour t * 3600 + Minute t * 60 + Second t - loc_offset (Loc t).

Definition pad2 (z : Z) : string :=
  if z <? 10 then String "0" (FormatInt z) else FormatInt z.

Definition pad4 (z : Z) : string :=
  if z <? 10 then "000" +:+ FormatInt z
  else if z <? 100 then "00" +:+ FormatInt z
  else if z <? 1000 then "0" +:+ FormatInt z
  else FormatInt z.

(** The zone suffix of the layout element [Z07:00]. *)
Definition format_zone (offset : Z) : string :=
  if offset =? 0 then "Z"
  else
    let zone := Z.quot offset 60 in
    let sign := if zone <? 0 then "-" else "+" in
    let zone := Z.abs zone in
    sign +:+ pad2 (Z.quot zone 60) +:+ ":" +:+ pad2 (Z.rem zone 60).

(** [t.Format(time.RFC3339)], layout [2006-01-02T15:04:05Z07:00], for
    years 0 to 9999. *)
Definition Format_RFC3339 (t : Time) : string :=
  pad4 (Year t) +:+ "-" +:+ pad2 (Month t) +:+ "-" +:+ pad2 (Day t) +:+ "T"
  +:+ pad2 (Hour t) +:+ ":" +:+ pad2 (Minute t) +:+ ":" +:+ pad2 (Second t)
  +:+ format_zone (loc_offset (Loc t)).

(** *** errors *)

(** Error values.  The four sentinels of the service package and
    [pgx.ErrNoRows] are distinct values; [Errorf msg] is a fresh error made
    by [fmt.Errorf(msg)] and [Wrapf msg e] is [fmt.Errorf(msg + ": %w", e)]. *)
Inductive error :=
| ErrTransactionNotFound
| ErrForbidden
| ErrInvalidFileFormat
| ErrFileSizeExceeded
| ErrNoRows
| Errorf (msg : string)
| Wrapf (msg : string) (cause : error).

(** [errors.Is(err, target)] for a sentinel [target]. *)
Fixpoint errors_Is (err target : error) : bool :=
  match err, target with
  | ErrTransactionNotFound, ErrTransactionNotFound => true
  | ErrForbidden, ErrForbidden => true
  | ErrInvalidFileFormat, ErrInvalidFileFormat => true
  | ErrFileSizeExceeded, ErrFileSizeExceeded => true
  | ErrNoRows, ErrNoRows => true
  | Wrapf _ cause, _ => errors_Is cause target
  | _, _ => false
  end.

Inductive result (A : Type) :=
| Ok (a : A)
| Err (e : error).
Arguments Ok {A} a.
Arguments Err {A} e.

Definition bind {A B} (r : result A) (k : A -> result B) : result B :=
  match r with
  | Ok a => k a
  | Err e => Err e
  end.

(** [if err != nil { return nil, fmt.Errorf(msg + ": %w", err) }]. *)
Definition wrap {A} (msg : string) (r : result A) : result A :=
  match r with
  | Ok a => Ok a
  | Err e => Err (Wrapf msg e)
  end.

(** A Go map value: nil, or an allocated map. *)
Inductive GoMap (K : Type) `{Countable K} (V : Type) :=
| NilMap
| MkMap (m : gmap K V).
Arguments NilMap {K _ _ V}.
Arguments MkMap {K _ _ V} m.

(** [make(map[K]V)]. *)
Definition make_map {K} `{Countable K} {V} : GoMap K V := MkMap ∅.

(** [m[k] = v]; assignment to an entry of a nil map panics. *)
Definition map_assign {K} `{Countable K} {V} (k : K) (v : V) (m : GoMap K V)
  : option (GoMap K V) :=
  match m with
  | NilMap => None
  | MkMap g => Some (MkMap (<[k := v]> g))
  end.

End Go.

Import Go.

Notation "'let*' x := r 'in' k" := (bind r (fun x => k))
  (at level 10, x name, r at level 100, k at level 200).

(* ===================================================================== *)
(** ** internal/model *)
(* ===================================================================== *)

Module model.

Definition TransactionTypeIncome : string := "income".
Definition TransactionTypeExpense : string := "expense".

Definition RoleUser : string := "user".
Definition RoleAdmin : string := "admin".

Record Transaction := mkTransaction {
  tx_ID : Z;
  tx_UserID : Z;
  tx_Amount : Z;
  tx_Type : string;
  tx_Category : string;
  tx_Description : option string;
  tx_TransactionDate : Time;
  tx_ReceiptPath : option string;
  tx_CreatedAt : Time;
  tx_UpdatedAt : Time
}.

Record User := mkUser {
  u_ID : Z;
  u_Phone : string;
  u_PasswordHash : string;
  u_Role : string;
  u_CreatedAt : Time
}.

Record UpdateTransactionRequest := mkUpdateTransactionRequest {
  ur_Amount : option Z;
  ur_Type : option string;
  ur_Category : option string;
  ur_Description : option string;
  ur_TransactionDate : option Time
}.

Record AdminTransactionFilters := mkAdminTransactionFilters {
  af_UserID : option Z;
  af_StartDate : option Time;
  af_EndDate : option Time;
  af_Category : option string;
  af_Type : option string
}.

Record UserTransactionFilters := mkUserTransactionFilters {
  uf_Type : option string;
  uf_Category : option string;
  uf_StartDate : option Time;
  uf_EndDate : option Time
}.

Record UserStat := mkUserStat {
  us_UserID : Z;
  us_UserPhone : string;
  us_TotalSpent : Z;
  us_TotalIncome : Z;
  us_TransactionCount : Z
}.

Record AggregatedStats := mkAggregatedStats {
  st_TotalIncome : Z;
  st_TotalExpenses : Z;
  st_Balance : Z;
  st_ByCategoryIncome : GoMap string Z;
  st_ByCategoryExpense : GoMap string Z;
  st_ByUserSpending : GoMap Z UserStat
}.

End model.

Import model.

(* ===================================================================== *)
(** ** The ledger store: tables and the SELECT statements it is sent *)
(* ===================================================================== *)

(** The repository talks to PostgreSQL through query text with [$n]
    placeholders and a parameter list.  The store is modelled by its two
    tables (schema of [AutoMigrate]) and by an interpreter for the family of
    SELECT statements the repository builds: the text is split into tokens,
    recognised, and evaluated over the tables. *)

Module pg.

(** A bound parameter, or a column value. *)
Inductive Arg :=
| AInt (z : Z)
| AText (s : string)
| ATimestamp (t : Time).

Inductive ArgType := TInt | TText | TTimestamp.

Definition arg_type (a : Arg) : ArgType :=
  match a with
  | AInt _ => TInt
  | AText _ => TText
  | ATimestamp _ => TTimestamp
  end.

Definition ArgType_eqb (a b : ArgType) : bool :=
  match a, b with
  | TInt, TInt | TText, TText | TTimestamp, TTimestamp => true
  | _, _ => false
  end.

(** [users.id] is the primary key, so the table is a finite map from id to
    row; [transactions] keeps its rows in physical order.  [available] is
    false when the pool cannot reach the server, in which case every
    statement fails.  [now] is the server clock read by [NOW()]. *)
Record DB := mkDB {
  transactions : list Transaction;
  users : gmap Z User;
  available : bool;
  now : Time
}.

(** *** Statements *)

Inductive Column := ColID | ColUserID | ColType | ColCategory | ColTransactionDate.

Inductive Cmp := CmpEq | CmpGe | CmpLe.

(** [column cmp $param]. *)
Record Cond := mkCond { c_col : Column; c_cmp : Cmp; c_param : nat }.

Inductive Projection :=
| SelTransactions   (* the ten transaction columns *)
| SelTotals         (* the two COALESCE(SUM(CASE ...)) totals *)
| SelByCategory     (* category, SUM(amount) ... GROUP BY t.category *)
| SelByUser.        (* user_id, phone, sums, COUNT ... GROUP BY t.user_id, u.phone *)

Record Select := mkSelect {
  sel_proj : Projection;
  sel_where : list Cond;
  sel_ordered : bool  (* ORDER BY transaction_date DESC, created_at DESC *)
}.

(** *** Tokens *)

Definition is_space (c : ascii) : bool :=
  let n := nat_of_ascii c in
  (n =? 32)%nat || (n =? 10)%nat || (n =? 9)%nat || (n =? 13)%nat.

Definition flush (cur : list ascii) : list string :=
  match cur with
  | [] => []
  | _ => [string_of_list_ascii (rev cur)]
  end.

Fixpoint tokenize (s : string) (cur : list ascii) : list string :=
  match s with
  | EmptyString => flush cur
  | String c r =>
      if is_space c then flush cur ++ tokenize r [] else tokenize r (c :: cur)
  end.

Definition tokens (s : string) : list string := tokenize s [].

Fixpoint strip_prefix (pre l : list string) : option (list string) :=
  match pre, l with
  | [], _ => Some l
  | p :: pre', x :: l' => if String.eqb p x then strip_prefix pre' l' else None
  | _ :: _, [] => None
  end.

Definition parse_column (tok : string) : option Column :=
  if String.eqb tok "id" || String.eqb tok "t.id" then Some ColID
  else if String.eqb tok "user_id" || String.eqb tok "t.user_id" then Some ColUserID
  else if String.eqb tok "type" || String.eqb tok "t.type" then Some ColType
  else if String.eqb tok "category" || String.eqb tok "t.category" then Some ColCategory
  else if String.eqb tok "transaction_date" || String.eqb tok "t.transaction_date"
       then Some ColTransactionDate
  else None.

Definition parse_cmp (tok : string) : option Cmp :=
  if String.eqb tok "=" then Some CmpEq
  else if String.eqb tok ">=" then Some CmpGe
  else if String.eqb tok "<=" then Some CmpLe
  else None.

Definition parse_param (tok : string) : option nat :=
  match tok with
  | String c digits =>
      if Ascii.eqb c "$" then
        match ParseInt digits with
        | Some n => if 1 <=? n then Some (Z.to_nat n) else None
        | None => None
        end
      else None
  | EmptyString => None
  end.

(** [cond AND cond AND ...]; returns the conditions and the tokens left. *)
Fixpoint parse_conds (fuel : nat) (toks : list string)
  : option (list Cond * list string) :=
  match fuel with
  | O => None
  | S fuel' =>
      match toks with
      | col :: cmp :: par :: rest =>
          match parse_column col, parse_cmp cmp, parse_param par with
          | Some c, Some o, Some p =>
              match rest with
              | tok :: rest' =>
                  if String.eqb tok "AND" then
                    match parse_conds fuel' rest' with
                    | Some (cs, tl) => Some (mkCond c o p :: cs, tl)
                    | None => None
                    end
                  else Some ([mkCond c o p], rest)
              | [] => Some ([mkCond c o p], [])
              end
          | _, _, _ => None
          end
      | _ => None
      end
  end.

(** The optional [WHERE] clause. *)
Definition parse_where (toks : list string) : option (list Cond * list string) :=
  match toks with
  | tok :: rest =>
      if String.eqb tok "WHERE" then parse_conds (length rest) rest
      else Some ([], toks)
  | [] => Some ([], [])
  end.

Definition from_transactions : list string :=
  tokens "FROM transactions".

Definition from_transactions_t : list string :=
  tokens "FROM transactions t".

Definition from_joined : list string :=
  tokens "FROM transactions t JOIN users u ON t.user_id = u.id".

Definition cols_transaction : list string :=
  tokens "SELECT id, user_id, amount, type, category, description, transaction_date, receipt_path, created_at, updated_at".

Definition cols_transaction_t : list string :=
  tokens "SELECT t.id, t.user_id, t.amount, t.type, t.category, t.description, t.transaction_date, t.receipt_path, t.created_at, t.updated_at".

Definition cols_totals : list string :=
  tokens "SELECT COALESCE(SUM(CASE WHEN t.type = 'income' THEN t.amount ELSE 0 END), 0) as total_income, COALESCE(SUM(CASE WHEN t.type = 'expense' THEN t.amount ELSE 0 END), 0) as total_expenses".

Definition cols_by_category : list string :=
  tokens "SELECT t.category, COALESCE(SUM(t.amount), 0)".

Definition cols_by_user : list string :=
  tokens "SELECT t.user_id, u.phone, COALESCE(SUM(CASE WHEN t.type = 'expense' THEN t.amount ELSE 0 END), 0) as total_spent, COALESCE(SUM(CASE WHEN t.type = 'income' THEN t.amount ELSE 0 END), 0) as total_income, COUNT(t.id) as transaction_count".

Definition tail_order : list string :=
  tokens "ORDER BY transaction_date DESC, created_at DESC".

Definition tail_order_t : list string :=
  tokens "ORDER BY t.transaction_date DESC, t.created_at DESC".

Definition tail_group_category : list string :=
  tokens "GROUP BY t.category".

Definition tail_group_user : list string :=
  tokens "GROUP BY t.user_id, u.phone".

Definition list_string_eqb (a b : list string) : bool :=
  bool_decide (a = b).

(** Recognise one statement: select list and FROM, optional WHERE,
    closing clause. *)
Definition parse_with (head : list string) (proj : Projection)
    (tails : list (list string * bool)) (toks : list string) : option Select :=
  match strip_prefix head toks with
  | None => None
  | Some rest =>
      match parse_where rest with
      | None => None
      | Some (conds, tl) =>
          match List.find (fun t => list_string_eqb (fst t) tl) tails with
          | Some (_, ordered) => Some (mkSelect proj conds ordered)
          | None => None
          end
      end
  end.

Definition first_some {A} (l : list (option A)) : option A :=
  List.fold_right (fun o acc => match o with Some a => Some a | None => acc end) None l.

Definition parse (sql : string) : option Select :=
  let toks := tokens sql in
  first_some
    [ parse_with (cols_transaction ++ from_transactions) SelTransactions
        [([], false); (tail_order, true)] toks;
      parse_with (cols_transaction_t ++ from_transactions_t) SelTransactions
        [([], false); (tail_order_t, true)] toks;
      parse_with (cols_totals ++ from_joined) SelTotals [([], false)] toks;
      parse_with (cols_by_category ++ from_joined) SelByCategory
        [(tail_group_category, false)] toks;
      parse_with (cols_by_user ++ from_joined) SelByUser
        [(tail_group_user, false)] toks ].

(** *** Evaluation *)

Definition col_type (c : Column) : ArgType :=
  match c with
  | ColID | ColUserID => TInt
  | ColType | ColCategory => TText
  | ColTransactionDate => TTimestamp
  end.

Definition col_value (c : Column) (t : Transaction) : Arg :=
  match c with
  | ColID => AInt (tx_ID t)
  | ColUserID => AInt (tx_UserID t)
  | ColType => AText (tx_Type t)
  | ColCategory => AText (tx_Category t)
  | ColTransactionDate => ATimestamp (tx_TransactionDate t)
  end.

(** A [timestamptz] value: microseconds since the epoch. *)
Definition timestamptz (t : Time) : Z := Unix t * 1000000 + Nanosecond t / 1000.

Definition cmp_Z (o : Cmp) (x y : Z) : bool :=
  match o with
  | CmpEq => x =? y
  | CmpGe => y <=? x
  | CmpLe => x <=? y
  end.

(** [value cmp parameter]. *)
Definition compare (o : Cmp) (a b : Arg) : bool :=
  match a, b with
  | AInt x, AInt y => cmp_Z o x y
  | AText x, AText y =>
      match o with
      | CmpEq => String.eqb x y
      | _ => false
      end
  | ATimestamp x, ATimestamp y => cmp_Z o (timestamptz x) (timestamptz y)
  | _, _ => false
  end.

Definition param (args : list Arg) (n : nat) : option Arg := nth_error args (pred n).

(** The statement is accepted when every placeholder has a parameter of the
    column's type and the parameter list has no extra entry.  (Ordering of
    text columns is outside the modelled fragment.) *)
Definition cond_typed (args : list Arg) (c : Cond) : bool :=
  match param args (c_param c) with
  | Some a =>
      ArgType_eqb (arg_type a) (col_type (c_col c))
      && match col_type (c_col c), c_cmp c with
         | TText, CmpGe | TText, CmpLe => false
         | _, _ => true
         end
  | None => false
  end.

Definition max_param (conds : list Cond) : nat :=
  List.fold_right (fun c acc => Nat.max (c_param c) acc) O conds.

Definition args_ok (args : list Arg) (conds : list Cond) : bool :=
  forallb (cond_typed args) conds && Nat.eqb (length args) (max_param conds).

Definition cond_holds (args : list Arg) (t : Transaction) (c : Cond) : bool :=
  match param args (c_param c) with
  | Some a => compare (c_cmp c) (col_value (c_col c) t) a
  | None => false
  end.

Definition where_holds (args : list Arg) (conds : list Cond) (t : Transaction) : bool :=
  forallb (cond_holds args t) conds.

(** [transactions t JOIN users u ON t.user_id = u.id]. *)
Definition joined (db : DB) : list (Transaction * User) :=
  flat_map (fun t => match users db !! tx_UserID t with
                     | Some u => [(t, u)]
                     | None => []
                     end) (transactions db).

Definition sumZ (l : list Z) : Z := List.fold_right Z.add 0 l.

(** [CASE WHEN t.type = 'income' THEN t.amount ELSE 0 END] and its twin. *)
Definition income_amount (t : Transaction) : Z :=
  if String.eqb (tx_Type t) "income" then tx_Amount t else 0.

Definition expense_amount (t : Transaction) : Z :=
  if String.eqb (tx_Type t) "expense" then tx_Amount t else 0.

(** GROUP BY: one output row per key, in order of first appearance, the
    values of a group combined with [op]. *)
Fixpoint group_add {K V} `{EqDecision K} (op : V -> V -> V) (k : K) (v : V)
    (groups : list (K * V)) : list (K * V) :=
  match groups with
  | [] => [(k, v)]
  | (k', v') :: rest =>
      if decide (k = k') then (k', op v' v) :: rest
      else (k', v') :: group_add op k v rest
  end.

Definition group_by {R K V} `{EqDecision K} (op : V -> V -> V)
    (key : R -> K) (val : R -> V) (rows : list R) : list (K * V) :=
  List.fold_left (fun groups r => group_add op (key r) (val r) groups) rows [].

(** The aggregates of the per-user statement: total_spent, total_income,
    transaction_count. *)
Definition UserAgg : Type := (Z * Z * Z)%type.

Definition agg_add (a b : UserAgg) : UserAgg :=
  let '(s1, i1, n1) := a in
  let '(s2, i2, n2) := b in
  (s1 + s2, i1 + i2, n1 + n2).

Definition agg_of (t : Transaction) : UserAgg :=
  (expense_amount t, income_amount t, 1).

(** ORDER BY transaction_date DESC, created_at DESC, as a stable insertion
    sort of the physical order. *)
Definition not_after (a b : Transaction) : bool :=
  let da := timestamptz (tx_TransactionDate a) in
  let db := timestamptz (tx_TransactionDate b) in
  (db <? da) || ((da =? db)
                 && (timestamptz (tx_CreatedAt b) <=? timestamptz (tx_CreatedAt a))).

Fixpoint insert_desc (x : Transaction) (l : list Transaction) : list Transaction :=
  match l with
  | [] => [x]
  | y :: r => if not_after x y then x :: y :: r else y :: insert_desc x r
  end.

Definition order_desc (l : list Transaction) : list Transaction :=
  List.fold_right insert_desc [] l.

Inductive ResultSet :=
| RTransactions (rows : list Transaction)
| RTotals (total_income total_expenses : Z)
| RByCategory (rows : list (string * Z))
| RByUser (rows : list ((Z * string) * UserAgg)).

Definition run (db : DB) (st : Select) (args : list Arg) : ResultSet :=
  let keep := where_holds args (sel_where st) in
  match sel_proj st with
  | SelTransactions =>
      let rows := List.filter keep (transactions db) in
      RTransactions (if sel_ordered st then order_desc rows else rows)
  | SelTotals =>
      let rows := List.filter (fun r => keep (fst r)) (joined db) in
      RTotals (sumZ (List.map (fun r => income_amount (fst r)) rows))
              (sumZ (List.map (fun r => expense_amount (fst r)) rows))
  | SelByCategory =>
      let rows := List.filter (fun r => keep (fst r)) (joined db) in
      RByCategory (group_by Z.add (fun r => tx_Category (fst r))
                            (fun r => tx_Amount (fst r)) rows)
  | SelByUser =>
      let rows := List.filter (fun r => keep (fst r)) (joined db) in
      RByUser (group_by agg_add (fun r => (tx_UserID (fst r), u_Phone (snd r)))
                        (fun r => agg_of (fst r)) rows)
  end.

(** [db.Query(ctx, sql, args...)] / [db.QueryRow(ctx, sql, args...)]. *)
Definition Query (db : DB) (sql : string) (args : list Arg) : result ResultSet :=
  if negb (available db) then Err (Errorf "connection unavailable")
  else
    match parse sql with
    | None => Err (Errorf "syntax error")
    | Some st =>
        if args_ok args (sel_where st) then Ok (run db st args)
        else Err (Errorf "parameter mismatch")
    end.

(** [UPDATE transactions SET ... WHERE <target> RETURNING updated_at]: the
    rows it returns and the table afterwards. *)
Definition update_where (target : Transaction -> bool)
    (set : Transaction -> Transaction) (db : DB) : list Transaction * DB :=
  let rows := List.map (fun t => if target t then set t else t) (transactions db) in
  (List.map set (List.filter target (transactions db)),
   mkDB rows (users db) (available db) (now db)).

(** [DELETE FROM transactions WHERE <target>]: rows affected and the table
    afterwards. *)
Definition delete_where (target : Transaction -> bool) (db : DB) : nat * DB :=
  (length (List.filter target (transactions db)),
   mkDB (List.filter (fun t => negb (target t)) (transactions db))
        (users db) (available db) (now db)).

End pg.

(* ===================================================================== *)
(** ** internal/repository: transactionRepository *)
(* ===================================================================== *)

Module repository.

Import pg.

Definition nl : string := String (ascii_of_nat 10) EmptyString.

(** [fmt.Sprintf(before + "%d", d)]. *)
Definition Sprintf_d (before : string) (d : Z) : string := before +:+ Itoa d.

(** The three locals every query builder threads through its [if]s. *)
Record Builder := mkBuilder {
  conditions : list string;
  args : list Arg;
  argCount : Z
}.

(** [conditions = append(conditions, c); args = append(args, a)]. *)
Definition add_condition (c : string) (a : Arg) (b : Builder) : Builder :=
  mkBuilder (conditions b ++ [c]) (args b ++ [a]) (argCount b).

(** [argCount++]. *)
Definition incr (b : Builder) : Builder :=
  mkBuilder (conditions b) (args b) (argCount b + 1).

(** [if p != nil { ... }]. *)
Definition when_set {A} (p : option A) (body : A -> Builder -> Builder)
    (b : Builder) : Builder :=
  match p with
  | Some v => body v b
  | None => b
  end.

(** [if p != nil && *p != "" { ... }]. *)
Definition when_nonempty (p : option string) (body : string -> Builder -> Builder)
    (b : Builder) : Builder :=
  match p with
  | Some v => if String.eqb v "" then b else body v b
  | None => b
  end.

(** [QueryRow(...).Scan(&t.ID, ...)]: the first row, or [pgx.ErrNoRows]. *)
Definition scan_transaction (r : result ResultSet) : result Transaction :=
  match r with
  | Err e => Err e
  | Ok (RTransactions (t :: _)) => Ok t
  | Ok (RTransactions []) => Err ErrNoRows
  | Ok _ => Err (Errorf "number of field descriptions must equal number of destinations")
  end.

Definition FindByID_sql : string :=
  "SELECT id, user_id, amount, type, category, description, transaction_date, receipt_path, created_at, updated_at "
  +:+ nl +:+ "            FROM transactions WHERE id = $1".

(** FindByID retrieves a transaction by its ID; [Ok None] is the
    [return nil, nil] of a missing row. *)
Definition FindByID (db : DB) (id : Z) : result (option Transaction) :=
  match scan_transaction (Query db FindByID_sql [AInt id]) with
  | Ok t => Ok (Some t)
  | Err err =>
      if errors_Is err ErrNoRows then Ok None
      else Err (Wrapf "failed to find transaction by ID" err)
  end.

(** *** FindByUser *)

Definition FindByUser_head : string :=
  "SELECT id, user_id, amount, type, category, description, transaction_date, receipt_path, created_at, updated_at "
  +:+ nl +:+ "                               FROM transactions WHERE user_id = $1".

(** In FindByUser the clauses are written straight into the query builder;
    [conditions] holds the pieces in the order they are written. *)
Definition FindByUser_build (userID : Z) (filters : UserTransactionFilters) : Builder :=
  let b := mkBuilder [] [AInt userID] 2 in
  let b := when_nonempty (uf_Type filters) (fun v b =>
             incr (add_condition (Sprintf_d " AND type = $" (argCount b)) (AText v) b)) b in
  let b := when_nonempty (uf_Category filters) (fun v b =>
             incr (add_condition (Sprintf_d " AND category = $" (argCount b)) (AText v) b)) b in
  let b := when_set (uf_StartDate filters) (fun v b =>
             incr (add_condition (Sprintf_d " AND transaction_date >= $" (argCount b))
                                 (ATimestamp v) b)) b in
  let b := when_set (uf_EndDate filters) (fun v b =>
             add_condition (Sprintf_d " AND transaction_date <= $" (argCount b))
                           (ATimestamp v) b) b in
  b.

Definition FindByUser_sql (userID : Z) (filters : UserTransactionFilters) : string :=
  FindByUser_head
  +:+ String.concat "" (conditions (FindByUser_build userID filters))
  +:+ " ORDER BY transaction_date DESC, created_at DESC".

Definition FindByUser (db : DB) (userID : Z) (filters : UserTransactionFilters)
  : result (list Transaction) :=
  match Query db (FindByUser_sql userID filters)
              (args (FindByUser_build userID filters)) with
  | Err err => Err (Wrapf "failed to query transactions by user" err)
  | Ok (RTransactions rows) => Ok rows
  | Ok _ => Err (Wrapf "failed to scan transaction row"
                       (Errorf "number of field descriptions must equal number of destinations"))
  end.

(** *** Update, Delete, UpdateReceiptPath *)

Definition same_id (id : Z) (t : Transaction) : bool := tx_ID t =? id.

(** [SET amount = $1, type = $2, category = $3, description = $4,
    transaction_date = $5, updated_at = NOW()]. *)
Definition set_fields (src : Transaction) (at_ : Time) (row : Transaction) : Transaction :=
  mkTransaction (tx_ID row) (tx_UserID row) (tx_Amount src) (tx_Type src)
    (tx_Category src) (tx_Description src) (tx_TransactionDate src)
    (tx_ReceiptPath row) (tx_CreatedAt row) at_.

Definition with_UpdatedAt (t : Transaction) (at_ : Time) : Transaction :=
  mkTransaction (tx_ID t) (tx_UserID t) (tx_Amount t) (tx_Type t) (tx_Category t)
    (tx_Description t) (tx_TransactionDate t) (tx_ReceiptPath t) (tx_CreatedAt t) at_.

(** Update modifies an existing transaction ([WHERE id = $6 AND user_id = $7
    RETURNING updated_at]); the returned transaction is [t] after
    [Scan(&t.UpdatedAt)]. *)
Definition Update (db : DB) (t : Transaction) : result Transaction * DB :=
  if negb (available db)
  then (Err (Wrapf "failed to update transaction" (Errorf "connection unavailable")), db)
  else
    let '(returned, db') :=
      update_where (fun r => same_id (tx_ID t) r && (tx_UserID r =? tx_UserID t))
                   (set_fields t (now db)) db in
    match returned with
    | r :: _ => (Ok (with_UpdatedAt t (tx_UpdatedAt r)), db')
    | [] => (Err (Errorf "transaction not found or not owned by user for update"), db')
    end.

(** Delete removes a transaction from the database. *)
Definition Delete (db : DB) (id : Z) : result unit * DB :=
  if negb (available db)
  then (Err (Wrapf "failed to delete transaction" (Errorf "connection unavailable")), db)
  else
    let '(rowsAffected, db') := delete_where (same_id id) db in
    if Nat.eqb rowsAffected 0
    then (Err (Errorf "transaction not found for deletion"), db')
    else (Ok tt, db').

Definition set_receipt (receiptPath : string) (at_ : Time) (row : Transaction) : Transaction :=
  mkTransaction (tx_ID row) (tx_UserID row) (tx_Amount row) (tx_Type row)
    (tx_Category row) (tx_Description row) (tx_TransactionDate row)
    (Some receiptPath) (tx_CreatedAt row) at_.

(** UpdateReceiptPath updates the receipt path for a transaction. *)
Definition UpdateReceiptPath (db : DB) (id : Z) (receiptPath : string) : result unit * DB :=
  if negb (available db)
  then (Err (Wrapf "failed to update receipt path" (Errorf "connection unavailable")), db)
  else
    let '(returned, db') := update_where (same_id id) (set_receipt receiptPath (now db)) db in
    match returned with
    | _ :: _ => (Ok tt, db')
    | [] => (Err (Errorf "transaction not found for receipt path update"), db')
    end.

(** *** FindAll *)

Definition FindAll_head : string :=
  "SELECT t.id, t.user_id, t.amount, t.type, t.category, t.description, t.transaction_date, t.receipt_path, t.created_at, t.updated_at "
  +:+ nl +:+ "                               FROM transactions t".

Definition FindAll_build (filters : AdminTransactionFilters) : Builder :=
  let b := mkBuilder [] [] 1 in
  let b := when_set (af_UserID filters) (fun v b =>
             incr (add_condition (Sprintf_d "t.user_id = $" (argCount b)) (AInt v) b)) b in
  let b := when_nonempty (af_Type filters) (fun v b =>
             incr (add_condition (Sprintf_d "t.type = $" (argCount b)) (AText v) b)) b in
  let b := when_nonempty (af_Category filters) (fun v b =>
             incr (add_condition (Sprintf_d "t.category = $" (argCount b)) (AText v) b)) b in
  let b := when_set (af_StartDate filters) (fun v b =>
             incr (add_condition (Sprintf_d "t.transaction_date >= $" (argCount b))
                                 (ATimestamp v) b)) b in
  let b := when_set (af_EndDate filters) (fun v b =>
             add_condition (Sprintf_d "t.transaction_date <= $" (argCount b))
                           (ATimestamp v) b) b in
  b.

Definition FindAll_sql (filters : AdminTransactionFilters) : string :=
  let b := FindAll_build filters in
  let queryBuilder := FindAll_head in
  let queryBuilder :=
    if (0 <? length (conditions b))%nat
    then queryBuilder +:+ " WHERE " +:+ Join (conditions b) " AND "
    else queryBuilder in
  queryBuilder +:+ " ORDER BY t.transaction_date DESC, t.created_at DESC".

(** FindAll retrieves all transactions with optional filters for admin. *)
Definition FindAll (db : DB) (filters : AdminTransactionFilters)
  : result (list Transaction) :=
  match Query db (FindAll_sql filters) (args (FindAll_build filters)) with
  | Err err => Err (Wrapf "failed to query all transactions" err)
  | Ok (RTransactions rows) => Ok rows
  | Ok _ => Err (Wrapf "failed to scan transaction row for admin"
                       (Errorf "number of field descriptions must equal number of destinations"))
  end.

(** *** GetAggregatedStats *)

Definition baseQuery : string := "FROM transactions t JOIN users u ON t.user_id = u.id".

Definition stats_build (filters : AdminTransactionFilters) : Builder :=
  let b := mkBuilder [] [] 1 in
  let b := when_set (af_UserID filters) (fun v b =>
             incr (add_condition (Sprintf_d "t.user_id = $" (argCount b)) (AInt v) b)) b in
  let b := when_nonempty (af_Type filters) (fun v b =>
             incr (add_condition (Sprintf_d "t.type = $" (argCount b)) (AText v) b)) b in
  let b := when_nonempty (af_Category filters) (fun v b =>
             incr (add_condition (Sprintf_d "t.category = $" (argCount b)) (AText v) b)) b in
  let b := when_set (af_StartDate filters) (fun v b =>
             incr (add_condition (Sprintf_d "t.transaction_date >= $" (argCount b))
                                 (ATimestamp v) b)) b in
  let b := when_set (af_EndDate filters) (fun v b =>
             incr (add_condition (Sprintf_d "t.transaction_date <= $" (argCount b))
                                 (ATimestamp v) b)) b in
  b.

Definition whereClause (filters : AdminTransactionFilters) : string :=
  let b := stats_build filters in
  if (0 <? length (conditions b))%nat
  then " WHERE " +:+ Join (conditions b) " AND "
  else "".

(** Total Income and Expenses. *)
Definition sumQuery (filters : AdminTransactionFilters) : string :=
  nl +:+ "        SELECT " +:+ nl
  +:+ "            COALESCE(SUM(CASE WHEN t.type = 'income' THEN t.amount ELSE 0 END), 0) as total_income," +:+ nl
  +:+ "            COALESCE(SUM(CASE WHEN t.type = 'expense' THEN t.amount ELSE 0 END), 0) as total_expenses" +:+ nl
  +:+ "        " +:+ baseQuery +:+ " " +:+ whereClause filters.

(** The where clause and arguments of a category query, as they stand when
    the query is sent: [kind] is added as a further parameter only
    [if filters.Type == nil]. *)
Definition categoryWhereClause (filters : AdminTransactionFilters) : string :=
  let categoryWhereClause := whereClause filters in
  let categoryArgCount := argCount (stats_build filters) in
  match af_Type filters with
  | None =>
      if String.eqb categoryWhereClause ""
      then Sprintf_d " WHERE t.type = $" categoryArgCount
      else categoryWhereClause +:+ Sprintf_d " AND t.type = $" categoryArgCount
  | Some _ => categoryWhereClause
  end.

Definition categoryArgs (kind : string) (filters : AdminTransactionFilters) : list Arg :=
  let categoryArgs := args (stats_build filters) in
  match af_Type filters with
  | None => categoryArgs ++ [AText kind]
  | Some _ => categoryArgs
  end.

(** [categoryIncomeQuery] and [categoryExpenseQuery] are built from the same
    format string. *)
Definition categoryQuery (filters : AdminTransactionFilters) : string :=
  "SELECT t.category, COALESCE(SUM(t.amount), 0) " +:+ baseQuery +:+ " "
  +:+ categoryWhereClause filters +:+ " GROUP BY t.category".

Definition categoryIncomeQuery := categoryQuery.
Definition categoryExpenseQuery := categoryQuery.

(** [filters.Type == nil || (filters.Type != nil && *filters.Type == kind)]. *)
Definition grouping_requested (kind : string) (filters : AdminTransactionFilters) : bool :=
  match af_Type filters with
  | None => true
  | Some ty => String.eqb ty kind
  end.

(** By User Spending. *)
Definition userSpendingQuery (filters : AdminTransactionFilters) : string :=
  nl +:+ "        SELECT " +:+ nl
  +:+ "            t.user_id, " +:+ nl
  +:+ "            u.phone," +:+ nl
  +:+ "            COALESCE(SUM(CASE WHEN t.type = 'expense' THEN t.amount ELSE 0 END), 0) as total_spent," +:+ nl
  +:+ "            COALESCE(SUM(CASE WHEN t.type = 'income' THEN t.amount ELSE 0 END), 0) as total_income," +:+ nl
  +:+ "            COUNT(t.id) as transaction_count" +:+ nl
  +:+ "        " +:+ baseQuery +:+ " " +:+ whereClause filters
  +:+ " GROUP BY t.user_id, u.phone".

Definition out_of_range : error := Errorf "value out of range for int64".
Definition bad_columns : error :=
  Errorf "number of field descriptions must equal number of destinations".

(** [QueryRow(ctx, sumQuery, args...).Scan(&stats.TotalIncome,
    &stats.TotalExpenses)]: a SUM of bigint is numeric and scans into an
    int64 only when it is in range. *)
Definition scan_totals (r : result ResultSet) : result (Z * Z) :=
  match r with
  | Err e => Err e
  | Ok (RTotals i e) =>
      if fits_int64 i && fits_int64 e then Ok (i, e) else Err out_of_range
  | Ok _ => Err bad_columns
  end.

(** [for rows.Next() { rows.Scan(&category, &sum); m[category] = sum }]. *)
Fixpoint scan_category_rows (msg : string) (rows : list (string * Z))
    (m : GoMap string Z) : result (GoMap string Z) :=
  match rows with
  | [] => Ok m
  | (category, sum) :: rest =>
      if fits_int64 sum
      then
        match map_assign category sum m with
        | Some m' => scan_category_rows msg rest m'
        | None => Err (Errorf "assignment to entry in nil map")
        end
      else Err (Wrapf msg out_of_range)
  end.

(** [for rows.Next() { rows.Scan(&us.UserID, ...); m[us.UserID] = us }]. *)
Fixpoint scan_user_rows (rows : list ((Z * string) * UserAgg))
    (m : GoMap Z UserStat) : result (GoMap Z UserStat) :=
  match rows with
  | [] => Ok m
  | ((user_id, phone), (total_spent, total_income, transaction_count)) :: rest =>
      if fits_int64 total_spent && fits_int64 total_income
      then
        let us := mkUserStat user_id phone total_spent total_income transaction_count in
        match map_assign (us_UserID us) us m with
        | Some m' => scan_user_rows rest m'
        | None => Err (Errorf "assignment to entry in nil map")
        end
      else Err (Wrapf "failed to scan user stats" out_of_range)
  end.

(** One category block.  The blocks "By Category (Income)" and "By Category
    (Expense)" differ only in the type constant and in their error
    messages: the query is sent only when the grouping is requested,
    otherwise the map made at the top is left as it is. *)
Definition category_block (db : DB) (kind : string) (query_msg scan_msg : string)
    (filters : AdminTransactionFilters) (m : GoMap string Z) : result (GoMap string Z) :=
  if grouping_requested kind filters then
    match Query db (categoryQuery filters) (categoryArgs kind filters) with
    | Err err => Err (Wrapf query_msg err)
    | Ok (RByCategory rows) => scan_category_rows scan_msg rows m
    | Ok _ => Err (Wrapf scan_msg bad_columns)
    end
  else Ok m.

(** GetAggregatedStats calculates aggregated statistics for admin. *)
Definition GetAggregatedStats (db : DB) (filters : AdminTransactionFilters)
  : result AggregatedStats :=
  let stats := mkAggregatedStats 0 0 0 make_map make_map make_map in
  let args := args (stats_build filters) in
  (* Total Income and Expenses *)
  let* totals :=
    match scan_totals (Query db (sumQuery filters) args) with
    | Ok p => Ok p
    | Err err =>
        if negb (errors_Is err ErrNoRows)
        then Err (Wrapf "failed to get total income/expenses" err)
        else Ok (st_TotalIncome stats, st_TotalExpenses stats)
    end in
  let stats := mkAggregatedStats (fst totals) (snd totals) (st_Balance stats)
                 (st_ByCategoryIncome stats) (st_ByCategoryExpense stats)
                 (st_ByUserSpending stats) in
  let stats := mkAggregatedStats (st_TotalIncome stats) (st_TotalExpenses stats)
                 (sub64 (st_TotalIncome stats) (st_TotalExpenses stats))
                 (st_ByCategoryIncome stats) (st_ByCategoryExpense stats)
                 (st_ByUserSpending stats) in
  (* By Category (Income) *)
  let* byIncome :=
    category_block db TransactionTypeIncome "failed to get income by category"
      "failed to scan income by category" filters (st_ByCategoryIncome stats) in
  let stats := mkAggregatedStats (st_TotalIncome stats) (st_TotalExpenses stats)
                 (st_Balance stats) byIncome (st_ByCategoryExpense stats)
                 (st_ByUserSpending stats) in
  (* By Category (Expense) *)
  let* byExpense :=
    category_block db TransactionTypeExpense "failed to get expense by category"
      "failed to scan expense by category" filters (st_ByCategoryExpense stats) in
  let stats := mkAggregatedStats (st_TotalIncome stats) (st_TotalExpenses stats)
                 (st_Balance stats) (st_ByCategoryIncome stats) byExpense
                 (st_ByUserSpending stats) in
  (* By User Spending *)
  let* byUser :=
    match Query db (userSpendingQuery filters) args with
    | Err err => Err (Wrapf "failed to get stats by user" err)
    | Ok (RByUser rows) => scan_user_rows rows (st_ByUserSpending stats)
    | Ok _ => Err (Wrapf "failed to scan user stats" bad_columns)
    end in
  Ok (mkAggregatedStats (st_TotalIncome stats) (st_TotalExpenses stats)
        (st_Balance stats) (st_ByCategoryIncome stats) (st_ByCategoryExpense stats)
        byUser).

End repository.

(* ===================================================================== *)
(** ** encoding/csv: the Writer with its default settings *)
(* ===================================================================== *)

Module csv.

Definition quote : ascii := ascii_of_nat 34.
Definition comma : ascii := ","%char.
Definition LF : ascii := ascii_of_nat 10.
Definition CR : ascii := ascii_of_nat 13.

Fixpoint has_special (field : string) : bool :=
  match field with
  | EmptyString => false
  | String c r =>
      Ascii.eqb c LF || Ascii.eqb c CR || Ascii.eqb c quote || Ascii.eqb c comma
      || has_special r
  end.

(** [unicode.IsSpace] of the first rune, read off the UTF-8 bytes:
    tab, LF, VT, FF, CR, space, U+0085, U+00A0, U+1680, U+2000 to U+200A,
    U+2028, U+2029, U+202F, U+205F, U+3000. *)
Definition leading_space (bytes : list nat) : bool :=
  match bytes with
  | 9 :: _ | 10 :: _ | 11 :: _ | 12 :: _ | 13 :: _ | 32 :: _ => true
  | 194 :: 133 :: _ | 194 :: 160 :: _ => true
  | 225 :: 154 :: 128 :: _ => true
  | 226 :: 128 :: b :: _ =>
      ((128 <=? b) && (b <=? 138)) || (b =? 168) || (b =? 169) || (b =? 175)
  | 226 :: 129 :: 159 :: _ => true
  | 227 :: 128 :: 128 :: _ => true
  | _ => false
  end%nat.

(** [fieldNeedsQuotes]. *)
Definition fieldNeedsQuotes (field : string) : bool :=
  if String.eqb field "" then false
  else if String.eqb field "\." then true
  else if has_special field then true
  else leading_space (List.map nat_of_ascii (list_ascii_of_string field)).

(** Inside quotes a quote is doubled; CR and LF are written as they are. *)
Fixpoint escape (field : string) : string :=
  match field with
  | EmptyString => EmptyString
  | String c r =>
      if Ascii.eqb c quote then String quote (String quote (escape r))
      else String c (escape r)
  end.

Definition writeField (field : string) : string :=
  if fieldNeedsQuotes field
  then String quote (escape field) +:+ String quote EmptyString
  else field.

(** The bytes [Write(record)] appends to the buffer. *)
Definition encode_record (record : list string) : string :=
  String.concat "," (List.map writeField record) +:+ String LF EmptyString.

(** [w.Write(record)] on a writer over [buffer] (a [bytes.Buffer] never
    fails), followed at the end by [Flush]. *)
Definition Write (buffer : string) (record : list string) : string :=
  buffer +:+ encode_record record.

End csv.

(* ===================================================================== *)
(** ** internal/service: transactionService *)
(* ===================================================================== *)

Module service.

Import pg.

Definition MaxFileSize : Z := 5 * 1024 * 1024.

Definition GetTransactionByID (db : DB) (transactionID userID : Z) (userRole : string)
  : result Transaction :=
  match repository.FindByID db transactionID with
  | Err err => Err (Wrapf "failed to find transaction by ID" err)
  | Ok None => Err ErrTransactionNotFound
  | Ok (Some transaction) =>
      if negb (String.eqb userRole RoleAdmin) && negb (tx_UserID transaction =? userID)
      then Err ErrForbidden
      else Ok transaction
  end.

(** *** Date filters *)

(** [t.Hour() == 0 && t.Minute() == 0 && t.Second() == 0]. *)
Definition zero_clock (t : Time) : bool :=
  (Hour t =? 0) && (Minute t =? 0) && (Second t =? 0).

Definition startOfDay (t : Time) : Time :=
  Date (Year t) (Month t) (Day t) 0 0 0 0 (Loc t).

Definition endOfDay (t : Time) : Time :=
  Date (Year t) (Month t) (Day t) 23 59 59 999999999 (Loc t).

Definition with_StartDate (f : UserTransactionFilters) (d : option Time) :=
  mkUserTransactionFilters (uf_Type f) (uf_Category f) d (uf_EndDate f).

Definition with_EndDate (f : UserTransactionFilters) (d : option Time) :=
  mkUserTransactionFilters (uf_Type f) (uf_Category f) (uf_StartDate f) d.

(** Adjust date filters to cover the whole day if only date part is
    provided: the two [if]s at the top of GetUserTransactions. *)
Definition adjust_dates (filters : UserTransactionFilters) : UserTransactionFilters :=
  let filters :=
    match uf_StartDate filters with
    | Some sd =>
        if zero_clock sd then
          let startOfDay := startOfDay sd in
          let filters := with_StartDate filters (Some startOfDay) in
          match uf_EndDate filters with
          | None =>
              (* If only start date (a specific day) is given, set end date
                 to end of that day; filters.StartDate is startOfDay here *)
              with_EndDate filters (Some (endOfDay startOfDay))
          | Some _ => filters
          end
        else filters
    | None => filters
    end in
  match uf_EndDate filters with
  | Some ed => if zero_clock ed then with_EndDate filters (Some (endOfDay ed)) else filters
  | None => filters
  end.

Definition GetUserTransactions (db : DB) (userID : Z) (filters : UserTransactionFilters)
  : result (list Transaction) :=
  let filters := adjust_dates filters in
  wrap "failed to get user transactions from repo" (repository.FindByUser db userID filters).

(** *** Update and delete *)

(** Apply updates: the five [if req.X != nil] assignments and
    [existingTx.UpdatedAt = time.Now()]. *)
Definition apply_updates (req : UpdateTransactionRequest) (time_Now : Time)
    (existingTx : Transaction) : Transaction :=
  mkTransaction (tx_ID existingTx) (tx_UserID existingTx)
    (match ur_Amount req with Some v => v | None => tx_Amount existingTx end)
    (match ur_Type req with Some v => v | None => tx_Type existingTx end)
    (match ur_Category req with Some v => v | None => tx_Category existingTx end)
    (match ur_Description req with Some v => Some v | None => tx_Description existingTx end)
    (match ur_TransactionDate req with Some v => v | None => tx_TransactionDate existingTx end)
    (tx_ReceiptPath existingTx) (tx_CreatedAt existingTx) time_Now.

Definition UpdateTransaction (db : DB) (time_Now : Time) (transactionID userID : Z)
    (req : UpdateTransactionRequest) : result Transaction * DB :=
  match repository.FindByID db transactionID with
  | Err err => (Err (Wrapf "failed to find transaction for update" err), db)
  | Ok None => (Err ErrTransactionNotFound, db)
  | Ok (Some existingTx) =>
      if negb (tx_UserID existingTx =? userID) (* Only author can edit *)
      then (Err ErrForbidden, db)
      else
        let existingTx := apply_updates req time_Now existingTx in
        match repository.Update db existingTx with
        | (Err err, db') => (Err (Wrapf "failed to update transaction in repo" err), db')
        | (Ok existingTx, db') => (Ok existingTx, db')
        end
  end.

Definition DeleteTransaction (db : DB) (transactionID userID : Z) (userRole : string)
  : result unit * DB :=
  match repository.FindByID db transactionID with
  | Err err => (Err (Wrapf "failed to find transaction for deletion" err), db)
  | Ok None => (Err ErrTransactionNotFound, db)
  | Ok (Some existingTx) =>
      if negb (String.eqb userRole RoleAdmin) && negb (tx_UserID existingTx =? userID)
      then (Err ErrForbidden, db)
      else
        match repository.Delete db transactionID with
        | (Err err, db') => (Err (Wrapf "failed to delete transaction in repo" err), db')
        | (Ok _, db') => (Ok tt, db')
        end
  end.

(** *** Receipts *)

(** What the service uses of a [multipart.FileHeader]: its two fields and
    the outcome of [Open()] (the bytes of the upload, or an error). *)
Record FileHeader := mkFileHeader {
  Filename : string;
  Size : Z;
  Open : result string
}.

(** The file system and path functions of the host.  They are the receipt
    storage collaborator; the service only calls them, so they are taken as
    given.  An operation returns its error (if any) and the file system it
    leaves behind. *)
Record Host := mkHost {
  FS : Type;
  filepath_Join : list string -> string;
  filepath_Base : string -> string;
  filepath_ToSlash : string -> string;
  filepath_FromSlash : string -> string;
  os_MkdirAll : string -> FS -> option error * FS;
  os_Create : string -> FS -> option error * FS;
  io_Copy : string -> string -> FS -> option error * FS;
  os_Remove : string -> FS -> FS
}.

(** [allowedExts := map[string]bool{".jpg": true, ".jpeg": true, ".png":
    true, ".pdf": true}]; a missing key reads as false. *)
Definition allowedExts : gmap string bool :=
  <[".jpg" := true]> (<[".jpeg" := true]> (<[".png" := true]> (<[".pdf" := true]> ∅))).

Definition allowed (ext : string) : bool := default false (allowedExts !! ext).

Definition with_ReceiptPath (t : Transaction) (p : option string) : Transaction :=
  mkTransaction (tx_ID t) (tx_UserID t) (tx_Amount t) (tx_Type t) (tx_Category t)
    (tx_Description t) (tx_TransactionDate t) p (tx_CreatedAt t) (tx_UpdatedAt t).

Section Receipts.

Variable H : Host.

Definition UploadReceipt (db : DB) (fs : FS H) (transactionID userID : Z)
    (fileHeader : FileHeader) (baseUploadsDir : string)
  : result Transaction * DB * FS H :=
  match repository.FindByID db transactionID with
  | Err err => (Err (Wrapf "failed to find transaction for receipt upload" err), db, fs)
  | Ok None => (Err ErrTransactionNotFound, db, fs)
  | Ok (Some transaction) =>
      if negb (tx_UserID transaction =? userID)
         (* Only author can upload receipt for their transaction *)
      then (Err ErrForbidden, db, fs)
      (* Validate file *)
      else if MaxFileSize <? Size fileHeader then (Err ErrFileSizeExceeded, db, fs)
      else
        let ext := Ext (Filename fileHeader) in
        if negb (allowed (ToLower ext)) then (Err ErrInvalidFileFormat, db, fs)
        else
          let transactionUploadsDir :=
            filepath_Join H [baseUploadsDir; "transactions"; FormatInt transactionID] in
          match os_MkdirAll H transactionUploadsDir fs with
          | (Some err, fs) => (Err (Wrapf "failed to create upload directory" err), db, fs)
          | (None, fs) =>
              let fileName := filepath_Base H (Filename fileHeader) in
              let filePath := filepath_Join H [transactionUploadsDir; fileName] in
              let relativeFilePath := filepath_ToSlash H filePath in
              (* Save the file *)
              match Open fileHeader with
              | Err err => (Err (Wrapf "failed to open uploaded file" err), db, fs)
              | Ok src =>
                  match os_Create H filePath fs with
                  | (Some err, fs) =>
                      (Err (Wrapf "failed to create file on server" err), db, fs)
                  | (None, fs) =>
                      match io_Copy H filePath src fs with
                      | (Some err, fs) => (Err (Wrapf "failed to save file" err), db, fs)
                      | (None, fs) =>
                          (* Update transaction with receipt path *)
                          match repository.UpdateReceiptPath db transactionID
                                  relativeFilePath with
                          | (Err err, db') =>
                              let fs := os_Remove H filePath fs in (* Attempt to clean up *)
                              (Err (Wrapf "failed to update transaction with receipt path" err),
                               db', fs)
                          | (Ok _, db') =>
                              (Ok (with_ReceiptPath transaction (Some relativeFilePath)),
                               db', fs)
                          end
                      end
                  end
              end
          end
  end.

(** Returns path and filename. *)
Definition GetReceiptPath (db : DB) (transactionID userID : Z) (userRole : string)
  : result (string * string) :=
  match repository.FindByID db transactionID with
  | Err err => Err (Wrapf "failed to find transaction for receipt retrieval" err)
  | Ok None => Err ErrTransactionNotFound
  | Ok (Some transaction) =>
      if negb (String.eqb userRole RoleAdmin) && negb (tx_UserID transaction =? userID)
      then Err ErrForbidden
      else
        match tx_ReceiptPath transaction with
        | None => Err (Errorf "receipt not found for this transaction")
        | Some receiptPath =>
            if String.eqb receiptPath ""
            then Err (Errorf "receipt not found for this transaction")
            else
              let fullPath := filepath_FromSlash H receiptPath in
              let fileName := filepath_Base H fullPath in
              Ok (fullPath, fileName)
        end
  end.

End Receipts.

(** *** Admin methods *)

Definition GetAllTransactionsAdmin (db : DB) (filters : AdminTransactionFilters)
  : result (list Transaction) :=
  wrap "failed to get all transactions for admin" (repository.FindAll db filters).

Definition GetStatisticsAdmin (db : DB) (filters : AdminTransactionFilters)
  : result AggregatedStats :=
  wrap "failed to get aggregated stats for admin" (repository.GetAggregatedStats db filters).

Definition header : list string :=
  ["ID"; "UserID"; "Amount"; "Type"; "Category"; "Description";
   "TransactionDate"; "CreatedAt"; "ReceiptPath"].

(** The [row] built in the loop body for transaction [t]. *)
Definition csv_row (t : Transaction) : list string :=
  let desc := match tx_Description t with Some d => d | None => "" end in
  let receiptPath := match tx_ReceiptPath t with Some r => r | None => "" end in
  [ FormatInt (tx_ID t);
    Itoa (tx_UserID t);
    FormatInt (tx_Amount t); (* Amount in cents *)
    tx_Type t;
    tx_Category t;
    desc;
    Format_RFC3339 (tx_TransactionDate t);
    Format_RFC3339 (tx_CreatedAt t);
    receiptPath ].

Definition ExportTransactionsCSVAdmin (db : DB) (filters : AdminTransactionFilters)
  : result string :=
  match repository.FindAll db filters with
  | Err err => Err (Wrapf "failed to fetch transactions for CSV export" err)
  | Ok transactions =>
      let buffer := "" in
      (* Write header *)
      let buffer := csv.Write buffer header in
      (* Write rows *)
      let buffer :=
        List.fold_left (fun buffer t => csv.Write buffer (csv_row t)) transactions buffer in
      Ok buffer
  end.

(** *** The calls the routes make *)

(** The identity the JWT middleware stores in the request context. *)
Record Caller := mkCaller { authUser : Z; authRole : string }.

(** The five routes on a single transaction, with what the request carries
    besides the id. *)
Inductive Operation :=
| OpGet
| OpUpdate (time_Now : Time) (req : UpdateTransactionRequest)
| OpDelete
| OpUploadReceipt (file : FileHeader) (uploadsDir : string)
| OpGetReceipt.

(** The error (if any) the service answers the route's handler with; each
    handler passes the caller's id, and the role where the service method
    takes one. *)
Definition attempt (H : Host) (db : DB) (fs : FS H) (c : Caller) (op : Operation)
    (transactionID : Z) : option error :=
  let answer {A} (r : result A) : option error :=
    match r with Ok _ => None | Err e => Some e end in
  match op with
  | OpGet => answer (GetTransactionByID db transactionID (authUser c) (authRole c))
  | OpUpdate time_Now req =>
      answer (fst (UpdateTransaction db time_Now transactionID (authUser c) req))
  | OpDelete => answer (fst (DeleteTransaction db transactionID (authUser c) (authRole c)))
  | OpUploadReceipt file uploadsDir =>
      answer (fst (fst (UploadReceipt H db fs transactionID (authUser c) file uploadsDir)))
  | OpGetReceipt => answer (GetReceiptPath H db transactionID (authUser c) (authRole c))
  end.

End service.

(* ===================================================================== *)
(** ** internal/handler: how the admin routes fill the filter *)
(* ===================================================================== *)

Module handler.

(** GetAllTransactionsAdmin, GetStatisticsAdmin and ExportTransactionsCSVAdmin
    read the same five query parameters.  [user_id], [start_date] and
    [end_date] are given here as the handler has them after [strconv.Atoi]
    and [time.Parse("2006-01-02", ...)] ([None] for an empty parameter; a
    malformed one ends the request with status 400 before any filter is
    built); [type] and [category] are the raw strings. *)
Definition admin_filters (user_id : option Z) (typeParam categoryParam : string)
    (start_date end_date : option Time) : AdminTransactionFilters :=
  mkAdminTransactionFilters
    user_id
    start_date
    (match end_date with
     | Some parsedDate =>
         (* Adjust end date to include the whole day *)
         Some (Date (Year parsedDate) (Month parsedDate) (Day parsedDate)
                    23 59 59 999999999 (Loc parsedDate))
     | None => None
     end)
    (if String.eqb categoryParam "" then None else Some categoryParam)
    (if String.eqb typeParam "" then None else Some typeParam).

End handler.

(* ===================================================================== *)
(** ** Vocabulary of the specification *)
(* ===================================================================== *)

(** What the statements below are phrased in: the filter as a predicate on
    rows, the filtered subset, sums and groupings over it, and the shape of
    a filter (which fields are present). *)

Module spec.

Import pg repository service.

(** *** The filter specification as a predicate *)

(** One entry per constrained field, in the order the builders test them:
    column, comparison, bound value.  A text field that points at the empty
    string constrains nothing. *)
Definition Clause : Type := (Column * Cmp * Arg)%type.

Definition clauses (F : AdminTransactionFilters) : list Clause :=
  match af_UserID F with Some v => [(ColUserID, CmpEq, AInt v)] | None => [] end
  ++ match af_Type F with
     | Some v => if String.eqb v "" then [] else [(ColType, CmpEq, AText v)]
     | None => []
     end
  ++ match af_Category F with
     | Some v => if String.eqb v "" then [] else [(ColCategory, CmpEq, AText v)]
     | None => []
     end
  ++ match af_StartDate F with
     | Some v => [(ColTransactionDate, CmpGe, ATimestamp v)]
     | None => []
     end
  ++ match af_EndDate F with
     | Some v => [(ColTransactionDate, CmpLe, ATimestamp v)]
     | None => []
     end.

(** The clauses of a category query: the type restriction comes on top when
    the filter has no type field. *)
Definition category_clauses (kind : string) (F : AdminTransactionFilters) : list Clause :=
  match af_Type F with
  | None => clauses F ++ [(ColType, CmpEq, AText kind)]
  | Some _ => clauses F
  end.

(** The clauses of a user listing: the owner first, then the filter. *)
Definition user_clauses (userID : Z) (f : UserTransactionFilters) : list Clause :=
  [(ColUserID, CmpEq, AInt userID)]
  ++ match uf_Type f with
     | Some v => if String.eqb v "" then [] else [(ColType, CmpEq, AText v)]
     | None => []
     end
  ++ match uf_Category f with
     | Some v => if String.eqb v "" then [] else [(ColCategory, CmpEq, AText v)]
     | None => []
     end
  ++ match uf_StartDate f with
     | Some v => [(ColTransactionDate, CmpGe, ATimestamp v)]
     | None => []
     end
  ++ match uf_EndDate f with
     | Some v => [(ColTransactionDate, CmpLe, ATimestamp v)]
     | None => []
     end.

(** The conditions a statement carries for [cl], placeholders numbered
    from [n]. *)
Fixpoint numbered (n : nat) (cl : list Clause) : list Cond :=
  match cl with
  | [] => []
  | (c, o, _) :: r => mkCond c o n :: numbered (S n) r
  end.

Definition holds (cl : list Clause) (t : Transaction) : bool :=
  forallb (fun '(c, o, a) => compare o (col_value c t) a) cl.

(** A row matches the filter when every constrained field agrees. *)
Definition matches (F : AdminTransactionFilters) (t : Transaction) : bool :=
  holds (clauses F) t.

(** The filtered subset the statistics are computed over. *)
Definition matching (db : DB) (F : AdminTransactionFilters) : list (Transaction * User) :=
  List.filter (fun r => matches F (fst r)) (joined db).

Definition category_rows (kind : string) (db : DB) (F : AdminTransactionFilters)
  : list (Transaction * User) :=
  List.filter (fun r => holds (category_clauses kind F) (fst r)) (joined db).

Definition of_kind (kind : string) (rows : list (Transaction * User))
  : list (Transaction * User) :=
  List.filter (fun r => String.eqb (tx_Type (fst r)) kind) rows.

(** *** Sums and groupings *)

Definition total_income (rows : list (Transaction * User)) : Z :=
  sumZ (List.map (fun r => income_amount (fst r)) rows).

Definition total_expenses (rows : list (Transaction * User)) : Z :=
  sumZ (List.map (fun r => expense_amount (fst r)) rows).

(** The entry of category [c] in a grouping of [rows]: absent when no row
    has the category, their summed amount otherwise. *)
Definition category_sum (rows : list (Transaction * User)) (c : string) : option Z :=
  match List.filter (fun r => String.eqb (tx_Category (fst r)) c) rows with
  | [] => None
  | g => Some (sumZ (List.map (fun r => tx_Amount (fst r)) g))
  end.

(** The entry of owner [uid] in the per-owner breakdown of [rows]. *)
Definition owner_stat (rows : list (Transaction * User)) (uid : Z) : option UserStat :=
  match List.filter (fun r => tx_UserID (fst r) =? uid) rows with
  | [] => None
  | r :: g =>
      Some (mkUserStat uid (u_Phone (snd r)) (total_expenses (r :: g))
              (total_income (r :: g)) (Z.of_nat (length (r :: g))))
  end.

(** The sum of [f] over the values of a map. *)
Definition sum_with {K V} `{Countable K} (f : V -> Z) (m : gmap K V) : Z :=
  map_fold (fun _ v acc => f v + acc) 0 m.

(** The sum of the values of a category map (ranging over a nil map visits
    nothing). *)
Definition values_sum (m : GoMap string Z) : Z :=
  match m with
  | MkMap g => sum_with (fun v => v) g
  | NilMap => 0
  end.

(** Amounts are not negative and the table as a whole sums within int64. *)
Definition amounts_bounded (db : DB) : Prop :=
  (forall t, In t (transactions db) -> 0 <= tx_Amount t)
  /\ sumZ (List.map tx_Amount (transactions db)) <= int64_max.

(** *** The shape of a filter *)

Definition present {A} (p : option A) : bool :=
  match p with
  | Some _ => true
  | None => false
  end.

(** For a text field: absent, present and empty, or present and non-empty. *)
Definition text_presence (p : option string) : option bool :=
  match p with
  | Some v => Some (String.eqb v "")
  | None => None
  end.

Record Shape := mkShape {
  sh_UserID : bool;
  sh_Type : option bool;
  sh_Category : option bool;
  sh_StartDate : bool;
  sh_EndDate : bool
}.

Definition shape (F : AdminTransactionFilters) : Shape :=
  mkShape (present (af_UserID F)) (text_presence (af_Type F))
    (text_presence (af_Category F)) (present (af_StartDate F)) (present (af_EndDate F)).

(** The same fields are present, and type and category are equally empty
    or non-empty. *)
Definition same_shape (F F' : AdminTransactionFilters) : Prop := shape F = shape F'.

Definition epoch : Time := Date 1970 1 1 0 0 0 0 UTC.

Definition placeholder {A} (d : A) (b : bool) : option A :=
  if b then Some d else None.

Definition placeholder_text (b : option bool) : option string :=
  match b with
  | Some true => Some ""
  | Some false => Some "?"
  | None => None
  end.

(** The filter of shape [s] whose values are fixed placeholders. *)
Definition skeleton (s : Shape) : AdminTransactionFilters :=
  mkAdminTransactionFilters (placeholder 0 (sh_UserID s)) (placeholder epoch (sh_StartDate s))
    (placeholder epoch (sh_EndDate s)) (placeholder_text (sh_Category s))
    (placeholder_text (sh_Type s)).

Definition column_name (c : Column) : string :=
  match c with
  | ColID => "t.id"
  | ColUserID => "t.user_id"
  | ColType => "t.type"
  | ColCategory => "t.category"
  | ColTransactionDate => "t.transaction_date"
  end.

Definition cmp_text (o : Cmp) : string :=
  match o with
  | CmpEq => "="
  | CmpGe => ">="
  | CmpLe => "<="
  end.

(** [column cmp $n] for each clause, numbered from [n]: the text of a
    clause names the column and the placeholder, never the value. *)
Fixpoint rendered (n : Z) (cl : list Clause) : list string :=
  match cl with
  | [] => []
  | (c, o, _) :: r =>
      (column_name c +:+ " " +:+ cmp_text o +:+ " $" +:+ Itoa n) :: rendered (n + 1) r
  end.

(** *** Access policy *)

(** The operations whose service method takes the caller's role. *)
Definition role_sensitive (op : Operation) : bool :=
  match op with
  | OpGet | OpDelete | OpGetReceipt => true
  | OpUpdate _ _ | OpUploadReceipt _ _ => false
  end.

(** *** Auxiliary notions used in the proofs *)

(** First value stored under [k] in an association list. *)
Fixpoint alookup {K V} `{EqDecision K} (k : K) (l : list (K * V)) : option V :=
  match l with
  | [] => None
  | (k', v) :: r => if decide (k = k') then Some v else alookup k r
  end.

(** The map after [m[k] = v] for each row in turn. *)
Definition assign_all {K V} `{Countable K} (rows : list (K * V)) (m : gmap K V)
  : gmap K V :=
  List.fold_left (fun m kv => <[fst kv := snd kv]> m) rows m.

Definition group_step {R K V} `{EqDecision K} (op : V -> V -> V) (key : R -> K)
    (val : R -> V) (gs : list (K * V)) (r : R) : list (K * V) :=
  group_add op (key r) (val r) gs.

Definition group_of {R K} `{EqDecision K} (key : R -> K) (k : K) (rows : list R)
  : list R :=
  List.filter (fun r => bool_decide (key r = k)) rows.

Definition group_total {R V} (val : R -> V) (f : V -> Z) (start : option Z)
    (g : list R) : option Z :=
  match start, g with
  | None, [] => None
  | _, _ => Some (default 0 start + sumZ (List.map (fun r => f (val r)) g))
  end.

Definition category_groups (rows : list (Transaction * User)) : list (string * Z) :=
  group_by Z.add (fun r => tx_Category (fst r)) (fun r => tx_Amount (fst r)) rows.

Definition user_key (r : Transaction * User) : Z * string :=
  (tx_UserID (fst r), u_Phone (snd r)).

Definition user_groups (rows : list (Transaction * User))
  : list ((Z * string) * UserAgg) :=
  group_by agg_add user_key (fun r => agg_of (fst r)) rows.

(** The map entry [scan_user_rows] stores for one result row. *)
Definition to_stat (g : (Z * string) * UserAgg) : Z * UserStat :=
  let '((user_id, phone), (total_spent, total_income, transaction_count)) := g in
  (user_id, mkUserStat user_id phone total_spent total_income transaction_count).

Definition spent (a : UserAgg) : Z := fst (fst a).
Definition received (a : UserAgg) : Z := snd (fst a).
Definition counted (a : UserAgg) : Z := snd a.

(** The user of a joined row is the one the users table gives its owner. *)
Definition owned_by (db : DB) (r : Transaction * User) : Prop :=
  users db !! tx_UserID (fst r) = Some (snd r).

End spec.

(* ===================================================================== *)
(** ** Sample data *)
(* ===================================================================== *)

Module sample.

Import pg repository service.

Definition food : Transaction :=
  mkTransaction 1 1 1000 "expense" "food" None (Date 2024 1 5 12 0 0 0 UTC) None
    (Date 2024 1 5 12 0 1 0 UTC) (Date 2024 1 5 12 0 1 0 UTC).

Definition salary : Transaction :=
  mkTransaction 2 1 5000 "income" "salary" (Some "january") (Date 2024 1 10 9 0 0 0 UTC)
    None (Date 2024 1 10 9 0 1 0 UTC) (Date 2024 1 10 9 0 1 0 UTC).

Definition taxi : Transaction :=
  mkTransaction 3 2 700 "expense" "transport" None (Date 2024 1 7 18 30 0 0 UTC)
    (Some "uploads/transactions/3/taxi.pdf")
    (Date 2024 1 7 18 30 1 0 UTC) (Date 2024 1 7 18 30 1 0 UTC).

Definition owner1 : User := mkUser 1 "+100" "h1" "user" (Date 2023 12 1 0 0 0 0 UTC).
Definition owner2 : User := mkUser 2 "+200" "h2" "user" (Date 2023 12 2 0 0 0 0 UTC).
Definition root : User := mkUser 9 "+900" "h9" "admin" (Date 2023 12 3 0 0 0 0 UTC).

Definition ledger : DB :=
  mkDB [food; salary; taxi] (<[1 := owner1]> (<[2 := owner2]> (<[9 := root]> ∅))) true
       (Date 2024 2 1 0 0 0 0 UTC).

Definition no_filter : AdminTransactionFilters :=
  mkAdminTransactionFilters None None None None None.

Definition by_owner1 : AdminTransactionFilters :=
  mkAdminTransactionFilters (Some 1) None None None None.

Definition only_income : AdminTransactionFilters :=
  mkAdminTransactionFilters None None None None (Some "income").

Definition only_expense : AdminTransactionFilters :=
  mkAdminTransactionFilters None None None None (Some "expense").

(** Two filters of one shape: type and category present, with different
    values (one of them hostile). *)
Definition food_expenses : AdminTransactionFilters :=
  mkAdminTransactionFilters None None None (Some "food") (Some "expense").

Definition hostile : AdminTransactionFilters :=
  mkAdminTransactionFilters None None None (Some "x' OR '1'='1") (Some "income; DROP TABLE users").

(** A type field that points at the empty string. *)
Definition empty_type : AdminTransactionFilters :=
  mkAdminTransactionFilters None None None None (Some "").

Definition stats_all : AggregatedStats :=
  mkAggregatedStats 5000 1700 3300 (MkMap {["salary" := 5000]})
    (MkMap (<["food" := 1000]> {["transport" := 700]}))
    (MkMap (<[1 := mkUserStat 1 "+100" 1000 5000 2]> {[2 := mkUserStat 2 "+200" 700 0 1]})).

Definition stats_owner1 : AggregatedStats :=
  mkAggregatedStats 5000 1000 4000 (MkMap {["salary" := 5000]}) (MkMap {["food" := 1000]})
    (MkMap {[1 := mkUserStat 1 "+100" 1000 5000 2]}).

Definition stats_income : AggregatedStats :=
  mkAggregatedStats 5000 0 5000 (MkMap {["salary" := 5000]}) (MkMap ∅)
    (MkMap {[1 := mkUserStat 1 "+100" 0 5000 1]}).

Definition stats_expense : AggregatedStats :=
  mkAggregatedStats 0 1700 (-1700) (MkMap ∅)
    (MkMap (<["food" := 1000]> {["transport" := 700]}))
    (MkMap (<[1 := mkUserStat 1 "+100" 1000 0 1]> {[2 := mkUserStat 2 "+200" 700 0 1]})).

Definition jan5 : Time := Date 2024 1 5 0 0 0 0 UTC.

Fixpoint base_scan (rev_path : list ascii) (suffix : string) : string :=
  match rev_path with
  | [] => suffix
  | c :: rest => if Ascii.eqb c slash then suffix else base_scan rest (String c suffix)
  end.

(** An in-memory host: files are a map from path to contents, directories
    always exist, no operation fails. *)
Definition memory_host : Host :=
  mkHost (gmap string string)
    (fun elems => String.concat "/" elems)
    (fun path => base_scan (rev (list_ascii_of_string path)) EmptyString)
    (fun path => path)
    (fun path => path)
    (fun _ fs => (None, fs))
    (fun path fs => (None, <[path := ""]> fs))
    (fun path src fs => (None, <[path := src]> fs))
    (fun path fs => delete path fs).

Definition no_files : FS memory_host := ∅.

Definition big_scan : FileHeader := mkFileHeader "scan.pdf" 6000000 (Ok "%PDF").
Definition script : FileHeader := mkFileHeader "run.EXE" 120 (Ok "MZ").
Definition receipt_pdf : FileHeader := mkFileHeader "Taxi.PDF" 2048 (Ok "%PDF").

Definition admin_caller : Caller := mkCaller 9 RoleAdmin.
Definition owner1_caller : Caller := mkCaller 1 RoleUser.
Definition owner2_caller : Caller := mkCaller 2 RoleUser.

Definition rename_request : UpdateTransactionRequest :=
  mkUpdateTransactionRequest None None (Some "travel") None None.

End sample.

Import pg repository service handler spec sample.

(** Case analysis on which fields of an admin filter are present, and on
    whether type and category are empty. *)
Ltac cases_filter F :=
  destruct F as [[?u|] [?sd|] [?ed|] [[|?c0 ?c]|] [[|?k0 ?k]|]].

Ltac cases_user_filter f :=
  destruct f as [[[|?k0 ?k]|] [[|?c0 ?c]|] [?sd|] [?ed|]].

(* ===================================================================== *)
(** ** internal/config: what AutoMigrate declares about the columns *)
(* ===================================================================== *)

Module schema.

(** The characters of a text in UTF-8: a byte [10xxxxxx] continues the
    character opened before it.  (Texts bound to a statement are taken to be
    well-formed UTF-8 without a zero byte; the server refuses any other.) *)
Definition continuation (c : ascii) : bool :=
  let n := nat_of_ascii c in (128 <=? n)%nat && (n <? 192)%nat.

Fixpoint chars (s : string) : list string :=
  match s with
  | EmptyString => []
  | String c r =>
      let rest := chars r in
      let opens_next :=
        match r with
        | String c' _ => negb (continuation c')
        | EmptyString => true
        end in
      match rest with
      | g :: gs => if opens_next then String c EmptyString :: rest else String c g :: gs
      | [] => [String c EmptyString]
      end
  end.

(** Storing a text in a [VARCHAR(n)] column: a longer text is refused,
    unless everything past the [n]-th character is spaces, which are cut. *)
Definition varchar (n : nat) (s : string) : option string :=
  let cs := chars s in
  if (length cs <=? n)%nat then Some s
  else if forallb (String.eqb " ") (skipn n cs)
       then Some (String.concat "" (firstn n cs))
       else None.

(** [CHECK (type IN ('income', 'expense'))]. *)
Definition type_check (type : string) : bool :=
  String.eqb type "income" || String.eqb type "expense".

(** [CHECK (role IN ('user', 'admin'))]. *)
Definition role_check (role : string) : bool :=
  String.eqb role "user" || String.eqb role "admin".

(** The last value of the sequence behind a [SERIAL] column. *)
Definition serial_max : Z := 2 ^ 31 - 1.

(** The last value of the sequence behind a [BIGSERIAL] column. *)
Definition bigserial_max : Z := 2 ^ 63 - 1.

End schema.

(* ===================================================================== *)
(** ** internal/repository: the user repository *)
(* ===================================================================== *)

Module user_repo.

Import pg schema.

Definition with_ID (user : User) (id : Z) : User :=
  mkUser id (u_Phone user) (u_PasswordHash user) (u_Role user) (u_CreatedAt user).

(** The rows of [users], each read through its columns: [id] is the key the
    row is stored under. *)
Definition rows (db : DB) : list User :=
  List.map (fun kv => with_ID (snd kv) (fst kv)) (map_to_list (users db)).

Definition has_phone (phone : string) (u : User) : bool := String.eqb (u_Phone u) phone.

(** Create inserts a new user into the database.  [users_id_seq] is the
    next value of the sequence behind [id]; the statement draws it before
    the row is checked, so a refused row still uses it up.  The result is
    the user after [Scan(&user.ID)], the table and the sequence.  (A table
    keeps a timestamp as the value that was bound; what is stated about the
    timestamp of a row is stated of its [timestamptz].) *)
Definition Create (db : DB) (users_id_seq : Z) (user : User) : result User * DB * Z :=
  let failed cause := Err (Wrapf "failed to create user" (Errorf cause)) in
  if negb (available db) then (failed "connection unavailable", db, users_id_seq)
  else if serial_max <? users_id_seq
  then (failed "nextval: reached maximum value of sequence", db, users_id_seq)
  else
    let id := users_id_seq in
    let users_id_seq := users_id_seq + 1 in
    if negb (role_check (u_Role user))
    then (failed "new row violates check constraint", db, users_id_seq)
    else if bool_decide (is_Some (users db !! id))
    then (failed "duplicate key value violates unique constraint users_pkey",
          db, users_id_seq)
    else if existsb (has_phone (u_Phone user)) (rows db)
    then (failed "duplicate key value violates unique constraint users_phone_key",
          db, users_id_seq)
    else
      let user := with_ID user id in
      (Ok user,
       mkDB (transactions db) (<[id := user]> (users db)) (available db) (now db),
       users_id_seq).

(** FindByPhone retrieves a user by their phone number; [Ok None] is the
    [return nil, nil] of a missing row. *)
Definition FindByPhone (db : DB) (phone : string) : result (option User) :=
  if negb (available db)
  then Err (Wrapf "failed to find user by phone" (Errorf "connection unavailable"))
  else Ok (List.find (has_phone phone) (rows db)).

(** FindByID retrieves a user by their ID. *)
Definition FindByID (db : DB) (id : Z) : result (option User) :=
  if negb (available db)
  then Err (Wrapf "failed to find user by ID" (Errorf "connection unavailable"))
  else Ok (match users db !! id with
           | Some u => Some (with_ID u id)
           | None => None
           end).

End user_repo.

(* ===================================================================== *)
(** ** internal/service: registration and login *)
(* ===================================================================== *)

Module auth_service.

Import pg.

Definition ErrUserAlreadyExists : error :=
  Errorf "user with this phone number already exists".
Definition ErrUserNotFound : error := Errorf "user not found".
Definition ErrInvalidCredentials : error := Errorf "invalid phone or password".

(** What Register and Login return: the user (nil or not), the token and
    the error. *)
Definition Reply : Type := (option User * string * option error)%type.

Section Auth.

(** The password hashing of package utils and the token signing of
    [JWTUtil] are the collaborators of the service; it only calls them, so
    they are taken as given, as is the environment variable it reads. *)
Variable HashPassword : string -> result string.
Variable CheckPasswordHash : string -> string -> bool.
Variable GenerateToken : Z -> string -> result string.
Variable INITIAL_ADMIN_PHONE : string.

(** The [(user, err)] pair a repository lookup hands back. *)
Definition found (r : result (option User)) : option User :=
  match r with
  | Ok u => u
  | Err _ => None
  end.

Definition failure (r : result (option User)) : option error :=
  match r with
  | Ok _ => None
  | Err e => Some e
  end.

(** [err != nil && !errors.Is(err, pgx.ErrNoRows)]: the error the caller
    returns with, if it does. *)
Definition unexpected (err : option error) : option error :=
  match err with
  | Some err => if negb (errors_Is err ErrNoRows) then Some err else None
  | None => None
  end.

(** Register creates a new user account. *)
Definition Register (db : DB) (users_id_seq : Z) (time_Now : Time)
    (phone password : string) : Reply * DB * Z :=
  let lookup := user_repo.FindByPhone db phone in
  let existingUser := found lookup in
  match unexpected (failure lookup) with
  | Some err =>
      ((None, "", Some (Wrapf "failed to check existing user" err)), db, users_id_seq)
  | None =>
      match existingUser with
      | Some _ => ((None, "", Some ErrUserAlreadyExists), db, users_id_seq)
      | None =>
          match HashPassword password with
          | Err err =>
              ((None, "", Some (Wrapf "failed to hash password" err)), db, users_id_seq)
          | Ok hashedPassword =>
              let userRole := RoleUser in (* Default role *)
              (* Check for initial admin setup via environment variable *)
              let initialAdminPhone := INITIAL_ADMIN_PHONE in
              let userRole :=
                if negb (String.eqb initialAdminPhone "")
                   && String.eqb phone initialAdminPhone
                then RoleAdmin else userRole in
              let user := mkUser 0 phone hashedPassword userRole time_Now in
              match user_repo.Create db users_id_seq user with
              | (Err err, db, users_id_seq) =>
                  ((None, "", Some (Wrapf "failed to create user in repository" err)),
                   db, users_id_seq)
              | (Ok user, db, users_id_seq) =>
                  match GenerateToken (u_ID user) (u_Role user) with
                  | Err err =>
                      ((Some user, "",
                        Some (Wrapf "user created, but failed to generate token" err)),
                       db, users_id_seq)
                  | Ok token => ((Some user, token, None), db, users_id_seq)
                  end
              end
          end
      end
  end.

(** Login authenticates a user and returns a JWT token. *)
Definition Login (db : DB) (phone password : string) : Reply :=
  let lookup := user_repo.FindByPhone db phone in
  let user := found lookup in
  match unexpected (failure lookup) with
  | Some err => (* Handle actual DB errors *)
      (None, "", Some (Wrapf "error finding user by phone" err))
  | None =>
      match user with
      | None => (None, "", Some ErrInvalidCredentials) (* User not found *)
      | Some user =>
          if negb (CheckPasswordHash password (u_PasswordHash user))
          then (None, "", Some ErrInvalidCredentials) (* Password mismatch *)
          else
            match GenerateToken (u_ID user) (u_Role user) with
            | Err err => (None, "", Some (Wrapf "failed to generate token" err))
            | Ok token => (Some user, token, None)
            end
      end
  end.

End Auth.

End auth_service.

(* ===================================================================== *)
(** ** Creating a transaction *)
(* ===================================================================== *)

Module creation.

Import pg repository schema.

Record CreateTransactionRequest := mkCreateTransactionRequest {
  cr_Amount : Z;
  cr_Type : string;
  cr_Category : string;
  cr_Description : option string;
  cr_TransactionDate : Time
}.

(** [t.IsZero()]: the instant January 1, year 1, 00:00:00 UTC. *)
Definition IsZero (t : Time) : bool :=
  (Unix t =? Unix (Date 1 1 1 0 0 0 0 UTC)) && (Nanosecond t =? 0).

Definition returning (t : Transaction) (row : Transaction) : Transaction :=
  mkTransaction (tx_ID row) (tx_UserID t) (tx_Amount t) (tx_Type t) (tx_Category t)
    (tx_Description t) (tx_TransactionDate t) (tx_ReceiptPath t)
    (tx_CreatedAt row) (tx_UpdatedAt row).

(** Create inserts a new transaction into the database.
    [transactions_id_seq] is the next value of the sequence behind [id]; the
    statement draws it before the row is checked, so a refused row still
    uses it up.  The result is [t] after
    [Scan(&t.ID, &t.CreatedAt, &t.UpdatedAt)], the table and the sequence.
    (A table keeps a timestamp as the value that was bound; what is stated
    about the timestamps of a row is stated of their [timestamptz].) *)
Definition Create (db : DB) (transactions_id_seq : Z) (t : Transaction)
  : result Transaction * DB * Z :=
  let failed cause := Err (Wrapf "failed to create transaction" (Errorf cause)) in
  if negb (available db) then (failed "connection unavailable", db, transactions_id_seq)
  else if bigserial_max <? transactions_id_seq
  then (failed "nextval: reached maximum value of sequence", db, transactions_id_seq)
  else
    let id := transactions_id_seq in
    let transactions_id_seq := transactions_id_seq + 1 in
    match varchar 100 (tx_Category t) with
    | None => (failed "value too long for type character varying(100)",
               db, transactions_id_seq)
    | Some category =>
        if negb (type_check (tx_Type t))
        then (failed "new row violates check constraint", db, transactions_id_seq)
        else if existsb (same_id id) (transactions db)
        then (failed "duplicate key value violates unique constraint", db,
              transactions_id_seq)
        else if negb (bool_decide (is_Some (users db !! tx_UserID t)))
        then (failed "insert violates foreign key constraint", db, transactions_id_seq)
        else
          let row :=
            mkTransaction id (tx_UserID t) (tx_Amount t) (tx_Type t) category
              (tx_Description t) (tx_TransactionDate t) (tx_ReceiptPath t)
              (tx_CreatedAt t) (tx_UpdatedAt t) in
          (Ok (returning t row),
           mkDB (transactions db ++ [row]) (users db) (available db) (now db),
           transactions_id_seq)
    end.

(** CreateTransaction of the transaction service.  [time_Now n] is what the
    [n]-th call of [time.Now()] in the body returns. *)
Definition CreateTransaction (db : DB) (transactions_id_seq : Z) (time_Now : nat -> Time)
    (userID : Z) (req : CreateTransactionRequest) : result Transaction * DB * Z :=
  let transactionDate := cr_TransactionDate req in
  let '(transactionDate, calls) :=
    if IsZero transactionDate then (time_Now 0%nat, 1%nat) else (transactionDate, 0%nat) in
  let transaction :=
    mkTransaction 0 userID (cr_Amount req) (cr_Type req) (cr_Category req)
      (cr_Description req) transactionDate None
      (time_Now calls) (time_Now (S calls)) in
  match Create db transactions_id_seq transaction with
  | (Err err, db, transactions_id_seq) =>
      (Err (Wrapf "failed to create transaction in repo" err), db, transactions_id_seq)
  | (Ok transaction, db, transactions_id_seq) => (Ok transaction, db, transactions_id_seq)
  end.

End creation.

(* ===================================================================== *)
(** ** internal/middleware and the helpers of the transaction handler *)
(* ===================================================================== *)

Module middleware.

Definition AuthUserKey : string := "authUser".
Definition AuthRoleKey : string := "authRole".

Definition StatusUnauthorized : Z := 401.
Definition StatusForbidden : Z := 403.

(** A value stored in the request context ([any]): the code stores an [int]
    and a [string] and asserts those two types back. *)
Inductive any :=
| VInt (i : Z)
| VString (s : string)
| VOther.

(** What a middleware uses of a [gin.Context]: the Authorization header
    ([""] when the request has none) and the keys set so far. *)
Record Context := mkContext {
  Authorization : string;
  Keys : gmap string any
}.

Definition Get (c : Context) (key : string) : option any := Keys c !! key.

Definition Set_ (c : Context) (key : string) (v : any) : Context :=
  mkContext (Authorization c) (<[key := v]> (Keys c)).

(** How a middleware ends: [c.Next()] with the context it leaves, or
    [c.AbortWithStatusJSON(code, gin.H{"error": msg})]. *)
Inductive Outcome :=
| Next (c : Context)
| AbortWithStatusJSON (code : Z) (msg : string).

(** [strings.Split(s, sep)] for a separator of one byte. *)
Fixpoint Split (s : string) (sep : ascii) : list string :=
  match s with
  | EmptyString => [EmptyString]
  | String c r =>
      if Ascii.eqb c sep then EmptyString :: Split r sep
      else match Split r sep with
           | h :: t => String c h :: t
           | [] => [String c EmptyString]
           end
  end.

Record JWTClaims := mkJWTClaims {
  UserID : Z;
  Role : string
}.

Section JWT.

(** [jwtUtil.ValidateToken]: signature and expiry checks of the JWT
    library, taken as given. *)
Variable ValidateToken : string -> result JWTClaims.

(** JWTAuthMiddleware creates a middleware for JWT authentication. *)
Definition JWTAuthMiddleware (c : Context) : Outcome :=
  let authHeader := Authorization c in
  if String.eqb authHeader ""
  then AbortWithStatusJSON StatusUnauthorized "Authorization header required"
  else
    let parts := Split authHeader " "%char in
    if negb (Nat.eqb (length parts) 2)
       || negb (String.eqb (ToLower (nth 0 parts "")) "bearer")
    then AbortWithStatusJSON StatusUnauthorized "Invalid authorization header format"
    else
      let tokenString := nth 1 parts "" in
      match ValidateToken tokenString with
      | Err _ => AbortWithStatusJSON StatusUnauthorized "Invalid or expired token"
      | Ok claims =>
          (* Set user information in context *)
          let c := Set_ c AuthUserKey (VInt (UserID claims)) in
          let c := Set_ c AuthRoleKey (VString (Role claims)) in
          Next c
      end.

End JWT.

(** The loop over [allowedRoles], leaving at the first role that is equal. *)
Fixpoint isAllowed (userRole : string) (allowedRoles : list string) : bool :=
  match allowedRoles with
  | [] => false
  | allowedRole :: rest =>
      if String.eqb userRole allowedRole then true else isAllowed userRole rest
  end.

(** RoleMiddleware creates a middleware to check for specific user roles. *)
Definition RoleMiddleware (allowedRoles : list string) (c : Context) : Outcome :=
  match Get c AuthRoleKey with
  | None =>
      AbortWithStatusJSON StatusForbidden
        "Role not found in token, ensure JWT middleware runs first"
  | Some roleVal =>
      match roleVal with
      | VString userRole =>
          if negb (isAllowed userRole allowedRoles)
          then AbortWithStatusJSON StatusForbidden
                 "You do not have permission to access this resource"
          else Next c
      | _ => AbortWithStatusJSON StatusForbidden "Invalid role type in token"
      end
  end.

(** AdminMiddleware checks if the user is an admin. *)
Definition AdminMiddleware : Context -> Outcome := RoleMiddleware [RoleAdmin].

(** UserMiddleware allows both users and admins for the user routes. *)
Definition UserMiddleware : Context -> Outcome := RoleMiddleware [RoleUser; RoleAdmin].

(** StrictlyUserMiddleware checks if the user has only the user role. *)
Definition StrictlyUserMiddleware : Context -> Outcome := RoleMiddleware [RoleUser].

(** [group.Use(m1); group.Use(m2)]: the second runs on what the first
    leaves, unless the first aborted. *)
Definition chain (m1 m2 : Context -> Outcome) (c : Context) : Outcome :=
  match m1 c with
  | Next c => m2 c
  | AbortWithStatusJSON code msg => AbortWithStatusJSON code msg
  end.

End middleware.

Module transaction_handler.

Import middleware.

(** Helper to get authenticated user ID from context. *)
Definition getAuthUserID (c : Context) : result Z :=
  match Get c AuthUserKey with
  | None => Err (Errorf "user ID not found in context")
  | Some (VInt userID) => Ok userID
  | Some _ => Err (Errorf "invalid user ID type in context")
  end.

(** Helper to get authenticated user role from context. *)
Definition getAuthUserRole (c : Context) : result string :=
  match Get c AuthRoleKey with
  | None => Err (Errorf "user role not found in context")
  | Some (VString role) => Ok role
  | Some _ => Err (Errorf "invalid user role type in context")
  end.


(** [strconv.ParseInt(s, 10, 64)]: an optional sign, then decimal digits and
    nothing else; [None] is a syntax or range error. *)
Definition digit (c : ascii) : option Z :=
  let n := nat_of_ascii c in
  if (48 <=? n)%nat && (n <=? 57)%nat then Some (Z.of_nat (n - 48)) else None.

Fixpoint digits (s : string) (acc : Z) : option Z :=
  match s with
  | EmptyString => Some acc
  | String c r =>
      match digit c with
      | Some d => digits r (acc * 10 + d)
      | None => None
      end
  end.

Definition strconv_ParseInt (s : string) : option Z :=
  let '(neg, body) :=
    match s with
    | String c r =>
        if Ascii.eqb c "+" then (false, r)
        else if Ascii.eqb c "-" then (true, r)
        else (false, s)
    | EmptyString => (false, s)
    end in
  if String.eqb body "" then None
  else
    match digits body 0 with
    | Some n =>
        let v := if neg : bool then - n else n in
        if fits_int64 v then Some v else None
    | None => None
    end.

(** [err.Error()]. *)
Fixpoint Error (err : error) : string :=
  match err with
  | ErrTransactionNotFound => "transaction not found"
  | ErrForbidden => "forbidden: user does not have permission for this action"
  | ErrInvalidFileFormat => "invalid file format. only .jpg, .png, .pdf are allowed"
  | ErrFileSizeExceeded => "file size exceeds limit"
  | ErrNoRows => "no rows in result set"
  | Errorf msg => msg
  | Wrapf msg cause => msg +:+ ": " +:+ Error cause
  end.

Definition StatusOK : Z := 200.
Definition StatusBadRequest : Z := 400.
Definition StatusNotFound : Z := 404.
Definition StatusInternalServerError : Z := 500.

(** What a handler writes with [c.JSON]: the status and the value that is
    serialised, [gin.H{"error": msg}] or a transaction. *)
Inductive Body :=
| BError (msg : string)
| BTransaction (t : Transaction).

Record Response := mkResponse { status : Z; body : Body }.

(** GetTransactionByID of the handler; [idParam] is [c.Param("id")]. *)
Definition GetTransactionByID (db : pg.DB) (c : Context) (idParam : string) : Response :=
  match getAuthUserID c with
  | Err err => mkResponse StatusUnauthorized (BError (Error err))
  | Ok userID =>
      match getAuthUserRole c with
      | Err _ => mkResponse StatusUnauthorized (BError "User role not found")
      | Ok userRole =>
          match strconv_ParseInt idParam with
          | None => mkResponse StatusBadRequest (BError "Invalid transaction ID")
          | Some transactionID =>
              match service.GetTransactionByID db transactionID userID userRole with
              | Err err =>
                  if errors_Is err ErrTransactionNotFound
                  then mkResponse StatusNotFound (BError (Error err))
                  else if errors_Is err ErrForbidden
                  then mkResponse StatusForbidden (BError (Error err))
                  else mkResponse StatusInternalServerError
                         (BError "Failed to retrieve transaction")
              | Ok transaction => mkResponse StatusOK (BTransaction transaction)
              end
          end
      end
  end.

Section Routes.

Variable ValidateToken : string -> result JWTClaims.

(** RegisterTransactionRoutes: what runs before a handler of the
    [/transactions] group, and of the [/admin] group. *)
Definition userTxRoutes : Context -> Outcome := JWTAuthMiddleware ValidateToken.

Definition adminRoutes : Context -> Outcome :=
  chain (JWTAuthMiddleware ValidateToken) AdminMiddleware.

(** [userTxRoutes.GET("/:id", h.GetTransactionByID)]: the answer to a
    request, from the middleware if it aborts, from the handler if not. *)
Definition GET_transaction (db : pg.DB) (c : Context) (idParam : string) : Response :=
  match userTxRoutes c with
  | AbortWithStatusJSON code msg => mkResponse code (BError msg)
  | Next c => GetTransactionByID db c idParam
  end.

End Routes.

End transaction_handler.
(* ===================================================================== *)
(** ** Vocabulary of the store properties *)
(* ===================================================================== *)

Module laws.

Import pg repository.

(** What the primary key, the sequence and the foreign key of
    [transactions] keep true of the table. *)
Definition ids_unique (db : DB) : Prop := NoDup (List.map tx_ID (transactions db)).

Definition ids_below (transactions_id_seq : Z) (db : DB) : Prop :=
  forall t, In t (transactions db) -> tx_ID t < transactions_id_seq.

Definition owners_exist (db : DB) : Prop :=
  forall t, In t (transactions db) -> is_Some (users db !! tx_UserID t).

Definition store_ok (db : DB) (transactions_id_seq : Z) : Prop :=
  ids_unique db /\ ids_below transactions_id_seq db /\ owners_exist db.

(** What the primary key, the sequence and the constraints of [users] keep
    true of the table. *)
Definition users_below (users_id_seq : Z) (db : DB) : Prop :=
  forall i u, users db !! i = Some u -> i < users_id_seq.

Definition phones_unique (db : DB) : Prop :=
  forall i j u v,
    users db !! i = Some u -> users db !! j = Some v -> u_Phone u = u_Phone v -> i = j.

Definition roles_valid (db : DB) : Prop :=
  forall i u, users db !! i = Some u -> u_Role u = RoleUser \/ u_Role u = RoleAdmin.

Definition users_ok (db : DB) (users_id_seq : Z) : Prop :=
  users_below users_id_seq db /\ phones_unique db /\ roles_valid db.


(** A listing ordered by transaction date, latest first, rows of one date by
    creation time, latest first. *)
Definition most_recent_first (l : list Transaction) : Prop :=
  forall i j a b,
    (i < j)%nat -> nth_error l i = Some a -> nth_error l j = Some b ->
    timestamptz (tx_TransactionDate b) < timestamptz (tx_TransactionDate a)
    \/ (timestamptz (tx_TransactionDate a) = timestamptz (tx_TransactionDate b)
        /\ timestamptz (tx_CreatedAt b) <= timestamptz (tx_CreatedAt a)).

(** Two user rows that the table cannot tell apart. *)
Definition same_user (a b : User) : Prop :=
  u_ID a = u_ID b /\ u_Phone a = u_Phone b /\ u_PasswordHash a = u_PasswordHash b
  /\ u_Role a = u_Role b /\ timestamptz (u_CreatedAt a) = timestamptz (u_CreatedAt b).

(** The role a new account is to get: [admin] for the phone number named by
    INITIAL_ADMIN_PHONE, when that is set. *)
Definition granted_role (INITIAL_ADMIN_PHONE phone : string) : string :=
  if negb (String.eqb INITIAL_ADMIN_PHONE "") && String.eqb phone INITIAL_ADMIN_PHONE
  then RoleAdmin else RoleUser.

(** A text without the byte [sep]. *)
Fixpoint free_of (sep : ascii) (s : string) : bool :=
  match s with
  | EmptyString => true
  | String c r => negb (Ascii.eqb c sep) && free_of sep r
  end.

End laws.
(* ===================================================================== *)
(** ** More sample data *)
(* ===================================================================== *)

Module fixtures.

Import pg repository service sample.

Definition expenses_from_jan5 : UserTransactionFilters :=
  mkUserTransactionFilters (Some "expense") None (Some jan5) None.

(** The ledger after owner 1 deleted transaction 1. *)
Definition ledger_without_food : DB :=
  mkDB [salary; taxi] (users ledger) true (now ledger).



Definition noon : Time := Date 2024 2 1 12 0 0 0 UTC.

(** A request without a date, and the clock readings of the call that
    serves it. *)
Definition coffee_request : creation.CreateTransactionRequest :=
  creation.mkCreateTransactionRequest 450 "expense" "food" (Some "coffee")
    (Date 1 1 1 0 0 0 0 UTC).

Definition ticks (n : nat) : Time := Date 2024 2 1 12 0 0 (Z.of_nat n) UTC.

Definition coffee : Transaction :=
  mkTransaction 4 2 450 "expense" "food" (Some "coffee") (ticks 0) None (ticks 1) (ticks 2).

Definition ledger_with_coffee : DB :=
  mkDB [food; salary; taxi; coffee] (users ledger) true (now ledger).

(** Password hashing and token signing for the examples: the hash is the
    password behind a prefix, the token names the user and the role. *)
Definition toy_hash (password : string) : result string := Ok ("hash:" +:+ password).

Definition toy_check (password hash : string) : bool :=
  String.eqb hash ("hash:" +:+ password).

Definition toy_token (userID : Z) (role : string) : result string :=
  Ok (Itoa userID +:+ "." +:+ role).

Definition no_token (userID : Z) (role : string) : result string :=
  Err (Errorf "failed to sign token").

Definition newcomer : User := mkUser 10 "+300" "hash:secret" "user" noon.

Definition ledger_with_newcomer : DB :=
  mkDB (transactions ledger) (<[10 := newcomer]> (users ledger)) true (now ledger).

(** A token check for the examples: the token is the user id, a dot and
    the role, as [toy_token] writes it. *)
Definition toy_validate (token : string) : result middleware.JWTClaims :=
  if String.eqb token "9.admin" then Ok (middleware.mkJWTClaims 9 "admin")
  else if String.eqb token "1.user" then Ok (middleware.mkJWTClaims 1 "user")
  else Err (Errorf "failed to parse token").

Definition request_of_root : middleware.Context :=
  middleware.mkContext "Bearer 9.admin" ∅.

Definition request_of_owner1 : middleware.Context :=
  middleware.mkContext "bearer 1.user" ∅.

End fixtures.

(* ===================================================================== *)
(** ** Properties *)
(* ===================================================================== *)

(** *** The primitives on concrete values *)

Example FormatInt_positive : FormatInt 5242880 = "5242880".
Proof. reflexivity. Qed.

Example FormatInt_negative : FormatInt (-17) = "-17".
Proof. reflexivity. Qed.

Example Ext_last_dot : Ext "scan.final.PDF" = ".PDF".
Proof. reflexivity. Qed.

Example Ext_stops_at_separator : Ext "dir.d/receipt" = "".
Proof. reflexivity. Qed.

Example ToLower_mixed : ToLower ".JpEg" = ".jpeg".
Proof. reflexivity. Qed.

Example Format_RFC3339_utc :
  Format_RFC3339 (Date 2024 1 5 9 30 0 0 UTC) = "2024-01-05T09:30:00Z".
Proof. reflexivity. Qed.

Example Format_RFC3339_offset :
  Format_RFC3339 (Date 2024 1 5 9 30 0 0 (mkLocation "TAS" 18000))
  = "2024-01-05T09:30:00+05:00".
Proof. reflexivity. Qed.

Example Unix_2024_01_05 : Unix (Date 2024 1 5 0 0 0 0 UTC) = 1704412800.
Proof. reflexivity. Qed.

Example encode_record_quotes :
  csv.encode_record ["a,b"; " x"; "plain"; ""]
  = String csv.quote "a,b" +:+ String csv.quote ","
    +:+ String csv.quote " x" +:+ String csv.quote ",plain,"
    +:+ String csv.LF "".
Proof. reflexivity. Qed.

Lemma wrap64_fits z : fits_int64 z = true -> wrap64 z = z.
Proof.
  unfold fits_int64, wrap64, int64_min, int64_max. intros H.
  apply andb_true_iff in H. destruct H as [H1 H2].
  apply Z.leb_le in H1, H2. rewrite Z.mod_small; lia.
Qed.






Lemma filter_and {A} (p q : A -> bool) l :
  List.filter (fun x => p x && q x) l = List.filter q (List.filter p l).
Proof.
  induction l as [|x l IH]; simpl; [reflexivity|].
  destruct (p x); simpl; [destruct (q x); rewrite IH; reflexivity | exact IH].
Qed.

Lemma filter_head_find {A} (p : A -> bool) l :
  match List.filter p l with [] => None | x :: _ => Some x end = List.find p l.
Proof.
  induction l as [|x l IH]; simpl; [reflexivity|].
  destruct (p x); [reflexivity | exact IH].
Qed.

Lemma sum_ones {A} (l : list A) : sumZ (List.map (fun _ => 1) l) = Z.of_nat (length l).
Proof.
  induction l as [|x l IH]; simpl length; simpl; [reflexivity | rewrite IH; lia].
Qed.

(** *** Association lists and GROUP BY *)

Section Assoc.
Context {K V : Type} `{EqDecision K}.

Lemma alookup_None_keys k (gs : list (K * V)) :
  alookup k gs = None <-> k ∉ List.map fst gs.
Proof.
  induction gs as [|[k0 v0] gs IH]; simpl.
  - split; [intros _; apply not_elem_of_nil | reflexivity].
  - rewrite not_elem_of_cons. destruct (decide (k = k0)) as [->|Hne].
    + split; [discriminate | tauto].
    + rewrite IH. tauto.
Qed.

Lemma alookup_Some_elem k v (l : list (K * V)) : alookup k l = Some v -> (k, v) ∈ l.
Proof.
  induction l as [|[k0 v0] l IH]; simpl; [discriminate|].
  destruct (decide (k = k0)) as [->|Hne].
  - intros [= ->]. left.
  - intros Hl. right. exact (IH Hl).
Qed.

Lemma alookup_elem k v (l : list (K * V)) :
  NoDup (List.map fst l) -> (k, v) ∈ l -> alookup k l = Some v.
Proof.
  induction l as [|[k0 v0] l IH]; intros Hnd Hin; simpl.
  - apply elem_of_nil in Hin. destruct Hin.
  - apply NoDup_cons in Hnd. destruct Hnd as [Hnot Hnd].
    apply elem_of_cons in Hin. destruct Hin as [[= -> ->]|Hin].
    + destruct (decide (k0 = k0)); [reflexivity | congruence].
    + destruct (decide (k = k0)) as [->|Hne]; [|exact (IH Hnd Hin)].
      exfalso. apply Hnot. simpl.
      apply (list_elem_of_fmap_2 fst l (k0, v)). exact Hin.
Qed.

End Assoc.

Section GroupBy.
Context {R K V : Type} `{EqDecision K}.
Variable op : V -> V -> V.
Variable key : R -> K.
Variable val : R -> V.

Lemma alookup_group_add k k' v (gs : list (K * V)) :
  alookup k (group_add op k' v gs)
  = if decide (k = k')
    then Some (match alookup k gs with Some v' => op v' v | None => v end)
    else alookup k gs.
Proof.
  induction gs as [|[k0 v0] gs IH]; simpl.
  - destruct (decide (k = k')); reflexivity.
  - destruct (decide (k' = k0)) as [->|Hne]; simpl.
    + destruct (decide (k = k0)); reflexivity.
    + destruct (decide (k = k0)) as [->|Hne'].
      * destruct (decide (k0 = k')); [congruence | reflexivity].
      * exact IH.
Qed.

Lemma keys_group_add k v (gs : list (K * V)) :
  List.map fst (group_add op k v gs)
  = if decide (k ∈ List.map fst gs) then List.map fst gs else List.map fst gs ++ [k].
Proof.
  induction gs as [|[k0 v0] gs IH]; simpl.
  - destruct (decide (k ∈ [])) as [Hi|Hi]; [|reflexivity].
    apply elem_of_nil in Hi. destruct Hi.
  - destruct (decide (k = k0)) as [->|Hne]; simpl.
    + destruct (decide (k0 ∈ k0 :: List.map fst gs)) as [Hi|Hi]; [reflexivity|].
      exfalso. apply Hi. left.
    + rewrite IH.
      destruct (decide (k ∈ List.map fst gs)) as [Hi|Hi];
        destruct (decide (k ∈ k0 :: List.map fst gs)) as [Hj|Hj];
        try reflexivity.
      * exfalso. apply Hj. right. exact Hi.
      * apply elem_of_cons in Hj. destruct Hj; [congruence | contradiction].
Qed.

Lemma NoDup_group_add k v (gs : list (K * V)) :
  NoDup (List.map fst gs) -> NoDup (List.map fst (group_add op k v gs)).
Proof.
  intros Hnd. rewrite keys_group_add.
  destruct (decide (k ∈ List.map fst gs)) as [Hi|Hi]; [exact Hnd|].
  apply NoDup_app. split; [exact Hnd|]. split.
  - intros x Hx Hx'. apply list_elem_of_singleton in Hx'. subst. contradiction.
  - apply NoDup_singleton.
Qed.

Lemma NoDup_fold rows : forall gs,
  NoDup (List.map fst gs) ->
  NoDup (List.map fst (List.fold_left (group_step op key val) rows gs)).
Proof.
  induction rows as [|r rows IH]; intros gs Hnd; simpl; [exact Hnd|].
  apply IH. apply NoDup_group_add. exact Hnd.
Qed.

(** A grouping has one row per key. *)
Lemma NoDup_group_by rows : NoDup (List.map fst (group_by op key val rows)).
Proof. apply (NoDup_fold rows []). constructor. Qed.

Lemma keys_fold rows : forall gs k,
  k ∈ List.map fst (List.fold_left (group_step op key val) rows gs) ->
  k ∈ List.map fst gs \/ exists r, r ∈ rows /\ key r = k.
Proof.
  induction rows as [|r rows IH]; intros gs k Hin; simpl in *; [left; exact Hin|].
  destruct (IH _ _ Hin) as [Hk|[r' [Hr' Hk]]].
  - unfold group_step in Hk. rewrite keys_group_add in Hk.
    destruct (decide (key r ∈ List.map fst gs)); [left; exact Hk|].
    apply elem_of_app in Hk. destruct Hk as [Hk|Hk]; [left; exact Hk|].
    apply list_elem_of_singleton in Hk.
    right. exists r. split; [left | congruence].
  - right. exists r'. split; [right; exact Hr' | exact Hk].
Qed.

(** Every key of a grouping is the key of some row. *)
Lemma keys_group_by rows k :
  k ∈ List.map fst (group_by op key val rows) -> exists r, r ∈ rows /\ key r = k.
Proof.
  intros Hin. destruct (keys_fold rows [] k Hin) as [Hn|Hr]; [|exact Hr].
  apply elem_of_nil in Hn. destruct Hn.
Qed.

(** Additive measures of the grouped values. *)
Variable f : V -> Z.
Hypothesis f_add : forall a b, f (op a b) = f a + f b.

Lemma sum_group_add k v (gs : list (K * V)) :
  sumZ (List.map (fun g => f (snd g)) (group_add op k v gs))
  = sumZ (List.map (fun g => f (snd g)) gs) + f v.
Proof.
  induction gs as [|[k0 v0] gs IH]; simpl; [lia|].
  destruct (decide (k = k0)); simpl; [rewrite f_add; lia | rewrite IH; lia].
Qed.

Lemma sum_fold rows : forall gs,
  sumZ (List.map (fun g => f (snd g)) (List.fold_left (group_step op key val) rows gs))
  = sumZ (List.map (fun g => f (snd g)) gs) + sumZ (List.map (fun r => f (val r)) rows).
Proof.
  induction rows as [|r rows IH]; intros gs; simpl; [lia|].
  rewrite IH. unfold group_step. rewrite sum_group_add. lia.
Qed.

(** Grouping redistributes the rows: the groups sum to the sum of the rows. *)
Lemma sum_group_by rows :
  sumZ (List.map (fun g => f (snd g)) (group_by op key val rows))
  = sumZ (List.map (fun r => f (val r)) rows).
Proof. exact (sum_fold rows []). Qed.

Lemma alookup_fold k rows : forall gs,
  option_map f (alookup k (List.fold_left (group_step op key val) rows gs))
  = group_total val f (option_map f (alookup k gs)) (group_of key k rows).
Proof.
  induction rows as [|r rows IH]; intros gs; simpl.
  - destruct (alookup k gs); simpl; [f_equal; lia | reflexivity].
  - rewrite IH. unfold group_step. rewrite alookup_group_add.
    destruct (decide (k = key r)) as [->|Hne].
    + rewrite bool_decide_true by reflexivity.
      destruct (alookup (key r) gs) as [v'|]; simpl.
      * rewrite f_add. f_equal. lia.
      * destruct (group_of key (key r) rows); simpl; f_equal; lia.
    + rewrite bool_decide_false by congruence. reflexivity.
Qed.

(** The row a grouping has for key [k] carries the sum over the rows of
    that key, and there is none when no row has the key. *)
Lemma alookup_group_by k rows :
  option_map f (alookup k (group_by op key val rows))
  = group_total val f None (group_of key k rows).
Proof. apply (alookup_fold k rows []). Qed.

End GroupBy.

(** *** Sums over maps filled row by row *)

Section MapSums.
Context {K V : Type} `{Countable K}.
Variable f : V -> Z.

Lemma sum_with_empty : sum_with f (∅ : gmap K V) = 0.
Proof. unfold sum_with. apply map_fold_empty. Qed.

Lemma sum_with_insert (m : gmap K V) k v :
  m !! k = None -> sum_with f (<[k := v]> m) = f v + sum_with f m.
Proof.
  intros Hk. unfold sum_with.
  rewrite map_fold_insert_L; [reflexivity | | exact Hk].
  intros. lia.
Qed.

Lemma assign_all_lookup (rows : list (K * V)) : forall (m : gmap K V) k,
  NoDup (List.map fst rows) ->
  assign_all rows m !! k
  = match alookup k rows with Some v => Some v | None => m !! k end.
Proof.
  induction rows as [|[k0 v0] rows IH]; intros m k Hnd; simpl; [reflexivity|].
  inversion Hnd as [|? ? Hnotin Hnd']; subst.
  unfold assign_all in *. simpl. rewrite IH by exact Hnd'.
  destruct (decide (k = k0)) as [->|Hne].
  - apply alookup_None_keys in Hnotin. rewrite Hnotin. apply lookup_insert_eq.
  - destruct (alookup k rows); [reflexivity|]. apply lookup_insert_ne. congruence.
Qed.

Lemma assign_all_sum (rows : list (K * V)) : forall (m : gmap K V),
  NoDup (List.map fst rows) ->
  (forall k, k ∈ List.map fst rows -> m !! k = None) ->
  sum_with f (assign_all rows m)
  = sum_with f m + sumZ (List.map (fun g => f (snd g)) rows).
Proof.
  induction rows as [|[k0 v0] rows IH]; intros m Hnd Hfresh; simpl; [lia|].
  inversion Hnd as [|? ? Hnotin Hnd']; subst.
  unfold assign_all in *. simpl. rewrite IH; [| exact Hnd' |].
  - rewrite sum_with_insert; [lia|]. apply Hfresh. left.
  - intros k Hk. rewrite lookup_insert_ne; [apply Hfresh; right; exact Hk|].
    intros ->. contradiction.
Qed.

End MapSums.

(** *** The statements the repository sends, and what the store answers *)

Lemma parse_FindByID :
  parse FindByID_sql = Some (mkSelect SelTransactions [mkCond ColID CmpEq 1] false).
Proof. vm_compute. reflexivity. Qed.

Lemma parse_sumQuery F :
  parse (sumQuery F) = Some (mkSelect SelTotals (numbered 1 (clauses F)) false).
Proof. cases_filter F; vm_compute; reflexivity. Qed.

Lemma parse_userSpendingQuery F :
  parse (userSpendingQuery F) = Some (mkSelect SelByUser (numbered 1 (clauses F)) false).
Proof. cases_filter F; vm_compute; reflexivity. Qed.

Lemma parse_categoryQuery kind F :
  parse (categoryQuery F)
  = Some (mkSelect SelByCategory (numbered 1 (category_clauses kind F)) false).
Proof. cases_filter F; vm_compute; reflexivity. Qed.

Lemma parse_FindAll F :
  parse (FindAll_sql F) = Some (mkSelect SelTransactions (numbered 1 (clauses F)) true).
Proof. cases_filter F; vm_compute; reflexivity. Qed.

Lemma stats_args F : args (stats_build F) = List.map snd (clauses F).
Proof. cases_filter F; reflexivity. Qed.

Lemma category_args kind F : categoryArgs kind F = List.map snd (category_clauses kind F).
Proof. cases_filter F; reflexivity. Qed.

Lemma FindAll_args F : args (FindAll_build F) = List.map snd (clauses F).
Proof. cases_filter F; reflexivity. Qed.

Lemma args_ok_clauses F : args_ok (List.map snd (clauses F)) (numbered 1 (clauses F)) = true.
Proof. cases_filter F; reflexivity. Qed.

Lemma args_ok_category kind F :
  args_ok (List.map snd (category_clauses kind F)) (numbered 1 (category_clauses kind F))
  = true.
Proof. cases_filter F; reflexivity. Qed.

(** Evaluating numbered conditions against the values bound in the same
    order is evaluating the clauses. *)
Lemma where_numbered cl : forall pre t,
  where_holds (pre ++ List.map snd cl) (numbered (S (length pre)) cl) t = holds cl t.
Proof.
  induction cl as [|[[c o] a] cl IH]; intros pre t; [reflexivity|].
  simpl. f_equal.
  - unfold cond_holds, param. simpl.
    rewrite nth_error_app2 by lia. rewrite Nat.sub_diag. reflexivity.
  - specialize (IH (pre ++ [a]) t). rewrite <- app_assoc in IH. simpl in IH.
    rewrite length_app in IH. simpl in IH. rewrite Nat.add_1_r in IH. exact IH.
Qed.

Lemma where_clauses cl t : where_holds (List.map snd cl) (numbered 1 cl) t = holds cl t.
Proof. exact (where_numbered cl [] t). Qed.

Lemma filter_where cl (rows : list (Transaction * User)) :
  List.filter (fun r => where_holds (List.map snd cl) (numbered 1 cl) (fst r)) rows
  = List.filter (fun r => holds cl (fst r)) rows.
Proof. apply filter_ext. intros r. apply where_clauses. Qed.

Lemma holds_category kind F t :
  holds (category_clauses kind F) t
  = matches F t && match af_Type F with
                   | None => String.eqb (tx_Type t) kind
                   | Some _ => true
                   end.
Proof.
  unfold category_clauses, matches, holds. destruct (af_Type F).
  - rewrite andb_true_r. reflexivity.
  - rewrite forallb_app. simpl. rewrite andb_true_r. reflexivity.
Qed.

Lemma Query_select db sql cl proj ord :
  available db = true ->
  parse sql = Some (mkSelect proj (numbered 1 cl) ord) ->
  args_ok (List.map snd cl) (numbered 1 cl) = true ->
  Query db sql (List.map snd cl)
  = Ok (run db (mkSelect proj (numbered 1 cl) ord) (List.map snd cl)).
Proof.
  intros Ha Hp Hok. unfold Query. rewrite Ha, Hp. simpl. rewrite Hok. reflexivity.
Qed.

Lemma Query_unavailable db sql a :
  available db = false -> Query db sql a = Err (Errorf "connection unavailable").
Proof. intros Ha. unfold Query. rewrite Ha. reflexivity. Qed.

(** FindByID answers with the row of that id, if the store can be reached. *)
Lemma FindByID_spec db id :
  FindByID db id
  = if available db then Ok (List.find (same_id id) (transactions db))
    else Err (Wrapf "failed to find transaction by ID" (Errorf "connection unavailable")).
Proof.
  assert (HQ : Query db FindByID_sql [AInt id]
               = if available db
                 then Ok (RTransactions (List.filter (same_id id) (transactions db)))
                 else Err (Errorf "connection unavailable")).
  { unfold Query. rewrite parse_FindByID. destruct (available db); [|reflexivity].
    cbn [negb sel_where sel_proj sel_ordered run].
    replace (args_ok [AInt id] [mkCond ColID CmpEq 1]) with true by reflexivity.
    rewrite (filter_ext (where_holds [AInt id] [mkCond ColID CmpEq 1]) (same_id id));
      [reflexivity|].
    intros t. unfold where_holds, cond_holds, same_id. simpl. apply andb_true_r. }
  unfold FindByID. rewrite HQ. destruct (available db); [|reflexivity].
  rewrite <- (filter_head_find (same_id id)).
  destruct (List.filter (same_id id) (transactions db)); reflexivity.
Qed.

(** The listing is the matching rows of the table, most recent first. *)
Lemma FindAll_spec db F :
  available db = true ->
  FindAll db F = Ok (order_desc (List.filter (matches F) (transactions db))).
Proof.
  intros Ha. unfold FindAll. rewrite FindAll_args.
  rewrite (Query_select db _ _ _ _ Ha (parse_FindAll F) (args_ok_clauses F)).
  unfold run. cbn [sel_proj sel_where sel_ordered].
  rewrite (filter_ext (where_holds (List.map snd (clauses F)) (numbered 1 (clauses F)))
             (matches F)); [reflexivity|].
  intros t. apply where_clauses.
Qed.

Lemma parse_FindByUser userID f :
  parse (FindByUser_sql userID f)
  = Some (mkSelect SelTransactions (numbered 1 (user_clauses userID f)) true).
Proof. cases_user_filter f; vm_compute; reflexivity. Qed.

Lemma FindByUser_args userID f :
  args (FindByUser_build userID f) = List.map snd (user_clauses userID f).
Proof. cases_user_filter f; reflexivity. Qed.

Lemma args_ok_user userID f :
  args_ok (List.map snd (user_clauses userID f)) (numbered 1 (user_clauses userID f)) = true.
Proof. cases_user_filter f; reflexivity. Qed.

(** The user listing is the matching rows of that owner, most recent first. *)
Lemma FindByUser_spec db userID f :
  available db = true ->
  FindByUser db userID f
  = Ok (order_desc (List.filter (holds (user_clauses userID f)) (transactions db))).
Proof.
  intros Ha. unfold FindByUser. rewrite FindByUser_args.
  rewrite (Query_select db _ _ _ _ Ha (parse_FindByUser userID f) (args_ok_user userID f)).
  unfold run. cbn [sel_proj sel_where sel_ordered].
  rewrite (filter_ext (where_holds (List.map snd (user_clauses userID f))
                         (numbered 1 (user_clauses userID f)))
             (holds (user_clauses userID f))); [reflexivity|].
  intros t. apply where_clauses.
Qed.

Lemma sumQuery_result db F :
  available db = true ->
  Query db (sumQuery F) (args (stats_build F))
  = Ok (RTotals (total_income (matching db F)) (total_expenses (matching db F))).
Proof.
  intros Ha. rewrite stats_args.
  rewrite (Query_select db _ _ _ _ Ha (parse_sumQuery F) (args_ok_clauses F)).
  unfold run. simpl. rewrite filter_where. reflexivity.
Qed.

Lemma userSpendingQuery_result db F :
  available db = true ->
  Query db (userSpendingQuery F) (args (stats_build F))
  = Ok (RByUser (user_groups (matching db F))).
Proof.
  intros Ha. rewrite stats_args.
  rewrite (Query_select db _ _ _ _ Ha (parse_userSpendingQuery F) (args_ok_clauses F)).
  unfold run. simpl. rewrite filter_where. reflexivity.
Qed.

Lemma categoryQuery_result db kind F :
  available db = true ->
  Query db (categoryQuery F) (categoryArgs kind F)
  = Ok (RByCategory (category_groups (category_rows kind db F))).
Proof.
  intros Ha. rewrite category_args.
  rewrite (Query_select db _ _ _ _ Ha (parse_categoryQuery kind F)
             (args_ok_category kind F)).
  unfold run. simpl. rewrite filter_where. reflexivity.
Qed.

(** *** The steps of GetAggregatedStats *)

Lemma scan_category_rows_Ok msg rows : forall m r,
  scan_category_rows msg rows (MkMap m) = Ok r ->
  r = MkMap (assign_all rows m) /\ forallb (fun g => fits_int64 (snd g)) rows = true.
Proof.
  induction rows as [|[c s] rows IH]; intros m r Hs; simpl in *.
  - inversion Hs. split; reflexivity.
  - destruct (fits_int64 s); [|discriminate].
    destruct (IH _ _ Hs) as [-> Hf]. split; [reflexivity | exact Hf].
Qed.

Lemma scan_user_rows_Ok rows : forall m r,
  scan_user_rows rows (MkMap m) = Ok r ->
  r = MkMap (assign_all (List.map to_stat rows) m).
Proof.
  induction rows as [|[[uid ph] [[s i] n]] rows IH]; intros m r Hs; simpl in *.
  - inversion Hs. reflexivity.
  - destruct (fits_int64 s && fits_int64 i); [|discriminate].
    exact (IH _ _ Hs).
Qed.

Lemma category_block_Ok db kind qm sm F r :
  available db = true ->
  category_block db kind qm sm F make_map = Ok r ->
  r = MkMap (if grouping_requested kind F
             then assign_all (category_groups (category_rows kind db F)) ∅
             else ∅).
Proof.
  intros Ha. unfold category_block.
  destruct (grouping_requested kind F).
  - rewrite (categoryQuery_result db kind F Ha). intros Hs.
    apply scan_category_rows_Ok in Hs. tauto.
  - intros Hs. inversion Hs. reflexivity.
Qed.

(** What a successful call has computed, step by step. *)
Lemma GetAggregatedStats_Ok db F stats :
  GetAggregatedStats db F = Ok stats ->
  available db = true /\
  let rows := matching db F in
  exists byIncome byExpense byUser,
    stats = mkAggregatedStats (total_income rows) (total_expenses rows)
              (sub64 (total_income rows) (total_expenses rows))
              byIncome byExpense byUser
    /\ fits_int64 (total_income rows) = true
    /\ fits_int64 (total_expenses rows) = true
    /\ category_block db TransactionTypeIncome "failed to get income by category"
         "failed to scan income by category" F make_map = Ok byIncome
    /\ category_block db TransactionTypeExpense "failed to get expense by category"
         "failed to scan expense by category" F make_map = Ok byExpense
    /\ scan_user_rows (user_groups rows) make_map = Ok byUser.
Proof.
  unfold GetAggregatedStats. destruct (available db) eqn:Ha.
  - rewrite (sumQuery_result db F Ha), (userSpendingQuery_result db F Ha). simpl.
    destruct (fits_int64 (total_income (matching db F))) eqn:Hi; [|discriminate].
    destruct (fits_int64 (total_expenses (matching db F))) eqn:He; [|discriminate].
    simpl.
    destruct (category_block db TransactionTypeIncome _ _ F make_map) as [bi|] eqn:Hbi;
      [|discriminate]. simpl.
    destruct (category_block db TransactionTypeExpense _ _ F make_map) as [be|] eqn:Hbe;
      [|discriminate]. simpl.
    destruct (scan_user_rows _ make_map) as [bu|] eqn:Hbu; [|discriminate]. simpl.
    intros Hs. inversion Hs. split; [reflexivity|].
    exists bi, be, bu. repeat split; assumption.
  - rewrite (Query_unavailable db _ _ Ha). simpl. discriminate.
Qed.

(** *** The category groupings *)

Lemma category_rows_spec kind db F :
  category_rows kind db F
  = match af_Type F with
    | None => of_kind kind (matching db F)
    | Some _ => matching db F
    end.
Proof.
  unfold category_rows, of_kind, matching.
  destruct (af_Type F) eqn:Ht.
  - apply filter_ext. intros r. rewrite holds_category, Ht. apply andb_true_r.
  - rewrite <- filter_and. apply filter_ext. intros r.
    rewrite holds_category, Ht. reflexivity.
Qed.

Lemma matches_type F t k :
  af_Type F = Some k -> k <> "" -> matches F t = true -> tx_Type t = k.
Proof.
  intros Ht Hk. unfold matches, clauses, holds. rewrite Ht.
  destruct (String.eqb_spec k ""); [contradiction|].
  rewrite forallb_app, forallb_app. simpl. intros H.
  apply andb_true_iff in H. destruct H as [_ H].
  apply andb_true_iff in H. destruct H as [H _].
  apply andb_true_iff in H. destruct H as [H _].
  apply String.eqb_eq in H. exact H.
Qed.

Lemma matching_type db F k r :
  af_Type F = Some k -> k <> "" -> In r (matching db F) -> tx_Type (fst r) = k.
Proof.
  intros Ht Hk Hin. apply filter_In in Hin. destruct Hin as [_ Hm].
  exact (matches_type F (fst r) k Ht Hk Hm).
Qed.

Lemma sum_of_kind_income rows :
  sumZ (List.map (fun r : Transaction * User => tx_Amount (fst r)) (of_kind "income" rows))
  = total_income rows.
Proof.
  unfold of_kind, total_income, income_amount.
  induction rows as [|r rows IH]; simpl; [reflexivity|].
  destruct (String.eqb (tx_Type (fst r)) "income"); simpl; rewrite IH; reflexivity.
Qed.

Lemma sum_of_kind_expense rows :
  sumZ (List.map (fun r : Transaction * User => tx_Amount (fst r)) (of_kind "expense" rows))
  = total_expenses rows.
Proof.
  unfold of_kind, total_expenses, expense_amount.
  induction rows as [|r rows IH]; simpl; [reflexivity|].
  destruct (String.eqb (tx_Type (fst r)) "expense"); simpl; rewrite IH; reflexivity.
Qed.

Lemma sum_all_income (rows : list (Transaction * User)) :
  (forall r, In r rows -> tx_Type (fst r) = "income") ->
  sumZ (List.map (fun r => tx_Amount (fst r)) rows) = total_income rows.
Proof.
  unfold total_income, income_amount.
  induction rows as [|r rows IH]; intros Hall; simpl; [reflexivity|].
  rewrite (Hall r (or_introl eq_refl)). simpl. rewrite IH; [reflexivity|].
  intros r' Hr'. apply Hall. right. exact Hr'.
Qed.

Lemma sum_all_expense (rows : list (Transaction * User)) :
  (forall r, In r rows -> tx_Type (fst r) = "expense") ->
  sumZ (List.map (fun r => tx_Amount (fst r)) rows) = total_expenses rows.
Proof.
  unfold total_expenses, expense_amount.
  induction rows as [|r rows IH]; intros Hall; simpl; [reflexivity|].
  rewrite (Hall r (or_introl eq_refl)). simpl. rewrite IH; [reflexivity|].
  intros r' Hr'. apply Hall. right. exact Hr'.
Qed.

Lemma category_map_sum rows :
  sum_with (fun v => v) (assign_all (category_groups rows) (∅ : gmap string Z))
  = sumZ (List.map (fun r : Transaction * User => tx_Amount (fst r)) rows).
Proof.
  rewrite assign_all_sum.
  - rewrite sum_with_empty. simpl. unfold category_groups.
    apply (sum_group_by Z.add _ _ (fun v => v)). reflexivity.
  - apply NoDup_group_by.
  - intros k _. apply lookup_empty.
Qed.

Lemma category_map_lookup rows c :
  assign_all (category_groups rows) (∅ : gmap string Z) !! c = category_sum rows c.
Proof.
  rewrite assign_all_lookup by apply NoDup_group_by.
  rewrite lookup_empty.
  pose proof (alookup_group_by Z.add (fun r : Transaction * User => tx_Category (fst r))
                (fun r => tx_Amount (fst r)) (fun v => v) (fun a b => eq_refl) c rows) as Ha.
  unfold category_groups.
  replace (option_map (fun v : Z => v) _) with
    (alookup c (group_by Z.add (fun r : Transaction * User => tx_Category (fst r))
                  (fun r => tx_Amount (fst r)) rows)) in Ha
    by (destruct (alookup c _); reflexivity).
  unfold category_sum.
  replace (List.filter (fun r : Transaction * User => String.eqb (tx_Category (fst r)) c) rows)
    with (group_of (fun r : Transaction * User => tx_Category (fst r)) c rows).
  - rewrite Ha. unfold group_total. destruct (group_of _ c rows); reflexivity.
  - unfold group_of. apply filter_ext. intros r.
    destruct (String.eqb_spec (tx_Category (fst r)) c) as [E|E].
    + apply bool_decide_eq_true. exact E.
    + apply bool_decide_eq_false. exact E.
Qed.

(** *** The per-owner breakdown *)

Lemma joined_owned db r : In r (joined db) -> owned_by db r.
Proof.
  unfold joined, owned_by. intros Hin. apply in_flat_map in Hin.
  destruct Hin as [t [_ Hr]].
  destruct (users db !! tx_UserID t) eqn:Hu; simpl in Hr; [|contradiction].
  destruct Hr as [<-|[]]. simpl. exact Hu.
Qed.

Lemma matching_owned db F r : In r (matching db F) -> owned_by db r.
Proof. intros Hin. apply filter_In in Hin. apply joined_owned. tauto. Qed.

(** The id is the primary key of users: rows of one owner carry one phone. *)
Lemma user_key_inj db r r' :
  owned_by db r -> owned_by db r' ->
  tx_UserID (fst r) = tx_UserID (fst r') -> user_key r = user_key r'.
Proof.
  unfold owned_by, user_key. intros H1 H2 E. rewrite E in H1. rewrite H1 in H2.
  inversion H2. rewrite E. reflexivity.
Qed.

Lemma to_stat_key g : fst (to_stat g) = fst (fst g).
Proof. destruct g as [[uid ph] [[s i] n]]. reflexivity. Qed.

Lemma to_stat_spent g : us_TotalSpent (snd (to_stat g)) = spent (snd g).
Proof. destruct g as [[uid ph] [[s i] n]]. reflexivity. Qed.

Lemma to_stat_received g : us_TotalIncome (snd (to_stat g)) = received (snd g).
Proof. destruct g as [[uid ph] [[s i] n]]. reflexivity. Qed.

Lemma spent_add a b : spent (agg_add a b) = spent a + spent b.
Proof. destruct a as [[? ?] ?], b as [[? ?] ?]. reflexivity. Qed.

Lemma received_add a b : received (agg_add a b) = received a + received b.
Proof. destruct a as [[? ?] ?], b as [[? ?] ?]. reflexivity. Qed.

Lemma counted_add a b : counted (agg_add a b) = counted a + counted b.
Proof. destruct a as [[? ?] ?], b as [[? ?] ?]. reflexivity. Qed.

(** One result row per owner id, although the statement groups by id and
    phone. *)
Lemma user_groups_keys db rows :
  (forall r, In r rows -> owned_by db r) ->
  NoDup (List.map fst (List.map to_stat (user_groups rows))).
Proof.
  intros Hown. rewrite map_map.
  rewrite (map_ext _ (fun g => fst (fst g))) by apply to_stat_key.
  rewrite <- (map_map fst fst).
  apply (NoDup_fmap_2_strong fst).
  - intros k k' Hk Hk' E.
    apply keys_group_by in Hk. apply keys_group_by in Hk'.
    destruct Hk as [r [Hr <-]]. destruct Hk' as [r' [Hr' <-]].
    apply list_elem_of_In in Hr, Hr'.
    apply (user_key_inj db); [apply Hown; exact Hr | apply Hown; exact Hr' | exact E].
  - apply NoDup_group_by.
Qed.

Lemma user_map_spent db rows :
  (forall r, In r rows -> owned_by db r) ->
  sum_with us_TotalSpent
    (assign_all (List.map to_stat (user_groups rows)) (∅ : gmap Z UserStat))
  = total_expenses rows.
Proof.
  intros Hown. rewrite assign_all_sum.
  - rewrite sum_with_empty, map_map. simpl.
    rewrite (map_ext _ (fun g => spent (snd g))) by apply to_stat_spent.
    unfold user_groups. rewrite (sum_group_by agg_add _ _ spent spent_add). reflexivity.
  - apply (user_groups_keys db). exact Hown.
  - intros k _. apply lookup_empty.
Qed.

Lemma user_map_received db rows :
  (forall r, In r rows -> owned_by db r) ->
  sum_with us_TotalIncome
    (assign_all (List.map to_stat (user_groups rows)) (∅ : gmap Z UserStat))
  = total_income rows.
Proof.
  intros Hown. rewrite assign_all_sum.
  - rewrite sum_with_empty, map_map. simpl.
    rewrite (map_ext _ (fun g => received (snd g))) by apply to_stat_received.
    unfold user_groups. rewrite (sum_group_by agg_add _ _ received received_add).
    reflexivity.
  - apply (user_groups_keys db). exact Hown.
  - intros k _. apply lookup_empty.
Qed.

Lemma owner_group db rows r g uid :
  (forall r, In r rows -> owned_by db r) ->
  List.filter (fun r => tx_UserID (fst r) =? uid) rows = r :: g ->
  group_of user_key (uid, u_Phone (snd r)) rows = r :: g.
Proof.
  intros Hown Hf. rewrite <- Hf. unfold group_of. apply filter_ext_in.
  intros r' Hr'.
  assert (Hr : In r rows /\ (tx_UserID (fst r) =? uid) = true).
  { apply (proj1 (filter_In (fun r0 : Transaction * User => tx_UserID (fst r0) =? uid)
                    r rows)).
    rewrite Hf. left. reflexivity. }
  destruct Hr as [Hr Hu]. apply Z.eqb_eq in Hu.
  destruct (Z.eqb_spec (tx_UserID (fst r')) uid) as [E|E].
  - apply bool_decide_eq_true. rewrite <- Hu.
    apply (user_key_inj db); [apply Hown; exact Hr' | apply Hown; exact Hr | congruence].
  - apply bool_decide_eq_false. unfold user_key. intros [= E' _]. contradiction.
Qed.

Lemma user_map_lookup db rows uid :
  (forall r, In r rows -> owned_by db r) ->
  assign_all (List.map to_stat (user_groups rows)) (∅ : gmap Z UserStat) !! uid
  = owner_stat rows uid.
Proof.
  intros Hown.
  rewrite assign_all_lookup by (apply (user_groups_keys db); exact Hown).
  rewrite lookup_empty. unfold owner_stat.
  destruct (List.filter (fun r => tx_UserID (fst r) =? uid) rows) as [|r g] eqn:Hf.
  - destruct (alookup uid (List.map to_stat (user_groups rows))) as [us|] eqn:Hl;
      [|reflexivity].
    exfalso. apply alookup_Some_elem in Hl.
    apply list_elem_of_fmap in Hl. destruct Hl as [gr [Heq Hgr]].
    assert (Hk : fst gr ∈ List.map fst (user_groups rows))
      by (apply (list_elem_of_fmap_2 fst); exact Hgr).
    apply keys_group_by in Hk. destruct Hk as [r [Hr Hkey]].
    apply list_elem_of_In in Hr.
    assert (Hin : In r (List.filter (fun r => tx_UserID (fst r) =? uid) rows)).
    { apply filter_In. split; [exact Hr|]. apply Z.eqb_eq.
      pose proof (to_stat_key gr) as Hs. rewrite <- Heq in Hs. simpl in Hs.
      rewrite Hs, <- Hkey. reflexivity. }
    rewrite Hf in Hin. destruct Hin.
  - pose proof (owner_group db rows r g uid Hown Hf) as Hg.
    set (k := (uid, u_Phone (snd r))) in *.
    pose proof (alookup_group_by agg_add user_key (fun r => agg_of (fst r))
                  spent spent_add k rows) as Hs.
    pose proof (alookup_group_by agg_add user_key (fun r => agg_of (fst r))
                  received received_add k rows) as Hr.
    pose proof (alookup_group_by agg_add user_key (fun r => agg_of (fst r))
                  counted counted_add k rows) as Hc.
    rewrite Hg in Hs, Hr, Hc.
    change (option_map spent (alookup k (user_groups rows))
            = Some (0 + sumZ (List.map (fun r => spent (agg_of (fst r))) (r :: g)))) in Hs.
    change (option_map received (alookup k (user_groups rows))
            = Some (0 + sumZ (List.map (fun r => received (agg_of (fst r))) (r :: g))))
      in Hr.
    change (option_map counted (alookup k (user_groups rows))
            = Some (0 + sumZ (List.map (fun r => counted (agg_of (fst r))) (r :: g))))
      in Hc.
    destruct (alookup k (user_groups rows)) as [[[s i] n]|] eqn:Hl;
      [|discriminate].
    simpl in Hs, Hr, Hc.
    inversion Hs as [Hs']. inversion Hr as [Hr']. inversion Hc as [Hc'].
    unfold spent, received, counted, agg_of in Hs', Hr', Hc'. simpl in Hs', Hr', Hc'.
    apply alookup_Some_elem in Hl.
    apply (list_elem_of_fmap_2 to_stat) in Hl.
    assert (Hl' : alookup uid (List.map to_stat (user_groups rows))
                  = Some (mkUserStat uid (u_Phone (snd r)) s i n)).
    { apply alookup_elem; [apply (user_groups_keys db); exact Hown | exact Hl]. }
    rewrite Hl'. f_equal. f_equal.
    + unfold total_expenses. simpl. lia.
    + unfold total_income. simpl. lia.
    + pose proof (sum_ones g) as Ho. simpl length. lia.
Qed.

(** *** The aggregation answers *)

Lemma fits_between z : 0 <= z <= int64_max -> fits_int64 z = true.
Proof.
  intros [H0 H1]. unfold fits_int64, int64_min. apply andb_true_iff.
  split; apply Z.leb_le; [lia | exact H1].
Qed.

Lemma sum_filter_bounds {A} (f : A -> Z) (p : A -> bool) (l : list A) :
  (forall x, In x l -> 0 <= f x) ->
  0 <= sumZ (List.map f (List.filter p l)) <= sumZ (List.map f l).
Proof.
  induction l as [|x l IH]; intros Hnn; simpl; [lia|].
  assert (Hx : 0 <= f x) by (apply Hnn; left; reflexivity).
  assert (Hl : forall y, In y l -> 0 <= f y) by (intros y Hy; apply Hnn; right; exact Hy).
  specialize (IH Hl). destruct (p x); simpl; lia.
Qed.

Lemma sum_le_pointwise {A} (f g : A -> Z) (l : list A) :
  (forall x, In x l -> 0 <= f x <= g x) ->
  0 <= sumZ (List.map f l) <= sumZ (List.map g l).
Proof.
  induction l as [|x l IH]; intros Hle; simpl; [lia|].
  assert (Hx : 0 <= f x <= g x) by (apply Hle; left; reflexivity).
  assert (Hl : forall y, In y l -> 0 <= f y <= g y)
    by (intros y Hy; apply Hle; right; exact Hy).
  specialize (IH Hl). lia.
Qed.

Lemma joined_transaction db r : In r (joined db) -> In (fst r) (transactions db).
Proof.
  unfold joined. intros Hin. apply in_flat_map in Hin. destruct Hin as [t [Ht Hr]].
  destruct (users db !! tx_UserID t); simpl in Hr; [|contradiction].
  destruct Hr as [<-|[]]. exact Ht.
Qed.

Lemma joined_sum_bounds db :
  (forall t, In t (transactions db) -> 0 <= tx_Amount t) ->
  sumZ (List.map (fun r => tx_Amount (fst r)) (joined db))
  <= sumZ (List.map tx_Amount (transactions db)).
Proof.
  unfold joined. induction (transactions db) as [|t l IH]; intros Hnn; simpl; [lia|].
  assert (Ht : 0 <= tx_Amount t) by (apply Hnn; left; reflexivity).
  assert (Hl : forall y, In y l -> 0 <= tx_Amount y)
    by (intros y Hy; apply Hnn; right; exact Hy).
  specialize (IH Hl).
  destruct (users db !! tx_UserID t); simpl; lia.
Qed.

Lemma income_amount_bounds t : 0 <= tx_Amount t -> 0 <= income_amount t <= tx_Amount t.
Proof. unfold income_amount. destruct (String.eqb _ _); lia. Qed.

Lemma expense_amount_bounds t : 0 <= tx_Amount t -> 0 <= expense_amount t <= tx_Amount t.
Proof. unfold expense_amount. destruct (String.eqb _ _); lia. Qed.

Lemma scan_category_rows_fits msg rows : forall m,
  (forall g, In g rows -> fits_int64 (snd g) = true) ->
  scan_category_rows msg rows (MkMap m) = Ok (MkMap (assign_all rows m)).
Proof.
  induction rows as [|[c s] rows IH]; intros m Hfit; simpl; [reflexivity|].
  pose proof (Hfit (c, s) (or_introl eq_refl)) as Hs. simpl in Hs. rewrite Hs.
  apply IH. intros g Hg. apply Hfit. right. exact Hg.
Qed.

Lemma scan_user_rows_fits rows : forall m,
  (forall g, In g rows -> fits_int64 (spent (snd g)) = true
                          /\ fits_int64 (received (snd g)) = true) ->
  scan_user_rows rows (MkMap m) = Ok (MkMap (assign_all (List.map to_stat rows) m)).
Proof.
  induction rows as [|[[uid ph] [[s i] n]] rows IH]; intros m Hfit; simpl; [reflexivity|].
  destruct (Hfit _ (or_introl eq_refl)) as [Hs Hi].
  unfold spent, received in Hs, Hi. simpl in Hs, Hi.
  rewrite Hs, Hi. simpl.
  apply IH. intros g Hg. apply Hfit. right. exact Hg.
Qed.

(** The value a grouping carries for a key is the sum over a part of the
    rows, hence between zero and the sum over all of them. *)
Lemma group_value_bounds {R K V} `{EqDecision K} (op : V -> V -> V) (key : R -> K)
    (val : R -> V) (f : V -> Z) (rows : list R) g :
  (forall a b, f (op a b) = f a + f b) ->
  (forall r, In r rows -> 0 <= f (val r)) ->
  In g (group_by op key val rows) ->
  0 <= f (snd g) <= sumZ (List.map (fun r => f (val r)) rows).
Proof.
  intros Hadd Hnn Hin. destruct g as [k v]. simpl.
  apply list_elem_of_In in Hin.
  apply (alookup_elem k v) in Hin; [|apply NoDup_group_by].
  pose proof (alookup_group_by op key val f Hadd k rows) as Hl.
  rewrite Hin in Hl. simpl in Hl. unfold group_total in Hl.
  pose proof (sum_filter_bounds (fun r => f (val r))
                (fun r => bool_decide (key r = k)) rows Hnn) as Hb.
  fold (group_of key k rows) in Hb.
  destruct (group_of key k rows); inversion Hl; simpl in *; lia.
Qed.

Lemma filtered_sum_fits db (p : Transaction * User -> bool) (f : Transaction -> Z) :
  amounts_bounded db ->
  (forall t, 0 <= tx_Amount t -> 0 <= f t <= tx_Amount t) ->
  0 <= sumZ (List.map (fun r => f (fst r)) (List.filter p (joined db))) <= int64_max.
Proof.
  intros [Hnn Hsum] Hf.
  assert (Hj : forall r, In r (joined db) -> 0 <= tx_Amount (fst r)).
  { intros r Hr. apply Hnn. apply joined_transaction. exact Hr. }
  pose proof (sum_le_pointwise (fun r : Transaction * User => f (fst r))
                (fun r => tx_Amount (fst r)) (List.filter p (joined db))) as H1.
  pose proof (sum_filter_bounds (fun r : Transaction * User => tx_Amount (fst r)) p
                (joined db) Hj) as H2.
  pose proof (joined_sum_bounds db Hnn) as H3.
  assert (H1' : 0 <= sumZ (List.map (fun r : Transaction * User => f (fst r))
                             (List.filter p (joined db)))
                <= sumZ (List.map (fun r : Transaction * User => tx_Amount (fst r))
                           (List.filter p (joined db)))).
  { apply H1. intros r Hr. apply Hf. apply Hj. apply filter_In in Hr. tauto. }
  lia.
Qed.

Lemma category_block_succeeds db kind qm sm F :
  available db = true -> amounts_bounded db ->
  exists m, category_block db kind qm sm F make_map = Ok m.
Proof.
  intros Ha Hb. unfold category_block.
  destruct (grouping_requested kind F); [|eexists; reflexivity].
  rewrite (categoryQuery_result db kind F Ha).
  eexists. apply scan_category_rows_fits.
  intros g Hg. apply fits_between.
  pose proof (group_value_bounds Z.add (fun r : Transaction * User => tx_Category (fst r))
                (fun r => tx_Amount (fst r)) (fun v => v) (category_rows kind db F) g
                (fun a b => eq_refl)) as Hv.
  assert (Hnn : forall r, In r (category_rows kind db F) -> 0 <= tx_Amount (fst r)).
  { intros r Hr. apply (proj1 Hb). apply joined_transaction.
    unfold category_rows in Hr. apply filter_In in Hr. tauto. }
  specialize (Hv Hnn Hg).
  pose proof (filtered_sum_fits db (fun r => holds (category_clauses kind F) (fst r))
                tx_Amount Hb (fun t Ht => conj Ht (Z.le_refl _))) as Hs.
  fold (category_rows kind db F) in Hs. lia.
Qed.

(** The aggregation answers whenever the store can be reached and the
    amounts are in range: no sum leaves int64. *)
Lemma GetAggregatedStats_succeeds db F :
  available db = true -> amounts_bounded db ->
  exists stats, GetAggregatedStats db F = Ok stats.
Proof.
  intros Ha Hb. unfold GetAggregatedStats.
  rewrite (sumQuery_result db F Ha), (userSpendingQuery_result db F Ha). simpl.
  pose proof (filtered_sum_fits db (fun r => matches F (fst r)) income_amount Hb
                income_amount_bounds) as Hi.
  pose proof (filtered_sum_fits db (fun r => matches F (fst r)) expense_amount Hb
                expense_amount_bounds) as He.
  fold (matching db F) in Hi, He.
  fold (total_income (matching db F)) in Hi.
  fold (total_expenses (matching db F)) in He.
  rewrite (fits_between _ Hi), (fits_between _ He). simpl.
  destruct (category_block_succeeds db TransactionTypeIncome
              "failed to get income by category" "failed to scan income by category"
              F Ha Hb) as [bi ->]. simpl.
  destruct (category_block_succeeds db TransactionTypeExpense
              "failed to get expense by category" "failed to scan expense by category"
              F Ha Hb) as [be ->]. simpl.
  unfold make_map. rewrite scan_user_rows_fits; [simpl; eexists; reflexivity|].
  intros g Hg.
  assert (Hnn : forall r, In r (matching db F) -> 0 <= tx_Amount (fst r)).
  { intros r Hr. apply (proj1 Hb). apply joined_transaction.
    unfold matching in Hr. apply filter_In in Hr. tauto. }
  split; apply fits_between.
  - pose proof (group_value_bounds agg_add user_key (fun r => agg_of (fst r)) spent
                  (matching db F) g spent_add) as Hv.
    assert (Hs : forall r, In r (matching db F) -> 0 <= spent (agg_of (fst r))).
    { intros r Hr. apply (expense_amount_bounds (fst r)). apply Hnn. exact Hr. }
    specialize (Hv Hs Hg). unfold total_expenses in He.
    unfold spent, agg_of in Hv |- *. simpl in Hv |- *. lia.
  - pose proof (group_value_bounds agg_add user_key (fun r => agg_of (fst r)) received
                  (matching db F) g received_add) as Hv.
    assert (Hs : forall r, In r (matching db F) -> 0 <= received (agg_of (fst r))).
    { intros r Hr. apply (income_amount_bounds (fst r)). apply Hnn. exact Hr. }
    specialize (Hv Hs Hg). unfold total_income in Hi.
    unfold received, agg_of in Hv |- *. simpl in Hv |- *. lia.
Qed.

(** *** The store on the sample ledger *)

Example ledger_amounts_bounded : amounts_bounded ledger.
Proof.
  split.
  - intros t [<-|[<-|[<-|[]]]]; vm_compute; discriminate.
  - vm_compute. discriminate.
Qed.


Example stats_all_computed : GetAggregatedStats ledger no_filter = Ok stats_all.
Proof. vm_compute. reflexivity. Qed.

(** The scenario of the specification: owner 1 with an expense of 1000 on
    food and an income of 5000 as salary. *)
Example stats_owner1_computed : GetAggregatedStats ledger by_owner1 = Ok stats_owner1.
Proof. vm_compute. reflexivity. Qed.

Example stats_income_computed : GetAggregatedStats ledger only_income = Ok stats_income.
Proof. vm_compute. reflexivity. Qed.

Example stats_expense_computed : GetAggregatedStats ledger only_expense = Ok stats_expense.
Proof. vm_compute. reflexivity. Qed.

(** A type field pointing at the empty string (the handlers never build
    one) adds no clause, and neither category query is sent. *)
Example stats_empty_type_computed :
  GetAggregatedStats ledger empty_type
  = Ok (mkAggregatedStats 5000 1700 3300 (MkMap ∅) (MkMap ∅)
          (st_ByUserSpending stats_all)).
Proof. vm_compute. reflexivity. Qed.

Example listing_most_recent_first : FindAll ledger no_filter = Ok [salary; taxi; food].
Proof. vm_compute. reflexivity. Qed.

Example single_day_listing :
  GetUserTransactions ledger 1 (mkUserTransactionFilters None None (Some jan5) None)
  = Ok [food].
Proof. vm_compute. reflexivity. Qed.

Example upload_accepts_receipt :
  fst (fst (UploadReceipt memory_host ledger no_files 3 2 receipt_pdf "uploads"))
  = Ok (with_ReceiptPath taxi (Some "uploads/transactions/3/Taxi.PDF")).
Proof. vm_compute. reflexivity. Qed.

Example hostile_value_is_bound_not_spliced :
  FindAll_sql hostile
  = FindAll_head +:+ " WHERE t.type = $1 AND t.category = $2"
    +:+ " ORDER BY t.transaction_date DESC, t.created_at DESC"
  /\ args (FindAll_build hostile)
     = [AText "income; DROP TABLE users"; AText "x' OR '1'='1"].
Proof. split; reflexivity. Qed.

(* ===================================================================== *)
(** ** The claims of the specification *)
(* ===================================================================== *)

(** *** Aggregation *)

(** C1.  Whatever the filter, the statistics GetAggregatedStats returns have
    their balance computed from the two totals: [Balance] is the int64
    difference [TotalIncome - TotalExpenses], which is the mathematical
    difference whenever that difference is an int64 value. *)
Theorem balance_is_income_minus_expenses db F stats :
  GetAggregatedStats db F = Ok stats ->
  st_Balance stats = sub64 (st_TotalIncome stats) (st_TotalExpenses stats)
  /\ (fits_int64 (st_TotalIncome stats - st_TotalExpenses stats) = true ->
      st_Balance stats = st_TotalIncome stats - st_TotalExpenses stats).
Proof.
  intros Hs. apply GetAggregatedStats_Ok in Hs.
  destruct Hs as [_ [bi [be [bu [-> _]]]]]. simpl. split; [reflexivity|].
  intros Hfit. unfold sub64. apply wrap64_fits. exact Hfit.
Qed.

Lemma balance_is_income_minus_expenses_witness :
  st_Balance stats_owner1
  = sub64 (st_TotalIncome stats_owner1) (st_TotalExpenses stats_owner1)
  /\ (fits_int64 (st_TotalIncome stats_owner1 - st_TotalExpenses stats_owner1) = true ->
      st_Balance stats_owner1
      = st_TotalIncome stats_owner1 - st_TotalExpenses stats_owner1).
Proof.
  apply (balance_is_income_minus_expenses ledger by_owner1 stats_owner1).
  vm_compute. reflexivity.
Defined.

(** C2.  With the type field set to income only the income grouping is
    computed and [ByCategoryExpense] is the empty map made at the start
    (allocated, with no entry); symmetrically for expense; with no type
    field both groupings are computed, each over the rows that match the
    filter and have the grouping's type. *)
Theorem category_grouping_follows_type db F stats :
  GetAggregatedStats db F = Ok stats ->
  (af_Type F = Some TransactionTypeIncome ->
     st_ByCategoryExpense stats = MkMap ∅
     /\ exists m, st_ByCategoryIncome stats = MkMap m
                  /\ forall c, m !! c = category_sum (matching db F) c)
  /\ (af_Type F = Some TransactionTypeExpense ->
     st_ByCategoryIncome stats = MkMap ∅
     /\ exists m, st_ByCategoryExpense stats = MkMap m
                  /\ forall c, m !! c = category_sum (matching db F) c)
  /\ (af_Type F = None ->
     exists mi me,
       st_ByCategoryIncome stats = MkMap mi /\ st_ByCategoryExpense stats = MkMap me
       /\ forall c,
            mi !! c = category_sum (of_kind TransactionTypeIncome (matching db F)) c
            /\ me !! c = category_sum (of_kind TransactionTypeExpense (matching db F)) c).
Proof.
  intros Hs. apply GetAggregatedStats_Ok in Hs.
  destruct Hs as [Ha [bi [be [bu [-> [_ [_ [Hbi [Hbe _]]]]]]]]]. simpl.
  apply (category_block_Ok _ _ _ _ _ _ Ha) in Hbi, Hbe.
  rewrite category_rows_spec in Hbi, Hbe.
  unfold grouping_requested in Hbi, Hbe.
  split; [|split]; intros Ht; rewrite Ht in Hbi, Hbe; simpl in Hbi, Hbe; subst bi be.
  - split; [reflexivity|]. eexists. split; [reflexivity|].
    intros c. apply category_map_lookup.
  - split; [reflexivity|]. eexists. split; [reflexivity|].
    intros c. apply category_map_lookup.
  - eexists. eexists. split; [reflexivity|]. split; [reflexivity|].
    intros c. split; apply category_map_lookup.
Qed.

Lemma category_grouping_follows_type_witness :
  (st_ByCategoryExpense stats_income = MkMap ∅
   /\ exists m, st_ByCategoryIncome stats_income = MkMap m
                /\ forall c, m !! c = category_sum (matching ledger only_income) c)
  /\ (st_ByCategoryIncome stats_expense = MkMap ∅
      /\ exists m, st_ByCategoryExpense stats_expense = MkMap m
                   /\ forall c, m !! c = category_sum (matching ledger only_expense) c)
  /\ (exists mi me,
        st_ByCategoryIncome stats_all = MkMap mi /\ st_ByCategoryExpense stats_all = MkMap me
        /\ forall c,
             mi !! c = category_sum (of_kind TransactionTypeIncome (matching ledger no_filter)) c
             /\ me !! c
                = category_sum (of_kind TransactionTypeExpense (matching ledger no_filter)) c).
Proof.
  split; [|split].
  - apply (category_grouping_follows_type ledger only_income stats_income);
      [vm_compute; reflexivity | reflexivity].
  - apply (category_grouping_follows_type ledger only_expense stats_expense);
      [vm_compute; reflexivity | reflexivity].
  - apply (category_grouping_follows_type ledger no_filter stats_all);
      [vm_compute; reflexivity | reflexivity].
Defined.

(** C5.  With no type field or with type income, the values of
    [ByCategoryIncome] sum to [TotalIncome]; with no type field or with type
    expense, the values of [ByCategoryExpense] sum to [TotalExpenses]. *)
Theorem category_values_sum_to_total db F stats :
  GetAggregatedStats db F = Ok stats ->
  (af_Type F = None \/ af_Type F = Some TransactionTypeIncome ->
     values_sum (st_ByCategoryIncome stats) = st_TotalIncome stats)
  /\ (af_Type F = None \/ af_Type F = Some TransactionTypeExpense ->
     values_sum (st_ByCategoryExpense stats) = st_TotalExpenses stats).
Proof.
  intros Hs. apply GetAggregatedStats_Ok in Hs.
  destruct Hs as [Ha [bi [be [bu [-> [_ [_ [Hbi [Hbe _]]]]]]]]]. simpl.
  apply (category_block_Ok _ _ _ _ _ _ Ha) in Hbi, Hbe.
  rewrite category_rows_spec in Hbi, Hbe.
  unfold grouping_requested in Hbi, Hbe.
  split; intros [Ht|Ht]; rewrite Ht in Hbi, Hbe; simpl in Hbi, Hbe; subst bi be;
    simpl; rewrite category_map_sum.
  - apply sum_of_kind_income.
  - apply sum_all_income. intros r Hr.
    apply (matching_type db F _ r Ht); [discriminate | exact Hr].
  - apply sum_of_kind_expense.
  - apply sum_all_expense. intros r Hr.
    apply (matching_type db F _ r Ht); [discriminate | exact Hr].
Qed.

Lemma category_values_sum_to_total_witness :
  (values_sum (st_ByCategoryIncome stats_all) = st_TotalIncome stats_all
   /\ values_sum (st_ByCategoryExpense stats_all) = st_TotalExpenses stats_all)
  /\ values_sum (st_ByCategoryIncome stats_income) = st_TotalIncome stats_income
  /\ values_sum (st_ByCategoryExpense stats_expense) = st_TotalExpenses stats_expense.
Proof.
  split; [split|split].
  - apply (category_values_sum_to_total ledger no_filter stats_all);
      [vm_compute; reflexivity | left; reflexivity].
  - apply (category_values_sum_to_total ledger no_filter stats_all);
      [vm_compute; reflexivity | left; reflexivity].
  - apply (category_values_sum_to_total ledger only_income stats_income);
      [vm_compute; reflexivity | right; reflexivity].
  - apply (category_values_sum_to_total ledger only_expense stats_expense);
      [vm_compute; reflexivity | right; reflexivity].
Defined.

(** C6.  The per-owner breakdown is computed over the same filtered subset
    as the totals, with no added type restriction: each owner's entry is
    the statistic of that owner's matching rows, an owner without a matching
    row has no entry, and over all owners [TotalSpent] sums to
    [TotalExpenses] and [TotalIncome] to the overall [TotalIncome]. *)
Theorem per_owner_breakdown db F stats :
  GetAggregatedStats db F = Ok stats ->
  exists m,
    st_ByUserSpending stats = MkMap m
    /\ sum_with us_TotalSpent m = st_TotalExpenses stats
    /\ sum_with us_TotalIncome m = st_TotalIncome stats
    /\ (forall uid, m !! uid = owner_stat (matching db F) uid)
    /\ (forall uid us, m !! uid = Some us ->
          1 <= us_TransactionCount us
          /\ exists r, In r (matching db F) /\ tx_UserID (fst r) = uid).
Proof.
  intros Hs. apply GetAggregatedStats_Ok in Hs.
  destruct Hs as [Ha [bi [be [bu [-> [_ [_ [_ [_ Hbu]]]]]]]]]. simpl.
  apply scan_user_rows_Ok in Hbu. subst bu.
  pose proof (matching_owned db F) as Hown.
  eexists. split; [reflexivity|].
  split; [apply (user_map_spent db); exact Hown|].
  split; [apply (user_map_received db); exact Hown|].
  split; [intros uid; apply (user_map_lookup db); exact Hown|].
  intros uid us. rewrite (user_map_lookup db _ _ Hown). unfold owner_stat.
  destruct (List.filter _ (matching db F)) as [|r g] eqn:Hf; [discriminate|].
  intros [= <-]. simpl us_TransactionCount. split; [simpl length; lia|].
  exists r.
  assert (Hr : In r (matching db F) /\ (tx_UserID (fst r) =? uid) = true).
  { apply (proj1 (filter_In (fun r0 : Transaction * User => tx_UserID (fst r0) =? uid)
                    r (matching db F))).
    rewrite Hf. left. reflexivity. }
  destruct Hr as [Hr Hu]. apply Z.eqb_eq in Hu. split; assumption.
Qed.

Lemma per_owner_breakdown_witness :
  exists m,
    st_ByUserSpending stats_all = MkMap m
    /\ sum_with us_TotalSpent m = st_TotalExpenses stats_all
    /\ sum_with us_TotalIncome m = st_TotalIncome stats_all
    /\ (forall uid, m !! uid = owner_stat (matching ledger no_filter) uid)
    /\ (forall uid us, m !! uid = Some us ->
          1 <= us_TransactionCount us
          /\ exists r, In r (matching ledger no_filter) /\ tx_UserID (fst r) = uid).
Proof.
  apply (per_owner_breakdown ledger no_filter stats_all).
  vm_compute. reflexivity.
Defined.

(** *** Query text *)

Lemma FindAll_sql_skeleton F : FindAll_sql F = FindAll_sql (skeleton (shape F)).
Proof. cases_filter F; reflexivity. Qed.

Lemma sumQuery_skeleton F : sumQuery F = sumQuery (skeleton (shape F)).
Proof. cases_filter F; reflexivity. Qed.

Lemma categoryQuery_skeleton F : categoryQuery F = categoryQuery (skeleton (shape F)).
Proof. cases_filter F; reflexivity. Qed.

Lemma userSpendingQuery_skeleton F :
  userSpendingQuery F = userSpendingQuery (skeleton (shape F)).
Proof. cases_filter F; reflexivity. Qed.

(** C7.  The text of every query FindAll and GetAggregatedStats build is
    determined by the shape of the filter: two filters with the same fields
    present (type and category equally empty or non-empty) give identical
    strings.  The conditions are one [column cmp $n] per constrained field
    and none for an omitted one, and the values travel in the parameter
    list, in the same order. *)
Theorem query_text_is_independent_of_values F F' :
  same_shape F F' ->
  FindAll_sql F = FindAll_sql F'
  /\ sumQuery F = sumQuery F'
  /\ categoryIncomeQuery F = categoryIncomeQuery F'
  /\ categoryExpenseQuery F = categoryExpenseQuery F'
  /\ userSpendingQuery F = userSpendingQuery F'
  /\ conditions (FindAll_build F) = rendered 1 (clauses F)
  /\ conditions (stats_build F) = rendered 1 (clauses F)
  /\ args (FindAll_build F) = List.map snd (clauses F)
  /\ args (stats_build F) = List.map snd (clauses F)
  /\ whereClause F
     = match rendered 1 (clauses F) with
       | [] => ""
       | cs => " WHERE " +:+ Join cs " AND "
       end
  /\ (whereClause F = "" <-> clauses F = []).
Proof.
  unfold same_shape. intros Hsh.
  split; [rewrite (FindAll_sql_skeleton F), (FindAll_sql_skeleton F'), Hsh; reflexivity|].
  split; [rewrite (sumQuery_skeleton F), (sumQuery_skeleton F'), Hsh; reflexivity|].
  split; [unfold categoryIncomeQuery;
          rewrite (categoryQuery_skeleton F), (categoryQuery_skeleton F'), Hsh; reflexivity|].
  split; [unfold categoryExpenseQuery;
          rewrite (categoryQuery_skeleton F), (categoryQuery_skeleton F'), Hsh; reflexivity|].
  split; [rewrite (userSpendingQuery_skeleton F), (userSpendingQuery_skeleton F'), Hsh;
          reflexivity|].
  clear Hsh F'.
  split; [cases_filter F; reflexivity|].
  split; [cases_filter F; reflexivity|].
  split; [apply FindAll_args|].
  split; [apply stats_args|].
  split; [cases_filter F; reflexivity|].
  cases_filter F; split; intros Hx; try reflexivity; discriminate Hx.
Qed.

Lemma query_text_is_independent_of_values_witness :
  FindAll_sql food_expenses = FindAll_sql hostile
  /\ sumQuery food_expenses = sumQuery hostile
  /\ categoryIncomeQuery food_expenses = categoryIncomeQuery hostile
  /\ categoryExpenseQuery food_expenses = categoryExpenseQuery hostile
  /\ userSpendingQuery food_expenses = userSpendingQuery hostile
  /\ conditions (FindAll_build food_expenses) = rendered 1 (clauses food_expenses)
  /\ conditions (stats_build food_expenses) = rendered 1 (clauses food_expenses)
  /\ args (FindAll_build food_expenses) = List.map snd (clauses food_expenses)
  /\ args (stats_build food_expenses) = List.map snd (clauses food_expenses)
  /\ whereClause food_expenses
     = match rendered 1 (clauses food_expenses) with
       | [] => ""
       | cs => " WHERE " +:+ Join cs " AND "
       end
  /\ (whereClause food_expenses = "" <-> clauses food_expenses = []).
Proof.
  apply (query_text_is_independent_of_values food_expenses hostile).
  reflexivity.
Defined.

(** *** Date normalisation *)

(** The admin routes never hand the repository a type or category that
    points at the empty string. *)
Lemma admin_filters_text_not_empty u ty cat s e :
  af_Type (admin_filters u ty cat s e) <> Some ""
  /\ af_Category (admin_filters u ty cat s e) <> Some "".
Proof.
  unfold admin_filters. simpl.
  destruct (String.eqb_spec ty ""), (String.eqb_spec cat "");
    split; congruence.
Qed.

(** C3.  A user filter with a start boundary [D] whose clock reads 00:00:00
    and no end boundary gives the same result as the filter with start [D]
    and end [D] 23:59:59.999999999: the missing end boundary is set to the
    last instant of day [D].  An end boundary whose clock reads 00:00:00 is
    moved to the last instant of its day, by the service for a user filter
    and by the handler for an admin filter. *)
Theorem single_day_filter_is_whole_day db userID ty cat D :
  zero_clock D = true ->
  let single := mkUserTransactionFilters ty cat (Some D) None in
  let explicit := mkUserTransactionFilters ty cat (Some D) (Some (endOfDay D)) in
  GetUserTransactions db userID single = GetUserTransactions db userID explicit
  /\ uf_EndDate (adjust_dates single)
     = Some (Date (Year D) (Month D) (Day D) 23 59 59 999999999 (Loc D))
  /\ (forall f E,
        uf_EndDate f = Some E -> zero_clock E = true ->
        uf_EndDate (adjust_dates f)
        = Some (Date (Year E) (Month E) (Day E) 23 59 59 999999999 (Loc E)))
  /\ (forall u ty' cat' s E,
        af_EndDate (admin_filters u ty' cat' s (Some E))
        = Some (Date (Year E) (Month E) (Day E) 23 59 59 999999999 (Loc E))).
Proof.
  intros HD single explicit.
  assert (Hs : adjust_dates single = adjust_dates explicit).
  { unfold adjust_dates, single, explicit. simpl. rewrite HD. simpl. reflexivity. }
  split; [unfold GetUserTransactions; rewrite Hs; reflexivity|].
  split; [|split].
  - unfold adjust_dates, single. simpl. rewrite HD. simpl. reflexivity.
  - intros f E HE HzE. unfold adjust_dates.
    destruct (uf_StartDate f) as [sd|]; [destruct (zero_clock sd)|];
      simpl; rewrite HE; simpl; rewrite ?HE, HzE; reflexivity.
  - reflexivity.
Qed.

Lemma single_day_filter_is_whole_day_witness :
  GetUserTransactions ledger 1 (mkUserTransactionFilters None None (Some jan5) None)
  = GetUserTransactions ledger 1
      (mkUserTransactionFilters None None (Some jan5) (Some (endOfDay jan5)))
  /\ uf_EndDate (adjust_dates (mkUserTransactionFilters None None (Some jan5) None))
     = Some (Date 2024 1 5 23 59 59 999999999 UTC)
  /\ (forall f E,
        uf_EndDate f = Some E -> zero_clock E = true ->
        uf_EndDate (adjust_dates f)
        = Some (Date (Year E) (Month E) (Day E) 23 59 59 999999999 (Loc E)))
  /\ (forall u ty' cat' s E,
        af_EndDate (admin_filters u ty' cat' s (Some E))
        = Some (Date (Year E) (Month E) (Day E) 23 59 59 999999999 (Loc E))).
Proof.
  apply (single_day_filter_is_whole_day ledger 1 None None jan5).
  reflexivity.
Defined.

(** With the store reachable, the single-day listing is the owner's rows
    dated from [D] 00:00:00 to [D] 23:59:59.999999999, most recent first. *)
Lemma single_day_listing_spec db userID ty cat D :
  available db = true -> zero_clock D = true ->
  GetUserTransactions db userID (mkUserTransactionFilters ty cat (Some D) None)
  = Ok (order_desc
          (List.filter
             (holds (user_clauses userID
                       (mkUserTransactionFilters ty cat (Some (startOfDay D))
                          (Some (endOfDay D)))))
             (transactions db))).
Proof.
  intros Ha HD. unfold GetUserTransactions.
  assert (Hn : adjust_dates (mkUserTransactionFilters ty cat (Some D) None)
               = mkUserTransactionFilters ty cat (Some (startOfDay D)) (Some (endOfDay D))).
  { unfold adjust_dates. simpl. rewrite HD. reflexivity. }
  rewrite Hn, (FindByUser_spec db userID _ Ha). reflexivity.
Qed.

(** *** Access policy and errors *)

(** C4, as amended.  On a transaction that exists, get by id, delete and
    receipt retrieval answer forbidden exactly to a caller who neither is
    the owner nor has the administrator role; update and receipt upload take
    no role and answer forbidden exactly to every caller who is not the
    owner, administrators included.  A get by id that is not forbidden
    returns the transaction. *)
Theorem access_check_by_operation H db fs c op id tx :
  FindByID db id = Ok (Some tx) ->
  (attempt H db fs c op id = Some ErrForbidden
   <-> tx_UserID tx <> authUser c
       /\ (role_sensitive op = true -> authRole c <> RoleAdmin))
  /\ (op = OpGet -> attempt H db fs c op id <> Some ErrForbidden ->
      GetTransactionByID db id (authUser c) (authRole c) = Ok tx).
Proof.
  intros Hfind. split.
  - destruct op as [|time_Now req| |file dir|]; unfold attempt; simpl.
    + unfold GetTransactionByID. rewrite Hfind.
      destruct (String.eqb_spec (authRole c) RoleAdmin) as [Hr|Hr];
        destruct (Z.eqb_spec (tx_UserID tx) (authUser c)) as [Hu|Hu]; simpl;
        split; try discriminate; try tauto.
    + unfold UpdateTransaction. rewrite Hfind.
      destruct (Z.eqb_spec (tx_UserID tx) (authUser c)) as [Hu|Hu]; simpl.
      * destruct (Update db _) as [[?|?] ?]; simpl; split; try discriminate; tauto.
      * split; [intros _; split; [exact Hu | discriminate] | reflexivity].
    + unfold DeleteTransaction. rewrite Hfind.
      destruct (String.eqb_spec (authRole c) RoleAdmin) as [Hr|Hr];
        destruct (Z.eqb_spec (tx_UserID tx) (authUser c)) as [Hu|Hu]; simpl;
        try (destruct (Delete db id) as [[?|?] ?]; simpl);
        split; try discriminate; try tauto.
    + unfold UploadReceipt. rewrite Hfind.
      destruct (Z.eqb_spec (tx_UserID tx) (authUser c)) as [Hu|Hu]; simpl.
      * destruct (MaxFileSize <? Size file); simpl; [split; [discriminate | tauto]|].
        destruct (allowed _); simpl; [|split; [discriminate | tauto]].
        destruct (os_MkdirAll H _ fs) as [[?|] ?]; simpl; [split; [discriminate | tauto]|].
        destruct (Open file); simpl; [|split; [discriminate | tauto]].
        destruct (os_Create H _ _) as [[?|] ?]; simpl; [split; [discriminate | tauto]|].
        destruct (io_Copy H _ _ _) as [[?|] ?]; simpl; [split; [discriminate | tauto]|].
        destruct (UpdateReceiptPath db id _) as [[?|?] ?]; simpl;
          split; try discriminate; tauto.
      * split; [intros _; split; [exact Hu | discriminate] | reflexivity].
    + unfold GetReceiptPath. rewrite Hfind.
      destruct (String.eqb_spec (authRole c) RoleAdmin) as [Hr|Hr];
        destruct (Z.eqb_spec (tx_UserID tx) (authUser c)) as [Hu|Hu]; simpl;
        try (destruct (tx_ReceiptPath tx) as [p|]; [destruct (String.eqb p "")|]; simpl);
        split; try discriminate; try tauto.
  - intros -> Hnf. unfold attempt in Hnf. unfold GetTransactionByID in *.
    rewrite Hfind in *.
    destruct (negb (String.eqb (authRole c) RoleAdmin) && negb (tx_UserID tx =? authUser c));
      [contradiction Hnf; reflexivity | reflexivity].
Qed.

Lemma access_check_by_operation_witness :
  (attempt memory_host ledger no_files admin_caller OpDelete 3 = Some ErrForbidden
   <-> tx_UserID taxi <> authUser admin_caller
       /\ (role_sensitive OpDelete = true -> authRole admin_caller <> RoleAdmin))
  /\ (OpDelete = OpGet ->
      attempt memory_host ledger no_files admin_caller OpDelete 3 <> Some ErrForbidden ->
      GetTransactionByID ledger 3 (authUser admin_caller) (authRole admin_caller) = Ok taxi).
Proof.
  apply (access_check_by_operation memory_host ledger no_files admin_caller OpDelete 3 taxi).
  vm_compute. reflexivity.
Defined.

(** C4, as stated, fails: the administrator (caller 9) is answered
    forbidden when updating, or uploading a receipt for, transaction 3 of
    owner 2, while get by id and delete let the same caller through. *)
Lemma admin_is_refused_update_and_upload :
  authRole admin_caller = RoleAdmin
  /\ FindByID ledger 3 = Ok (Some taxi)
  /\ attempt memory_host ledger no_files admin_caller (OpUpdate jan5 rename_request) 3
     = Some ErrForbidden
  /\ attempt memory_host ledger no_files admin_caller
       (OpUploadReceipt receipt_pdf "uploads") 3
     = Some ErrForbidden
  /\ attempt memory_host ledger no_files admin_caller OpGet 3 = None
  /\ attempt memory_host ledger no_files admin_caller OpDelete 3 = None.
Proof. repeat split; vm_compute; reflexivity. Qed.

(** C8.  When the store answers, GetTransactionByID returns ErrForbidden
    for an existing transaction requested by a caller who is neither its
    owner nor an administrator, and ErrTransactionNotFound for an id with
    no row, whoever asks: the missing row is detected before ownership is
    looked at.  The two errors are different values and neither is the
    other under [errors.Is]. *)
Theorem forbidden_and_not_found_are_distinguished db id userID userRole :
  available db = true ->
  (forall tx, List.find (same_id id) (transactions db) = Some tx ->
              userRole <> RoleAdmin -> tx_UserID tx <> userID ->
              GetTransactionByID db id userID userRole = Err ErrForbidden)
  /\ (List.find (same_id id) (transactions db) = None ->
      GetTransactionByID db id userID userRole = Err ErrTransactionNotFound)
  /\ ErrForbidden <> ErrTransactionNotFound
  /\ errors_Is ErrForbidden ErrTransactionNotFound = false
  /\ errors_Is ErrTransactionNotFound ErrForbidden = false.
Proof.
  intros Ha. unfold GetTransactionByID. rewrite FindByID_spec, Ha.
  split; [|split; [|split; [|split]]].
  - intros tx Hf Hrole Hown. rewrite Hf.
    destruct (String.eqb_spec userRole RoleAdmin) as [E|_]; [contradiction|].
    destruct (Z.eqb_spec (tx_UserID tx) userID) as [E|_]; [contradiction|].
    reflexivity.
  - intros Hf. rewrite Hf. reflexivity.
  - discriminate.
  - reflexivity.
  - reflexivity.
Qed.

Lemma forbidden_and_not_found_are_distinguished_witness :
  GetTransactionByID ledger 3 1 RoleUser = Err ErrForbidden
  /\ GetTransactionByID ledger 99 1 RoleUser = Err ErrTransactionNotFound.
Proof.
  split.
  - apply (proj1 (forbidden_and_not_found_are_distinguished ledger 3 1 RoleUser eq_refl)
             taxi); [reflexivity | discriminate | discriminate].
  - apply (proj1 (proj2 (forbidden_and_not_found_are_distinguished ledger 99 1 RoleUser
                           eq_refl))).
    reflexivity.
Defined.

(** *** Export *)




Example export_of_the_ledger :
  ExportTransactionsCSVAdmin ledger no_filter
  = Ok ("ID,UserID,Amount,Type,Category,Description,TransactionDate,CreatedAt,ReceiptPath"
        +:+ nl
        +:+ "2,1,5000,income,salary,january,2024-01-10T09:00:00Z,2024-01-10T09:00:01Z,"
        +:+ nl
        +:+ "3,2,700,expense,transport,,2024-01-07T18:30:00Z,2024-01-07T18:30:01Z,uploads/transactions/3/taxi.pdf"
        +:+ nl
        +:+ "1,1,1000,expense,food,,2024-01-05T12:00:00Z,2024-01-05T12:00:01Z,"
        +:+ nl).
Proof. vm_compute. reflexivity. Qed.

(** *** Receipt validation *)

Lemma allowed_iff e :
  allowed e = true <-> e = ".jpg" \/ e = ".jpeg" \/ e = ".png" \/ e = ".pdf".
Proof.
  unfold allowed, allowedExts.
  destruct (decide (e = ".jpg")) as [->|H1]; [split; [tauto | reflexivity]|].
  rewrite lookup_insert_ne by congruence.
  destruct (decide (e = ".jpeg")) as [->|H2]; [split; [tauto | reflexivity]|].
  rewrite lookup_insert_ne by congruence.
  destruct (decide (e = ".png")) as [->|H3]; [split; [tauto | reflexivity]|].
  rewrite lookup_insert_ne by congruence.
  destruct (decide (e = ".pdf")) as [->|H4]; [split; [tauto | reflexivity]|].
  rewrite lookup_insert_ne by congruence.
  rewrite lookup_empty. simpl. split; [discriminate | tauto].
Qed.

(** C10.  UploadReceipt turns away every file larger than 5*1024*1024
    bytes and every file whose lower-cased extension is not .jpg, .jpeg,
    .png or .pdf before the host or the store is touched: whoever calls and
    whatever the host does, the answer is an error and the store and the
    file system are returned as they were.  For the owner of an existing
    transaction the error is ErrFileSizeExceeded for the size and, the size
    being within the limit, ErrInvalidFileFormat for the extension; the two
    are different values. *)
Theorem upload_validation_precedes_writes H db fs id userID file dir :
  (MaxFileSize < Size file \/ allowed (ToLower (Ext (Filename file))) = false ->
     exists e, UploadReceipt H db fs id userID file dir = (Err e, db, fs))
  /\ (forall tx,
        FindByID db id = Ok (Some tx) -> tx_UserID tx = userID ->
        (MaxFileSize < Size file ->
           UploadReceipt H db fs id userID file dir = (Err ErrFileSizeExceeded, db, fs))
        /\ (Size file <= MaxFileSize ->
            allowed (ToLower (Ext (Filename file))) = false ->
            UploadReceipt H db fs id userID file dir = (Err ErrInvalidFileFormat, db, fs)))
  /\ MaxFileSize = 5 * 1024 * 1024
  /\ (forall e, allowed e = true <-> e = ".jpg" \/ e = ".jpeg" \/ e = ".png" \/ e = ".pdf")
  /\ ErrFileSizeExceeded <> ErrInvalidFileFormat.
Proof.
  split; [|split; [|split; [|split]]].
  - intros Hbad. unfold UploadReceipt.
    destruct (FindByID db id) as [[tx|]|err]; try (eexists; reflexivity).
    destruct (negb (tx_UserID tx =? userID)); [eexists; reflexivity|].
    destruct (Z.ltb_spec MaxFileSize (Size file)) as [Hbig|Hsmall];
      [eexists; reflexivity|].
    destruct Hbad as [Hbig|Hext]; [lia|]. rewrite Hext. eexists. reflexivity.
  - intros tx Hfind Hown. unfold UploadReceipt. rewrite Hfind.
    destruct (Z.eqb_spec (tx_UserID tx) userID) as [_|Hne]; [|contradiction]. simpl.
    split.
    + intros Hbig. destruct (Z.ltb_spec MaxFileSize (Size file)); [reflexivity | lia].
    + intros Hsmall Hext.
      destruct (Z.ltb_spec MaxFileSize (Size file)); [lia|]. rewrite Hext. reflexivity.
  - reflexivity.
  - apply allowed_iff.
  - discriminate.
Qed.

Lemma upload_validation_precedes_writes_witness :
  UploadReceipt memory_host ledger no_files 3 2 big_scan "uploads"
  = (Err ErrFileSizeExceeded, ledger, no_files)
  /\ UploadReceipt memory_host ledger no_files 3 2 script "uploads"
     = (Err ErrInvalidFileFormat, ledger, no_files)
  /\ exists e, UploadReceipt memory_host ledger no_files 3 9 script "uploads"
               = (Err e, ledger, no_files).
Proof.
  split; [|split].
  - apply (proj1 (proj2 (upload_validation_precedes_writes memory_host ledger no_files
                           3 2 big_scan "uploads")) taxi);
      [vm_compute; reflexivity | reflexivity | reflexivity].
  - apply (proj1 (proj2 (upload_validation_precedes_writes memory_host ledger no_files
                           3 2 script "uploads")) taxi);
      [vm_compute; reflexivity | reflexivity | discriminate | reflexivity].
  - apply (proj1 (upload_validation_precedes_writes memory_host ledger no_files
                    3 9 script "uploads")).
    right. reflexivity.
Defined.

(* ===================================================================== *)
(** ** Further properties of the code *)
(* ===================================================================== *)

Import laws fixtures.

(* ===================================================================== *)
(** ** Listings *)
(* ===================================================================== *)

Lemma In_insert_desc x y l : In y (insert_desc x l) <-> y = x \/ In y l.
Proof.
  induction l as [|z r IH]; simpl.
  - intuition.
  - destruct (not_after x z); simpl; [intuition|]. rewrite IH. intuition.
Qed.

Lemma In_order_desc y l : In y (order_desc l) <-> In y l.
Proof.
  induction l as [|x r IH]; simpl; [reflexivity|].
  rewrite In_insert_desc, IH. intuition.
Qed.

Lemma Permutation_insert_desc x l : Permutation (insert_desc x l) (x :: l).
Proof.
  induction l as [|z r IH]; simpl; [reflexivity|].
  destruct (not_after x z); [reflexivity|].
  rewrite IH. apply perm_swap.
Qed.

Lemma Permutation_order_desc l : Permutation (order_desc l) l.
Proof.
  induction l as [|x r IH]; simpl; [reflexivity|].
  rewrite Permutation_insert_desc. constructor. exact IH.
Qed.

Lemma not_after_spec a b :
  not_after a b = true <->
  timestamptz (tx_TransactionDate b) < timestamptz (tx_TransactionDate a)
  \/ (timestamptz (tx_TransactionDate a) = timestamptz (tx_TransactionDate b)
      /\ timestamptz (tx_CreatedAt b) <= timestamptz (tx_CreatedAt a)).
Proof.
  unfold not_after. rewrite orb_true_iff, andb_true_iff.
  rewrite Z.ltb_lt, Z.eqb_eq, Z.leb_le. reflexivity.
Qed.

Lemma not_after_trans a b c :
  not_after a b = true -> not_after b c = true -> not_after a c = true.
Proof. rewrite !not_after_spec. lia. Qed.

Lemma not_after_total a b : not_after a b = false -> not_after b a = true.
Proof.
  intros Hf. apply not_after_spec.
  destruct (not_after a b) eqn:Hab; [discriminate|].
  assert (Hn : ~ (timestamptz (tx_TransactionDate b) < timestamptz (tx_TransactionDate a)
      \/ (timestamptz (tx_TransactionDate a) = timestamptz (tx_TransactionDate b)
      /\ timestamptz (tx_CreatedAt b) <= timestamptz (tx_CreatedAt a)))).
  { intros Hc. apply not_after_spec in Hc. congruence. }
  lia.
Qed.

Lemma sorted_insert_desc x l :
  ForallOrdPairs (fun a b => not_after a b = true) l ->
  ForallOrdPairs (fun a b => not_after a b = true) (insert_desc x l).
Proof.
  induction 1 as [|z r Hz Hs IH]; simpl.
  - constructor; constructor.
  - destruct (not_after x z) eqn:Hxz.
    + constructor; [|constructor; assumption].
      constructor; [exact Hxz|].
      rewrite List.Forall_forall in *. intros y Hy.
      apply (not_after_trans x z y Hxz). apply Hz. exact Hy.
    + constructor; [|exact IH].
      rewrite List.Forall_forall in *. intros y Hy.
      apply In_insert_desc in Hy. destruct Hy as [->|Hy].
      * apply not_after_total. exact Hxz.
      * apply Hz. exact Hy.
Qed.

Lemma sorted_order_desc l :
  ForallOrdPairs (fun a b => not_after a b = true) (order_desc l).
Proof.
  induction l as [|x r IH]; simpl; [constructor|].
  apply sorted_insert_desc. exact IH.
Qed.

Lemma sorted_most_recent_first l :
  ForallOrdPairs (fun a b => not_after a b = true) l -> most_recent_first l.
Proof.
  induction 1 as [|z r Hz Hs IH]; intros i j a b Hij Ha Hb.
  - destruct i; discriminate.
  - destruct j as [|j]; [lia|]. simpl in Hb.
    destruct i as [|i]; simpl in Ha.
    + inversion Ha; subst z. apply not_after_spec.
      rewrite List.Forall_forall in Hz. apply Hz. apply nth_error_In with j. exact Hb.
    + apply (IH i j a b); [lia|assumption|assumption].
Qed.

Lemma order_desc_most_recent_first l : most_recent_first (order_desc l).
Proof. apply sorted_most_recent_first, sorted_order_desc. Qed.

Lemma GetAllTransactionsAdmin_spec db F :
  available db = true ->
  GetAllTransactionsAdmin db F = Ok (order_desc (List.filter (matches F) (transactions db))).
Proof.
  intros Ha. unfold GetAllTransactionsAdmin. rewrite (FindAll_spec db F Ha). reflexivity.
Qed.

Lemma GetUserTransactions_spec db userID f :
  available db = true ->
  GetUserTransactions db userID f
  = Ok (order_desc (List.filter (holds (user_clauses userID (adjust_dates f)))
                                (transactions db))).
Proof.
  intros Ha. unfold GetUserTransactions. rewrite (FindByUser_spec db _ _ Ha). reflexivity.
Qed.

Lemma FindAll_available db F l : FindAll db F = Ok l -> available db = true.
Proof.
  destruct (available db) eqn:Ha; [reflexivity|].
  unfold FindAll. rewrite (Query_unavailable db _ _ Ha). discriminate.
Qed.

Lemma FindByUser_available db u f l : FindByUser db u f = Ok l -> available db = true.
Proof.
  destruct (available db) eqn:Ha; [reflexivity|].
  unfold FindByUser. rewrite (Query_unavailable db _ _ Ha). discriminate.
Qed.

Lemma GetAllTransactionsAdmin_Ok db F l :
  GetAllTransactionsAdmin db F = Ok l ->
  l = order_desc (List.filter (matches F) (transactions db)).
Proof.
  intros Hl. assert (Ha : available db = true).
  { unfold GetAllTransactionsAdmin in Hl.
    destruct (FindAll db F) as [l0|] eqn:Hf; [|discriminate].
    apply (FindAll_available db F l0 Hf). }
  rewrite (GetAllTransactionsAdmin_spec db F Ha) in Hl. congruence.
Qed.

Lemma GetUserTransactions_Ok db u f l :
  GetUserTransactions db u f = Ok l ->
  l = order_desc (List.filter (holds (user_clauses u (adjust_dates f))) (transactions db)).
Proof.
  intros Hl. assert (Ha : available db = true).
  { unfold GetUserTransactions in Hl.
    destruct (FindByUser db u (adjust_dates f)) as [l0|] eqn:Hf; [|discriminate].
    apply (FindByUser_available db u _ l0 Hf). }
  rewrite (GetUserTransactions_spec db u f Ha) in Hl. congruence.
Qed.

(** What a user filter asks of a row, field by field. *)
Lemma holds_user_clauses userID f t :
  holds (user_clauses userID f) t = true <->
  tx_UserID t = userID
  /\ (forall v, uf_Type f = Some v -> v <> "" -> tx_Type t = v)
  /\ (forall v, uf_Category f = Some v -> v <> "" -> tx_Category t = v)
  /\ (forall d, uf_StartDate f = Some d ->
        timestamptz d <= timestamptz (tx_TransactionDate t))
  /\ (forall d, uf_EndDate f = Some d ->
        timestamptz (tx_TransactionDate t) <= timestamptz d).
Proof.
  unfold holds, user_clauses.
  rewrite !forallb_app, !andb_true_iff.
  assert (Htext : forall (p : option string) (col : Column) (val : string),
    col_value col t = AText val ->
    (forallb (fun '(c, o, a) => compare o (col_value c t) a)
      match p with
      | Some v => if String.eqb v "" then [] else [(col, CmpEq, AText v)]
      | None => []
      end = true
     <-> (forall v, p = Some v -> v <> "" -> val = v))).
  { intros p col val Hc. destruct p as [v|]; simpl.
    - destruct (String.eqb_spec v "") as [->|Hne]; simpl.
      + split; [intros _ v' Hv' Hne'; inversion Hv'; subst; congruence|reflexivity].
      + rewrite Hc. simpl. rewrite andb_true_r. split.
        * intros He v' Hv' _. inversion Hv'; subst. apply String.eqb_eq. exact He.
        * intros Hv. apply String.eqb_eq. apply Hv; [reflexivity|exact Hne].
    - split; [intros _ v' Hv'; discriminate|reflexivity]. }
  rewrite (Htext (uf_Type f) ColType (tx_Type t) eq_refl).
  rewrite (Htext (uf_Category f) ColCategory (tx_Category t) eq_refl).
  simpl. rewrite andb_true_r, Z.eqb_eq.
  assert (Hs : forallb (fun '(c, o, a) => compare o (col_value c t) a)
      match uf_StartDate f with
      | Some v => [(ColTransactionDate, CmpGe, ATimestamp v)]
      | None => []
      end = true
      <-> (forall d, uf_StartDate f = Some d ->
             timestamptz d <= timestamptz (tx_TransactionDate t))).
  { destruct (uf_StartDate f) as [d|]; simpl.
    - rewrite andb_true_r, Z.leb_le. split.
      + intros Hd d' Hd'. inversion Hd'; subst. exact Hd.
      + intros Hd. apply Hd. reflexivity.
    - split; [intros _ d Hd; discriminate|reflexivity]. }
  assert (He : forallb (fun '(c, o, a) => compare o (col_value c t) a)
      match uf_EndDate f with
      | Some v => [(ColTransactionDate, CmpLe, ATimestamp v)]
      | None => []
      end = true
      <-> (forall d, uf_EndDate f = Some d ->
             timestamptz (tx_TransactionDate t) <= timestamptz d)).
  { destruct (uf_EndDate f) as [d|]; simpl.
    - rewrite andb_true_r, Z.leb_le. split.
      + intros Hd d' Hd'. inversion Hd'; subst. exact Hd.
      + intros Hd. apply Hd. reflexivity.
    - split; [intros _ d Hd; discriminate|reflexivity]. }
  rewrite Hs, He. reflexivity.
Qed.

(* ===================================================================== *)
(** ** Writes *)
(* ===================================================================== *)

Lemma find_map_preserving {A} (p : A -> bool) (g : A -> A) l :
  (forall x, p (g x) = p x) ->
  List.find p (List.map g l) = option_map g (List.find p l).
Proof.
  intros Hp. induction l as [|x r IH]; simpl; [reflexivity|].
  rewrite Hp. destruct (p x); [reflexivity|exact IH].
Qed.

Lemma find_filter_kept {A} (p q : A -> bool) l :
  (forall x, p x = true -> q x = true) ->
  List.find p (List.filter q l) = List.find p l.
Proof.
  intros Hpq. induction l as [|x r IH]; simpl; [reflexivity|].
  destruct (p x) eqn:Hx.
  - rewrite (Hpq x Hx). simpl. rewrite Hx. reflexivity.
  - destruct (q x); simpl; rewrite ?Hx; exact IH.
Qed.

Lemma find_filter_dropped {A} (p q : A -> bool) l :
  (forall x, p x = true -> q x = false) ->
  List.find p (List.filter q l) = None.
Proof.
  intros Hpq. induction l as [|x r IH]; simpl; [reflexivity|].
  destruct (q x) eqn:Hq; [|exact IH].
  simpl. destruct (p x) eqn:Hx; [|exact IH].
  rewrite (Hpq x Hx) in Hq. discriminate.
Qed.

Lemma find_same_id id l t : List.find (same_id id) l = Some t -> tx_ID t = id /\ In t l.
Proof.
  intros Hf. apply find_some in Hf. destruct Hf as [Hin Hid].
  unfold same_id in Hid. apply Z.eqb_eq in Hid. split; assumption.
Qed.

Lemma filter_nonempty {A} (p : A -> bool) l x :
  In x l -> p x = true -> List.filter p l <> [].
Proof.
  intros Hin Hp Hnil. assert (Hx : In x (List.filter p l)) by (apply filter_In; split; assumption).
  rewrite Hnil in Hx. destruct Hx.
Qed.

Lemma filter_all {A} (p : A -> bool) l :
  List.filter p l = [] -> List.filter (fun x => negb (p x)) l = l.
Proof.
  induction l as [|x r IH]; simpl; [reflexivity|].
  destruct (p x); simpl; [discriminate|]. intros Hr. rewrite (IH Hr). reflexivity.
Qed.

(** What a successful lookup by id tells. *)
Lemma FindByID_Some db id t :
  FindByID db id = Ok (Some t) ->
  available db = true /\ List.find (same_id id) (transactions db) = Some t.
Proof.
  rewrite FindByID_spec. destruct (available db); [|discriminate].
  intros Hf. inversion Hf. split; reflexivity.
Qed.

(** What the store is after a successful delete. *)
Lemma DeleteTransaction_Ok db id userID role db' :
  DeleteTransaction db id userID role = (Ok tt, db') ->
  exists old,
    FindByID db id = Ok (Some old)
    /\ db' = mkDB (List.filter (fun t => negb (same_id id t)) (transactions db))
                  (users db) (available db) (now db).
Proof.
  unfold DeleteTransaction.
  destruct (FindByID db id) as [[old|]|] eqn:Hf; [|discriminate|discriminate].
  destruct (negb (String.eqb role RoleAdmin) && negb (tx_UserID old =? userID));
    [discriminate|].
  unfold Delete. destruct (FindByID_Some db id old Hf) as [Ha _]. rewrite Ha. simpl.
  destruct (Nat.eqb _ 0); [discriminate|].
  intros Hd. inversion Hd. exists old. split; [reflexivity|]. rewrite ?Ha. reflexivity.
Qed.

Lemma FindByID_after_delete db id id' :
  available db = true ->
  FindByID (mkDB (List.filter (fun t => negb (same_id id t)) (transactions db))
                 (users db) (available db) (now db)) id'
  = if id' =? id then Ok None else FindByID db id'.
Proof.
  intros Ha. rewrite !FindByID_spec. simpl. rewrite Ha.
  destruct (Z.eqb_spec id' id) as [->|Hne].
  - rewrite find_filter_dropped; [reflexivity|].
    intros x Hx. rewrite Hx. reflexivity.
  - rewrite find_filter_kept; [reflexivity|].
    intros x Hx. unfold same_id in *. apply Z.eqb_eq in Hx.
    apply negb_true_iff. apply Z.eqb_neq. lia.
Qed.

(** What an update that touches the rows [target] does to a lookup. *)
Lemma FindByID_after_update db (target : Transaction -> bool) set id' :
  available db = true ->
  (forall r, tx_ID (set r) = tx_ID r) ->
  FindByID (snd (update_where target set db)) id'
  = match FindByID db id' with
    | Ok (Some r) => Ok (Some (if target r then set r else r))
    | other => other
    end.
Proof.
  intros Ha Hid. rewrite !FindByID_spec. unfold update_where. simpl. rewrite Ha.
  rewrite (find_map_preserving (same_id id') (fun t => if target t then set t else t)).
  - destruct (List.find (same_id id') (transactions db)); reflexivity.
  - intros x. unfold same_id. destruct (target x); [rewrite Hid|]; reflexivity.
Qed.


Lemma UploadReceipt_Ok H db fs id userID file dir t db' fs' :
  UploadReceipt H db fs id userID file dir = (Ok t, db', fs') ->
  exists old,
    FindByID db id = Ok (Some old)
    /\ tx_UserID old = userID
    /\ Size file <= MaxFileSize
    /\ allowed (ToLower (Ext (Filename file))) = true
    /\ let path :=
         filepath_ToSlash H
           (filepath_Join H [filepath_Join H [dir; "transactions"; FormatInt id];
                             filepath_Base H (Filename file)]) in
       t = with_ReceiptPath old (Some path)
       /\ db' = snd (update_where (same_id id) (set_receipt path (now db)) db).
Proof.
  unfold UploadReceipt.
  destruct (FindByID db id) as [[old|]|] eqn:Hf; [|discriminate|discriminate].
  destruct (Z.eqb_spec (tx_UserID old) userID) as [Hu|Hu]; simpl; [|discriminate].
  destruct (Z.ltb_spec MaxFileSize (Size file)) as [Hs|Hs]; [discriminate|].
  destruct (allowed (ToLower (Ext (Filename file)))) eqn:Hext; simpl; [|discriminate].
  destruct (os_MkdirAll H _ fs) as [[e1|] fs1]; [discriminate|].
  destruct (Open file) as [src|e2]; [|discriminate].
  destruct (os_Create H _ fs1) as [[e3|] fs2]; [discriminate|].
  destruct (io_Copy H _ src fs2) as [[e4|] fs3]; [discriminate|].
  destruct (FindByID_Some db id old Hf) as [Ha Hfind].
  unfold UpdateReceiptPath. rewrite Ha. simpl.
  destruct (List.filter (same_id id) (transactions db)) as [|r rest] eqn:Hrows; simpl.
  - discriminate.
  - intros Hr. inversion Hr. exists old.
    split; [reflexivity|]. split; [exact Hu|]. split; [exact Hs|].
    split; [reflexivity|]. split; [reflexivity|].
    unfold update_where. simpl. rewrite ?Ha. reflexivity.
Qed.

Lemma adjust_dates_Type f : uf_Type (adjust_dates f) = uf_Type f.
Proof.
  destruct f as [ty cat [sd|] [ed|]]; unfold adjust_dates; simpl;
    repeat (match goal with |- context [zero_clock ?x] => destruct (zero_clock x) end;
            simpl); reflexivity.
Qed.

Lemma adjust_dates_Category f : uf_Category (adjust_dates f) = uf_Category f.
Proof.
  destruct f as [ty cat [sd|] [ed|]]; unfold adjust_dates; simpl;
    repeat (match goal with |- context [zero_clock ?x] => destruct (zero_clock x) end;
            simpl); reflexivity.
Qed.

(** X1.  With the store reachable, GetUserTransactions succeeds and lists
    exactly the stored transactions that belong to the caller and pass the
    filter: a type or category field that is set and not empty must be
    equal, and the date must lie within the bounds as the service
    normalises them.  No row of another owner is ever listed. *)
Theorem user_listing_is_the_owners_matching_rows db userID f :
  available db = true ->
  exists listing,
    GetUserTransactions db userID f = Ok listing
    /\ forall t,
         In t listing <->
         In t (transactions db)
         /\ tx_UserID t = userID
         /\ (forall v, uf_Type f = Some v -> v <> "" -> tx_Type t = v)
         /\ (forall v, uf_Category f = Some v -> v <> "" -> tx_Category t = v)
         /\ (forall d, uf_StartDate (adjust_dates f) = Some d ->
               timestamptz d <= timestamptz (tx_TransactionDate t))
         /\ (forall d, uf_EndDate (adjust_dates f) = Some d ->
               timestamptz (tx_TransactionDate t) <= timestamptz d).
Proof.
  intros Ha. eexists. split; [apply (GetUserTransactions_spec db userID f Ha)|].
  intros t. rewrite In_order_desc, filter_In, holds_user_clauses.
  assert (Hty : uf_Type (adjust_dates f) = uf_Type f) by apply adjust_dates_Type.
  assert (Hcat : uf_Category (adjust_dates f) = uf_Category f)
    by apply adjust_dates_Category.
  rewrite Hty, Hcat. reflexivity.
Qed.

Lemma user_listing_is_the_owners_matching_rows_witness :
  exists listing,
    GetUserTransactions ledger 1 expenses_from_jan5 = Ok listing
    /\ forall t,
         In t listing <->
         In t (transactions ledger)
         /\ tx_UserID t = 1
         /\ (forall v, uf_Type expenses_from_jan5 = Some v -> v <> "" -> tx_Type t = v)
         /\ (forall v, uf_Category expenses_from_jan5 = Some v -> v <> "" ->
               tx_Category t = v)
         /\ (forall d, uf_StartDate (adjust_dates expenses_from_jan5) = Some d ->
               timestamptz d <= timestamptz (tx_TransactionDate t))
         /\ (forall d, uf_EndDate (adjust_dates expenses_from_jan5) = Some d ->
               timestamptz (tx_TransactionDate t) <= timestamptz d).
Proof.
  apply (user_listing_is_the_owners_matching_rows ledger 1 expenses_from_jan5).
  reflexivity.
Defined.

(** X2.  Every listing the service returns, for an administrator
    (GetAllTransactionsAdmin) or for a user (GetUserTransactions), is ordered
    by transaction date, latest first, and rows of one date by creation
    time, latest first. *)
Theorem listings_are_most_recent_first db listing :
  (exists F, GetAllTransactionsAdmin db F = Ok listing)
  \/ (exists userID f, GetUserTransactions db userID f = Ok listing) ->
  most_recent_first listing.
Proof.
  intros [[F Hl]|[userID [f Hl]]].
  - rewrite (GetAllTransactionsAdmin_Ok db F listing Hl). apply order_desc_most_recent_first.
  - rewrite (GetUserTransactions_Ok db userID f listing Hl).
    apply order_desc_most_recent_first.
Qed.

Lemma listings_are_most_recent_first_witness : most_recent_first [salary; taxi; food].
Proof.
  apply (listings_are_most_recent_first ledger [salary; taxi; food]).
  left. exists no_filter. vm_compute. reflexivity.
Defined.

(** What an admin filter asks of a row, field by field. *)
Lemma matches_fields F t :
  matches F t = true <->
  (forall v, af_UserID F = Some v -> tx_UserID t = v)
  /\ (forall v, af_Type F = Some v -> v <> "" -> tx_Type t = v)
  /\ (forall v, af_Category F = Some v -> v <> "" -> tx_Category t = v)
  /\ (forall d, af_StartDate F = Some d ->
        timestamptz d <= timestamptz (tx_TransactionDate t))
  /\ (forall d, af_EndDate F = Some d ->
        timestamptz (tx_TransactionDate t) <= timestamptz d).
Proof.
  pose proof (holds_user_clauses (tx_UserID t)
                (mkUserTransactionFilters (af_Type F) (af_Category F)
                                          (af_StartDate F) (af_EndDate F)) t) as Hu.
  simpl in Hu.
  unfold matches, holds, clauses. unfold holds, user_clauses in Hu. simpl in Hu.
  rewrite Z.eqb_refl in Hu. simpl in Hu.
  rewrite forallb_app, andb_true_iff, Hu.
  destruct (af_UserID F) as [u|]; simpl.
  - rewrite andb_true_r, Z.eqb_eq. split.
    + intros [Hid [_ Hrest]]. split; [|exact Hrest].
      intros v Hv. injection Hv as <-. exact Hid.
    + intros [Hid Hrest]. split; [apply Hid; reflexivity|]. split; [reflexivity|exact Hrest].
  - split.
    + intros [_ [_ Hrest]]. split; [intros v Hv; discriminate|exact Hrest].
    + intros [_ Hrest]. split; [reflexivity|]. split; [reflexivity|exact Hrest].
Qed.

(** X3.  With the store reachable, GetAllTransactionsAdmin succeeds and its
    listing holds each stored transaction that passes the filter exactly
    once (it is a rearrangement of the matching rows of the table); a row
    passes when each field that is set agrees with it, a type or category
    field pointing at the empty string asking nothing. *)
Theorem admin_listing_has_each_matching_row_once db F :
  available db = true ->
  exists listing,
    GetAllTransactionsAdmin db F = Ok listing
    /\ Permutation listing (List.filter (matches F) (transactions db))
    /\ forall t,
         matches F t = true <->
         (forall v, af_UserID F = Some v -> tx_UserID t = v)
         /\ (forall v, af_Type F = Some v -> v <> "" -> tx_Type t = v)
         /\ (forall v, af_Category F = Some v -> v <> "" -> tx_Category t = v)
         /\ (forall d, af_StartDate F = Some d ->
               timestamptz d <= timestamptz (tx_TransactionDate t))
         /\ (forall d, af_EndDate F = Some d ->
               timestamptz (tx_TransactionDate t) <= timestamptz d).
Proof.
  intros Ha. eexists. split; [apply (GetAllTransactionsAdmin_spec db F Ha)|].
  split; [apply Permutation_order_desc|]. intros t. apply matches_fields.
Qed.

Lemma admin_listing_has_each_matching_row_once_witness :
  exists listing,
    GetAllTransactionsAdmin ledger by_owner1 = Ok listing
    /\ Permutation listing (List.filter (matches by_owner1) (transactions ledger))
    /\ forall t,
         matches by_owner1 t = true <->
         (forall v, af_UserID by_owner1 = Some v -> tx_UserID t = v)
         /\ (forall v, af_Type by_owner1 = Some v -> v <> "" -> tx_Type t = v)
         /\ (forall v, af_Category by_owner1 = Some v -> v <> "" -> tx_Category t = v)
         /\ (forall d, af_StartDate by_owner1 = Some d ->
               timestamptz d <= timestamptz (tx_TransactionDate t))
         /\ (forall d, af_EndDate by_owner1 = Some d ->
               timestamptz (tx_TransactionDate t) <= timestamptz d).
Proof.
  apply (admin_listing_has_each_matching_row_once ledger by_owner1). reflexivity.
Defined.

Lemma joined_transactions db : owners_exist db -> List.map fst (joined db) = transactions db.
Proof.
  unfold owners_exist, joined. induction (transactions db) as [|t r IH]; intros Ho;
    [reflexivity|].
  simpl. destruct (Ho t (or_introl eq_refl)) as [u Hu]. rewrite Hu. simpl.
  rewrite IH; [reflexivity|]. intros t' Ht'. apply Ho. right. exact Ht'.
Qed.

Lemma map_fst_filter {A B} (p : A -> bool) (l : list (A * B)) :
  List.map fst (List.filter (fun r => p (fst r)) l) = List.filter p (List.map fst l).
Proof.
  induction l as [|x r IH]; simpl; [reflexivity|].
  destruct (p (fst x)); simpl; rewrite IH; reflexivity.
Qed.

Lemma sumZ_Permutation l l' : Permutation l l' -> sumZ l = sumZ l'.
Proof. induction 1; simpl; lia. Qed.

Lemma sum_amounts_of_type kind l :
  sumZ (List.map (fun t => if String.eqb (tx_Type t) kind then tx_Amount t else 0) l)
  = sumZ (List.map tx_Amount (List.filter (fun t => String.eqb (tx_Type t) kind) l)).
Proof.
  induction l as [|t r IH]; simpl; [reflexivity|].
  destruct (String.eqb (tx_Type t) kind); simpl; rewrite IH; reflexivity.
Qed.

Lemma to_stat_counted g : us_TransactionCount (snd (to_stat g)) = counted (snd g).
Proof. destruct g as [[uid ph] [[s i] n]]. reflexivity. Qed.

Lemma user_map_counted db rows :
  (forall r, In r rows -> owned_by db r) ->
  sum_with us_TransactionCount
    (assign_all (List.map to_stat (user_groups rows)) (∅ : gmap Z UserStat))
  = Z.of_nat (length rows).
Proof.
  intros Hown. rewrite assign_all_sum.
  - rewrite sum_with_empty, map_map. simpl.
    rewrite (map_ext _ (fun g => counted (snd g))) by apply to_stat_counted.
    unfold user_groups. rewrite (sum_group_by agg_add _ _ counted counted_add).
    apply (sum_ones rows).
  - apply (user_groups_keys db). exact Hown.
  - intros k _. apply lookup_empty.
Qed.

(** X4.  When every stored transaction has its owner in the users table (as
    the foreign key requires), the statistics and the admin listing of one
    filter cover the same rows: the total income (expenses) of
    GetStatisticsAdmin is the sum of the amounts of the income (expense)
    rows GetAllTransactionsAdmin lists, and the transaction counts of the
    per-user breakdown add up to the number of rows listed. *)
Theorem statistics_agree_with_the_listing db F stats listing :
  owners_exist db ->
  GetStatisticsAdmin db F = Ok stats ->
  GetAllTransactionsAdmin db F = Ok listing ->
  st_TotalIncome stats
  = sumZ (List.map tx_Amount
            (List.filter (fun t => String.eqb (tx_Type t) "income") listing))
  /\ st_TotalExpenses stats
     = sumZ (List.map tx_Amount
               (List.filter (fun t => String.eqb (tx_Type t) "expense") listing))
  /\ exists byUser,
       st_ByUserSpending stats = MkMap byUser
       /\ sum_with us_TransactionCount byUser = Z.of_nat (length listing).
Proof.
  intros Ho Hs Hl. apply GetAllTransactionsAdmin_Ok in Hl.
  unfold GetStatisticsAdmin in Hs.
  destruct (GetAggregatedStats db F) as [s|] eqn:Hg; [|discriminate].
  simpl in Hs. inversion Hs; subst s. clear Hs.
  apply GetAggregatedStats_Ok in Hg.
  destruct Hg as [_ [bi [be [bu [-> [_ [_ [_ [_ Hbu]]]]]]]]].
  simpl. subst listing.
  assert (Hrows : List.map fst (matching db F) = List.filter (matches F) (transactions db)).
  { unfold matching. rewrite (map_fst_filter (matches F)), (joined_transactions db Ho).
    reflexivity. }
  split; [|split].
  - rewrite <- sum_amounts_of_type.
    rewrite <- (sumZ_Permutation _ _
                  (Permutation_map _ (Permutation_sym (Permutation_order_desc _)))).
    rewrite <- Hrows, List.map_map. reflexivity.
  - rewrite <- sum_amounts_of_type.
    rewrite <- (sumZ_Permutation _ _
                  (Permutation_map _ (Permutation_sym (Permutation_order_desc _)))).
    rewrite <- Hrows, List.map_map. reflexivity.
  - apply scan_user_rows_Ok in Hbu. subst bu. eexists. split; [reflexivity|].
    rewrite (user_map_counted db _ (matching_owned db F)).
    rewrite (Permutation_length (Permutation_order_desc _)).
    rewrite <- Hrows, List.length_map. reflexivity.
Qed.

Example ledger_owners_exist : owners_exist ledger.
Proof.
  intros t Ht. simpl in Ht.
  destruct Ht as [<-|[<-|[<-|[]]]]; vm_compute; eexists; reflexivity.
Qed.

Lemma statistics_agree_with_the_listing_witness :
  st_TotalIncome stats_owner1
  = sumZ (List.map tx_Amount
            (List.filter (fun t => String.eqb (tx_Type t) "income") [salary; food]))
  /\ st_TotalExpenses stats_owner1
     = sumZ (List.map tx_Amount
               (List.filter (fun t => String.eqb (tx_Type t) "expense") [salary; food]))
  /\ exists byUser,
       st_ByUserSpending stats_owner1 = MkMap byUser
       /\ sum_with us_TransactionCount byUser = Z.of_nat (length [salary; food]).
Proof.
  apply (statistics_agree_with_the_listing ledger by_owner1 stats_owner1 [salary; food]).
  - exact ledger_owners_exist.
  - vm_compute. reflexivity.
  - vm_compute. reflexivity.
Defined.

Lemma zero_clock_endOfDay t : zero_clock (endOfDay t) = false.
Proof. reflexivity. Qed.

Lemma zero_clock_startOfDay t : zero_clock (startOfDay t) = true.
Proof. reflexivity. Qed.

(** X5.  The date normalisation of GetUserTransactions settles in one step:
    normalising a filter that is already normalised changes nothing, so a
    client may send back the bounds a listing was computed with. *)
Theorem date_normalisation_is_idempotent f :
  adjust_dates (adjust_dates f) = adjust_dates f.
Proof.
  destruct f as [ty cat [sd|] [ed|]]; unfold adjust_dates; simpl.
  - destruct (zero_clock sd) eqn:Hsd; simpl.
    + destruct (zero_clock ed) eqn:Hed; simpl; rewrite ?Hed; reflexivity.
    + destruct (zero_clock ed) eqn:Hed; simpl; rewrite ?Hsd; simpl; rewrite ?Hed;
        reflexivity.
  - destruct (zero_clock sd) eqn:Hsd; simpl; rewrite ?Hsd; reflexivity.
  - destruct (zero_clock ed) eqn:Hed; simpl; rewrite ?Hed; reflexivity.
  - reflexivity.
Qed.


Lemma GetTransactionByID_FindByID db db' id :
  FindByID db' id = FindByID db id ->
  forall u r, GetTransactionByID db' id u r = GetTransactionByID db id u r.
Proof. intros Hf u r. unfold GetTransactionByID. rewrite Hf. reflexivity. Qed.

(** X7.  After a successful DeleteTransaction the transaction is gone for
    every caller (a get by id and a second delete both answer "not found"),
    every other transaction is found as before, the table has lost exactly
    the rows with that id, and the users are untouched. *)
Theorem deleted_transaction_is_gone db id userID role db' :
  DeleteTransaction db id userID role = (Ok tt, db') ->
  (forall u r, GetTransactionByID db' id u r = Err ErrTransactionNotFound)
  /\ fst (DeleteTransaction db' id userID role) = Err ErrTransactionNotFound
  /\ (forall id' u r, id' <> id ->
        GetTransactionByID db' id' u r = GetTransactionByID db id' u r)
  /\ (forall t, In t (transactions db') <-> In t (transactions db) /\ tx_ID t <> id)
  /\ users db' = users db.
Proof.
  intros Hd. apply DeleteTransaction_Ok in Hd. destruct Hd as [old [Hf ->]].
  destruct (FindByID_Some db id old Hf) as [Ha _].
  pose proof (FindByID_after_delete db id id Ha) as Hgone. rewrite Z.eqb_refl in Hgone.
  split; [|split; [|split; [|split]]].
  - intros u r. unfold GetTransactionByID. rewrite Hgone. reflexivity.
  - unfold DeleteTransaction. rewrite Hgone. reflexivity.
  - intros id' u r Hne. apply GetTransactionByID_FindByID.
    rewrite (FindByID_after_delete db id id' Ha).
    destruct (Z.eqb_spec id' id); [contradiction|reflexivity].
  - intros t. simpl. rewrite filter_In. unfold same_id.
    rewrite negb_true_iff, Z.eqb_neq. reflexivity.
  - reflexivity.
Qed.

Lemma deleted_transaction_is_gone_witness :
  (forall u r, GetTransactionByID ledger_without_food 1 u r = Err ErrTransactionNotFound)
  /\ fst (DeleteTransaction ledger_without_food 1 1 RoleUser) = Err ErrTransactionNotFound
  /\ (forall id' u r, id' <> 1 ->
        GetTransactionByID ledger_without_food id' u r = GetTransactionByID ledger id' u r)
  /\ (forall t, In t (transactions ledger_without_food)
                <-> In t (transactions ledger) /\ tx_ID t <> 1)
  /\ users ledger_without_food = users ledger.
Proof.
  apply (deleted_transaction_is_gone ledger 1 1 RoleUser ledger_without_food).
  vm_compute. reflexivity.
Defined.

Lemma db_eta db : mkDB (transactions db) (users db) (available db) (now db) = db.
Proof. destruct db. reflexivity. Qed.

(** X8.  UpdateTransaction, DeleteTransaction and UploadReceipt change the
    tables only when they succeed: whenever one of them returns an error
    (not found, forbidden, a refused file, a failure of the store or of the
    file system), the store it leaves is the store it was given. *)
Theorem writes_change_the_store_only_on_success H db fs time_Now id userID role req
    file dir :
  (snd (UpdateTransaction db time_Now id userID req) = db
   \/ exists t, fst (UpdateTransaction db time_Now id userID req) = Ok t)
  /\ (snd (DeleteTransaction db id userID role) = db
      \/ fst (DeleteTransaction db id userID role) = Ok tt)
  /\ (snd (fst (UploadReceipt H db fs id userID file dir)) = db
      \/ exists t, fst (fst (UploadReceipt H db fs id userID file dir)) = Ok t).
Proof.
  split; [|split].
  - destruct (UpdateTransaction db time_Now id userID req) as [[t|e] db'] eqn:Hu;
      [right; exists t; reflexivity|left].
    revert Hu. unfold UpdateTransaction.
    destruct (FindByID db id) as [[old|]|] eqn:Hf;
      [|intros Hu; inversion Hu; reflexivity|intros Hu; inversion Hu; reflexivity].
    destruct (negb (tx_UserID old =? userID)) eqn:Hown;
      [intros Hu; inversion Hu; reflexivity|].
    apply negb_false_iff, Z.eqb_eq in Hown.
    destruct (FindByID_Some db id old Hf) as [Ha Hfind].
    destruct (find_same_id id _ old Hfind) as [Hid Hin].
    unfold Update. rewrite Ha. simpl.
    destruct (List.filter _ (transactions db)) as [|r rest] eqn:Hrows.
    + exfalso. eapply (filter_nonempty _ (transactions db) old Hin); [|exact Hrows].
      unfold same_id. simpl. rewrite !Z.eqb_refl. reflexivity.
    + simpl. discriminate.
  - destruct (DeleteTransaction db id userID role) as [[[]|e] db'] eqn:Hd;
      [right; reflexivity|left].
    revert Hd. unfold DeleteTransaction.
    destruct (FindByID db id) as [[old|]|] eqn:Hf;
      [|intros Hd; inversion Hd; reflexivity|intros Hd; inversion Hd; reflexivity].
    destruct (negb (String.eqb role RoleAdmin) && negb (tx_UserID old =? userID));
      [intros Hd; inversion Hd; reflexivity|].
    destruct (FindByID_Some db id old Hf) as [Ha Hfind].
    destruct (find_same_id id _ old Hfind) as [Hid Hin].
    unfold Delete. rewrite Ha. simpl.
    destruct (List.filter (same_id id) (transactions db)) as [|r rest] eqn:Hrows.
    + exfalso. eapply (filter_nonempty _ (transactions db) old Hin); [|exact Hrows].
      unfold same_id. apply Z.eqb_eq. exact Hid.
    + simpl. discriminate.
  - destruct (UploadReceipt H db fs id userID file dir) as [[[t|e] db'] fs'] eqn:Hu;
      [right; exists t; reflexivity|left].
    revert Hu. unfold UploadReceipt.
    destruct (FindByID db id) as [[old|]|] eqn:Hf;
      [|intros Hu; inversion Hu; reflexivity|intros Hu; inversion Hu; reflexivity].
    destruct (negb (tx_UserID old =? userID)); [intros Hu; inversion Hu; reflexivity|].
    destruct (MaxFileSize <? Size file); [intros Hu; inversion Hu; reflexivity|].
    destruct (negb (allowed (ToLower (Ext (Filename file)))));
      [intros Hu; inversion Hu; reflexivity|].
    destruct (os_MkdirAll H _ fs) as [[e1|] fs1]; [intros Hu; inversion Hu; reflexivity|].
    destruct (Open file) as [src|e2]; [|intros Hu; inversion Hu; reflexivity].
    destruct (os_Create H _ fs1) as [[e3|] fs2]; [intros Hu; inversion Hu; reflexivity|].
    destruct (io_Copy H _ src fs2) as [[e4|] fs3]; [intros Hu; inversion Hu; reflexivity|].
    destruct (FindByID_Some db id old Hf) as [Ha Hfind].
    destruct (find_same_id id _ old Hfind) as [Hid Hin].
    unfold UpdateReceiptPath. rewrite Ha. simpl.
    destruct (List.filter (same_id id) (transactions db)) as [|r rest] eqn:Hrows.
    + exfalso. eapply (filter_nonempty _ (transactions db) old Hin); [|exact Hrows].
      unfold same_id. apply Z.eqb_eq. exact Hid.
    + simpl. discriminate.
Qed.




(** X10.  A successful UploadReceipt was asked by the owner, with a file
    within the size limit and of an allowed extension.  The path it stores
    is the slash form of [<uploads>/transactions/<id>/<base name of the
    file>]; the row found afterwards carries that path and the update time
    of the store and is otherwise the row found before; and, unless that
    path is empty, GetReceiptPath then answers the owner and any
    administrator with the host form of that path and its base name. *)
Theorem uploaded_receipt_can_be_retrieved H db fs id userID file dir t db' fs' :
  UploadReceipt H db fs id userID file dir = (Ok t, db', fs') ->
  let path :=
    filepath_ToSlash H
      (filepath_Join H [filepath_Join H [dir; "transactions"; FormatInt id];
                        filepath_Base H (Filename file)]) in
  Size file <= MaxFileSize
  /\ allowed (ToLower (Ext (Filename file))) = true
  /\ exists old,
       FindByID db id = Ok (Some old)
       /\ tx_UserID old = userID
       /\ t = with_ReceiptPath old (Some path)
       /\ FindByID db' id = Ok (Some (set_receipt path (now db) old))
       /\ (forall id', id' <> id -> FindByID db' id' = FindByID db id')
       /\ (path <> "" ->
           forall u role,
             u = userID \/ role = RoleAdmin ->
             GetReceiptPath H db' id u role
             = Ok (filepath_FromSlash H path,
                   filepath_Base H (filepath_FromSlash H path))).
Proof.
  intros Hu path. apply UploadReceipt_Ok in Hu.
  destruct Hu as [old [Hf [Hown [Hsize [Hext [Ht Hdb]]]]]].
  fold path in Ht, Hdb. subst t db'.
  split; [exact Hsize|]. split; [exact Hext|]. exists old.
  destruct (FindByID_Some db id old Hf) as [Ha Hfind].
  destruct (find_same_id id _ old Hfind) as [Hid Hin].
  assert (Hset : forall r, tx_ID (set_receipt path (now db) r) = tx_ID r) by reflexivity.
  assert (Hafter : FindByID (snd (update_where (same_id id) (set_receipt path (now db)) db))
                     id = Ok (Some (set_receipt path (now db) old))).
  { rewrite (FindByID_after_update db _ _ id Ha Hset), Hf.
    unfold same_id. rewrite Hid, Z.eqb_refl. reflexivity. }
  split; [exact Hf|]. split; [exact Hown|]. split; [reflexivity|].
  split; [exact Hafter|]. split.
  - intros id' Hne. rewrite (FindByID_after_update db _ _ id' Ha Hset).
    destruct (FindByID db id') as [[r|]|] eqn:Hf'; [|reflexivity|reflexivity].
    destruct (FindByID_Some db id' r Hf') as [_ Hfind'].
    destruct (find_same_id id' _ r Hfind') as [Hid' _].
    unfold same_id. destruct (Z.eqb_spec (tx_ID r) id); [lia|reflexivity].
  - intros Hpath u role Hwho. unfold GetReceiptPath. rewrite Hafter.
    assert (Hpass : negb (String.eqb role RoleAdmin)
                    && negb (tx_UserID (set_receipt path (now db) old) =? u) = false).
    { destruct Hwho as [->| ->].
      - simpl. rewrite Hown, Z.eqb_refl. apply andb_false_r.
      - reflexivity. }
    rewrite Hpass. simpl.
    destruct (String.eqb_spec path ""); [contradiction|reflexivity].
Qed.

Lemma uploaded_receipt_can_be_retrieved_witness :
  let path :=
    filepath_ToSlash memory_host
      (filepath_Join memory_host
         [filepath_Join memory_host ["uploads"; "transactions"; FormatInt 3];
          filepath_Base memory_host (Filename receipt_pdf)]) in
  Size receipt_pdf <= MaxFileSize
  /\ allowed (ToLower (Ext (Filename receipt_pdf))) = true
  /\ exists old,
       FindByID ledger 3 = Ok (Some old)
       /\ tx_UserID old = 2
       /\ with_ReceiptPath taxi (Some "uploads/transactions/3/Taxi.PDF")
          = with_ReceiptPath old (Some path)
       /\ FindByID (snd (fst (UploadReceipt memory_host ledger no_files 3 2 receipt_pdf
                                "uploads"))) 3
          = Ok (Some (set_receipt path (now ledger) old))
       /\ (forall id', id' <> 3 ->
           FindByID (snd (fst (UploadReceipt memory_host ledger no_files 3 2 receipt_pdf
                                 "uploads"))) id'
           = FindByID ledger id')
       /\ (path <> "" ->
           forall u role,
             u = 2 \/ role = RoleAdmin ->
             GetReceiptPath memory_host
               (snd (fst (UploadReceipt memory_host ledger no_files 3 2 receipt_pdf
                            "uploads"))) 3 u role
             = Ok (filepath_FromSlash memory_host path,
                   filepath_Base memory_host (filepath_FromSlash memory_host path))).
Proof.
  apply (uploaded_receipt_can_be_retrieved memory_host ledger no_files 3 2 receipt_pdf
           "uploads" (with_ReceiptPath taxi (Some "uploads/transactions/3/Taxi.PDF"))
           (snd (fst (UploadReceipt memory_host ledger no_files 3 2 receipt_pdf "uploads")))
           (snd (UploadReceipt memory_host ledger no_files 3 2 receipt_pdf "uploads"))).
  vm_compute. reflexivity.
Defined.

(** *** The invariants of the transactions table *)

Lemma NoDup_map_filter {A B} (f : A -> B) (p : A -> bool) l :
  NoDup (List.map f l) -> NoDup (List.map f (List.filter p l)).
Proof.
  induction l as [|x r IH]; simpl; [intros; constructor|].
  rewrite NoDup_cons. intros [Hnot Hrest].
  destruct (p x); simpl; [|apply IH; exact Hrest].
  apply NoDup_cons. split; [|apply IH; exact Hrest].
  intros Hin. apply Hnot. apply list_elem_of_In in Hin. apply list_elem_of_In.
  apply in_map_iff in Hin. destruct Hin as [z [Hz Hin]].
  apply filter_In in Hin. apply in_map_iff. exists z. split; [exact Hz|apply Hin].
Qed.

Lemma store_ok_update db seq (target : Transaction -> bool) set :
  (forall r, tx_ID (set r) = tx_ID r) ->
  (forall r, tx_UserID (set r) = tx_UserID r) ->
  store_ok db seq ->
  store_ok (mkDB (List.map (fun t => if target t then set t else t) (transactions db))
                 (users db) (available db) (now db)) seq.
Proof.
  intros Hid Hown [Hu [Hb Ho]]. unfold store_ok, ids_unique, ids_below, owners_exist.
  simpl.
  assert (Hg : forall r, tx_ID (if target r then set r else r) = tx_ID r)
    by (intros r; destruct (target r); [apply Hid|reflexivity]).
  assert (Hg' : forall r, tx_UserID (if target r then set r else r) = tx_UserID r)
    by (intros r; destruct (target r); [apply Hown|reflexivity]).
  split; [|split].
  - rewrite List.map_map. rewrite (map_ext _ tx_ID Hg). exact Hu.
  - intros t Ht. apply in_map_iff in Ht. destruct Ht as [r [<- Hr]].
    rewrite Hg. apply Hb. exact Hr.
  - intros t Ht. apply in_map_iff in Ht. destruct Ht as [r [<- Hr]].
    rewrite Hg'. apply Ho. exact Hr.
Qed.

Lemma store_ok_delete db seq (target : Transaction -> bool) :
  store_ok db seq ->
  store_ok (mkDB (List.filter (fun t => negb (target t)) (transactions db))
                 (users db) (available db) (now db)) seq.
Proof.
  intros [Hu [Hb Ho]]. unfold store_ok, ids_unique, ids_below, owners_exist.
  simpl. split; [|split].
  - apply NoDup_map_filter. exact Hu.
  - intros t Ht. apply filter_In in Ht. apply Hb. apply Ht.
  - intros t Ht. apply filter_In in Ht. apply Ho. apply Ht.
Qed.

(** X11.  UpdateTransaction, DeleteTransaction and UploadReceipt, whatever
    they answer, keep the transactions table well formed: ids stay unique,
    stay below the next value of the id sequence, and every row still has
    its owner in the users table. *)
Theorem writes_keep_the_table_well_formed H db seq fs time_Now id userID role req file dir :
  store_ok db seq ->
  store_ok (snd (UpdateTransaction db time_Now id userID req)) seq
  /\ store_ok (snd (DeleteTransaction db id userID role)) seq
  /\ store_ok (snd (fst (UploadReceipt H db fs id userID file dir))) seq.
Proof.
  intros Hok. split; [|split].
  - unfold UpdateTransaction.
    destruct (FindByID db id) as [[old|]|]; [|exact Hok|exact Hok].
    destruct (negb (tx_UserID old =? userID)); [exact Hok|].
    unfold Update. destruct (negb (available db)); simpl; [exact Hok|].
    destruct (List.filter _ (transactions db)); simpl;
      apply (store_ok_update db seq
               (fun r => same_id (tx_ID old) r && (tx_UserID r =? tx_UserID old))
               (set_fields (apply_updates req time_Now old) (now db))
               (fun _ => eq_refl) (fun _ => eq_refl) Hok).
  - unfold DeleteTransaction.
    destruct (FindByID db id) as [[old|]|]; [|exact Hok|exact Hok].
    destruct (negb (String.eqb role RoleAdmin) && negb (tx_UserID old =? userID));
      [exact Hok|].
    unfold Delete. destruct (negb (available db)); simpl; [exact Hok|].
    destruct (Nat.eqb _ 0); simpl; apply (store_ok_delete db seq (same_id id) Hok).
  - unfold UploadReceipt.
    destruct (FindByID db id) as [[old|]|]; [|exact Hok|exact Hok].
    destruct (negb (tx_UserID old =? userID)); [exact Hok|].
    destruct (MaxFileSize <? Size file); [exact Hok|].
    destruct (negb (allowed (ToLower (Ext (Filename file))))); [exact Hok|].
    destruct (os_MkdirAll H _ fs) as [[e1|] fs1]; [exact Hok|].
    destruct (Open file) as [src|e2]; [|exact Hok].
    destruct (os_Create H _ fs1) as [[e3|] fs2]; [exact Hok|].
    destruct (io_Copy H _ src fs2) as [[e4|] fs3]; [exact Hok|].
    unfold UpdateReceiptPath. destruct (negb (available db)); simpl; [exact Hok|].
    destruct (List.filter (same_id id) (transactions db)); simpl;
      apply (store_ok_update db seq (same_id id) (set_receipt _ (now db))
               (fun _ => eq_refl) (fun _ => eq_refl) Hok).
Qed.

Example ledger_store_ok : store_ok ledger 4.
Proof.
  split; [|split].
  - unfold ids_unique. simpl. repeat (apply NoDup_cons; split); try apply NoDup_nil_2;
      rewrite ?list_elem_of_In; simpl; intuition discriminate.
  - intros t Ht. simpl in Ht. destruct Ht as [<-|[<-|[<-|[]]]]; reflexivity.
  - exact ledger_owners_exist.
Qed.

Lemma writes_keep_the_table_well_formed_witness :
  store_ok (snd (UpdateTransaction ledger noon 1 1 rename_request)) 4
  /\ store_ok (snd (DeleteTransaction ledger 1 1 RoleUser)) 4
  /\ store_ok (snd (fst (UploadReceipt memory_host ledger no_files 1 1 receipt_pdf
                           "uploads"))) 4.
Proof.
  apply (writes_keep_the_table_well_formed memory_host ledger 4 no_files noon 1 1 RoleUser
           rename_request receipt_pdf "uploads").
  exact ledger_store_ok.
Defined.

(* ===================================================================== *)
(** ** Creating a transaction *)
(* ===================================================================== *)

Lemma find_app_fresh {A} (p : A -> bool) l x :
  (forall y, In y l -> p y = false) ->
  List.find p (l ++ [x]) = if p x then Some x else None.
Proof.
  intros Hl. induction l as [|y r IH]; simpl; [reflexivity|].
  rewrite (Hl y (or_introl eq_refl)). apply IH. intros z Hz. apply Hl. right. exact Hz.
Qed.

Lemma find_app_old {A} (p : A -> bool) l x :
  p x = false -> List.find p (l ++ [x]) = List.find p l.
Proof.
  intros Hx. induction l as [|y r IH]; simpl; [rewrite Hx; reflexivity|].
  destruct (p y); [reflexivity|exact IH].
Qed.

Lemma existsb_same_id_fresh seq db :
  ids_below seq db -> existsb (same_id seq) (transactions db) = false.
Proof.
  intros Hb. apply not_true_is_false. intros He. apply existsb_exists in He.
  destruct He as [t [Hin Hid]]. unfold same_id in Hid. apply Z.eqb_eq in Hid.
  specialize (Hb t Hin). lia.
Qed.

(** What an accepted insert returns and leaves. *)
Lemma Create_accepted db seq t category :
  available db = true ->
  seq <= schema.bigserial_max ->
  ids_below seq db ->
  is_Some (users db !! tx_UserID t) ->
  schema.type_check (tx_Type t) = true ->
  schema.varchar 100 (tx_Category t) = Some category ->
  let row :=
    mkTransaction seq (tx_UserID t) (tx_Amount t) (tx_Type t) category (tx_Description t)
      (tx_TransactionDate t) (tx_ReceiptPath t) (tx_CreatedAt t) (tx_UpdatedAt t) in
  creation.Create db seq t
  = (Ok (creation.returning t row),
     mkDB (transactions db ++ [row]) (users db) (available db) (now db), seq + 1).
Proof.
  intros Ha Hseq Hb Hown Hty Hcat row. unfold creation.Create.
  rewrite Ha. simpl. destruct (Z.ltb_spec schema.bigserial_max seq); [lia|].
  rewrite Hcat, Hty. simpl. rewrite (existsb_same_id_fresh seq db Hb).
  rewrite (bool_decide_eq_true_2 _ Hown). simpl. rewrite ?Ha. reflexivity.
Qed.

(** X12.  With the store reachable, an owner who exists, a type that is
    income or expense, a category the column takes and an id sequence ahead
    of the stored ids, CreateTransaction succeeds: the transaction gets the
    next id of the sequence and the caller as owner, carries the request's
    amount (whatever its sign), type, category and description and no
    receipt, and is dated by the request, or by the clock when the request
    has no date.  A later get by id finds the new row (its category as the
    column stored it) for its owner, and every older transaction is found as
    before. *)
Theorem created_transaction_can_be_read_back db seq time_Now userID req category :
  available db = true ->
  seq <= schema.bigserial_max ->
  ids_below seq db ->
  is_Some (users db !! userID) ->
  schema.type_check (creation.cr_Type req) = true ->
  schema.varchar 100 (creation.cr_Category req) = Some category ->
  exists t db',
    creation.CreateTransaction db seq time_Now userID req = (Ok t, db', seq + 1)
    /\ tx_ID t = seq /\ tx_UserID t = userID
    /\ tx_Amount t = creation.cr_Amount req
    /\ tx_Type t = creation.cr_Type req
    /\ tx_Category t = creation.cr_Category req
    /\ tx_Description t = creation.cr_Description req
    /\ tx_ReceiptPath t = None
    /\ tx_TransactionDate t
       = (if creation.IsZero (creation.cr_TransactionDate req) then time_Now 0%nat
          else creation.cr_TransactionDate req)
    /\ (exists row,
          (forall role, GetTransactionByID db' seq userID role = Ok row)
          /\ tx_Category row = category
          /\ tx_ID row = seq /\ tx_UserID row = userID
          /\ tx_Amount row = tx_Amount t /\ tx_Type row = tx_Type t
          /\ tx_Description row = tx_Description t /\ tx_ReceiptPath row = None
          /\ timestamptz (tx_TransactionDate row) = timestamptz (tx_TransactionDate t)
          /\ timestamptz (tx_CreatedAt row) = timestamptz (tx_CreatedAt t)
          /\ timestamptz (tx_UpdatedAt row) = timestamptz (tx_UpdatedAt t))
    /\ (forall id', id' <> seq -> FindByID db' id' = FindByID db id')
    /\ users db' = users db.
Proof.
  intros Ha Hseq Hb Hown Hty Hcat. unfold creation.CreateTransaction.
  set (clock := if creation.IsZero (creation.cr_TransactionDate req)
                then (time_Now 0%nat, 1%nat)
                else (creation.cr_TransactionDate req, 0%nat)).
  destruct clock as [transactionDate calls] eqn:Hclock.
  erewrite Create_accepted;
    [|exact Ha|exact Hseq|exact Hb|exact Hown|exact Hty|exact Hcat].
  eexists. eexists. split; [reflexivity|]. simpl.
  repeat (split; [reflexivity|]).
  split; [unfold clock in Hclock; destruct (creation.IsZero _); inversion Hclock;
          reflexivity|].
  assert (Hfresh : forall y, In y (transactions db) -> same_id seq y = false).
  { intros y Hy. unfold same_id. apply Z.eqb_neq. specialize (Hb y Hy). lia. }
  split; [|split; [|reflexivity]].
  - eexists. split.
    + intros role. unfold GetTransactionByID. rewrite FindByID_spec. simpl. rewrite Ha.
      rewrite (find_app_fresh (same_id seq) _ _ Hfresh).
      unfold same_id at 1. simpl. rewrite !Z.eqb_refl. simpl.
      rewrite andb_false_r. reflexivity.
    + simpl. repeat split; reflexivity.
  - intros id' Hne. rewrite !FindByID_spec. simpl. rewrite Ha.
    rewrite find_app_old; [reflexivity|].
    unfold same_id. simpl. apply Z.eqb_neq. lia.
Qed.

Example ledger_ids_below_4 : ids_below 4 ledger.
Proof. apply ledger_store_ok. Qed.

Lemma created_transaction_can_be_read_back_witness :
  exists t db',
    creation.CreateTransaction ledger 4 ticks 2 coffee_request = (Ok t, db', 4 + 1)
    /\ tx_ID t = 4 /\ tx_UserID t = 2
    /\ tx_Amount t = creation.cr_Amount coffee_request
    /\ tx_Type t = creation.cr_Type coffee_request
    /\ tx_Category t = creation.cr_Category coffee_request
    /\ tx_Description t = creation.cr_Description coffee_request
    /\ tx_ReceiptPath t = None
    /\ tx_TransactionDate t
       = (if creation.IsZero (creation.cr_TransactionDate coffee_request) then ticks 0%nat
          else creation.cr_TransactionDate coffee_request)
    /\ (exists row,
          (forall role, GetTransactionByID db' 4 2 role = Ok row)
          /\ tx_Category row = "food"
          /\ tx_ID row = 4 /\ tx_UserID row = 2
          /\ tx_Amount row = tx_Amount t /\ tx_Type row = tx_Type t
          /\ tx_Description row = tx_Description t /\ tx_ReceiptPath row = None
          /\ timestamptz (tx_TransactionDate row) = timestamptz (tx_TransactionDate t)
          /\ timestamptz (tx_CreatedAt row) = timestamptz (tx_CreatedAt t)
          /\ timestamptz (tx_UpdatedAt row) = timestamptz (tx_UpdatedAt t))
    /\ (forall id', id' <> 4 -> FindByID db' id' = FindByID ledger id')
    /\ users db' = users ledger.
Proof.
  apply (created_transaction_can_be_read_back ledger 4 ticks 2 coffee_request "food").
  - reflexivity.
  - vm_compute. discriminate.
  - exact ledger_ids_below_4.
  - vm_compute. eexists. reflexivity.
  - reflexivity.
  - vm_compute. reflexivity.
Defined.

Example coffee_is_created :
  creation.CreateTransaction ledger 4 ticks 2 coffee_request
  = (Ok coffee, ledger_with_coffee, 5).
Proof. vm_compute. reflexivity. Qed.

(** The outcomes of an insert. *)
Lemma Create_cases db seq t :
  (exists e, creation.Create db seq t = (Err e, db, seq))
  \/ (exists e, creation.Create db seq t = (Err e, db, seq + 1))
  \/ (exists category,
        available db = true
        /\ seq <= schema.bigserial_max
        /\ schema.varchar 100 (tx_Category t) = Some category
        /\ schema.type_check (tx_Type t) = true
        /\ existsb (same_id seq) (transactions db) = false
        /\ is_Some (users db !! tx_UserID t)
        /\ let row :=
             mkTransaction seq (tx_UserID t) (tx_Amount t) (tx_Type t) category
               (tx_Description t) (tx_TransactionDate t) (tx_ReceiptPath t)
               (tx_CreatedAt t) (tx_UpdatedAt t) in
           creation.Create db seq t
           = (Ok (creation.returning t row),
              mkDB (transactions db ++ [row]) (users db) (available db) (now db),
              seq + 1)).
Proof.
  unfold creation.Create.
  destruct (available db) eqn:Ha; simpl; [|left; eexists; reflexivity].
  destruct (Z.ltb_spec schema.bigserial_max seq); [left; eexists; reflexivity|].
  destruct (schema.varchar 100 (tx_Category t)) as [category|] eqn:Hcat;
    [|right; left; eexists; reflexivity].
  destruct (schema.type_check (tx_Type t)) eqn:Hty; simpl;
    [|right; left; eexists; reflexivity].
  destruct (existsb (same_id seq) (transactions db)) eqn:Hex;
    [right; left; eexists; reflexivity|].
  destruct (bool_decide (is_Some (users db !! tx_UserID t))) eqn:Hown; simpl;
    [|right; left; eexists; reflexivity].
  right. right. exists category. apply bool_decide_eq_true_1 in Hown.
  repeat split; try assumption; try reflexivity.
Qed.

(** X13.  CreateTransaction, whatever it answers, keeps the transactions
    table well formed (unique ids, below the sequence, owners present) and
    never moves the id sequence backwards.  When it succeeds the new id is
    the value the sequence had and the table has one row more; when it
    fails, for whatever reason (store out of reach, unknown owner, a type
    other than income and expense, a category the column refuses), the
    tables are left as they were. *)
Theorem create_keeps_the_table_well_formed db seq time_Now userID req :
  store_ok db seq ->
  let outcome := creation.CreateTransaction db seq time_Now userID req in
  store_ok (snd (fst outcome)) (snd outcome)
  /\ seq <= snd outcome <= seq + 1
  /\ (forall t,
        fst (fst outcome) = Ok t ->
        tx_ID t = seq /\ snd outcome = seq + 1
        /\ length (transactions (snd (fst outcome))) = S (length (transactions db)))
  /\ (forall e, fst (fst outcome) = Err e -> snd (fst outcome) = db).
Proof.
  intros Hok outcome. unfold outcome, creation.CreateTransaction.
  destruct (if creation.IsZero (creation.cr_TransactionDate req)
            then (time_Now 0%nat, 1%nat)
            else (creation.cr_TransactionDate req, 0%nat)) as [transactionDate calls].
  assert (Hup : store_ok db (seq + 1)).
  { destruct Hok as [Hu [Hb Ho]]. split; [exact Hu|]. split; [|exact Ho].
    intros t Ht. specialize (Hb t Ht). lia. }
  match goal with |- context [creation.Create db seq ?t] =>
    destruct (Create_cases db seq t) as [[e He]|[[e He]|[category Hc]]]
  end.
  - rewrite He. simpl. split; [exact Hok|]. split; [lia|].
    split; [intros t Ht; discriminate|reflexivity].
  - rewrite He. simpl. split; [exact Hup|]. split; [lia|].
    split; [intros t Ht; discriminate|reflexivity].
  - destruct Hc as [Ha [_ [Hcat [Hty [Hfresh [Hown Hc]]]]]]. simpl in Hc. rewrite Hc.
    simpl. simpl in Hown. split; [|split; [lia|split; [|intros e He; discriminate]]].
    + destruct Hok as [Hu [Hb Ho]]. unfold store_ok, ids_unique, ids_below, owners_exist.
      simpl. split; [|split].
      * rewrite List.map_app. simpl. apply NoDup_app. split; [exact Hu|].
        split; [|apply NoDup_singleton].
        intros x Hx Hx'. apply list_elem_of_singleton in Hx'. subst x.
        apply list_elem_of_In, in_map_iff in Hx. destruct Hx as [y [Hy Hin]].
        specialize (Hb y Hin). lia.
      * intros t Ht. apply in_app_iff in Ht. destruct Ht as [Ht|[<-|[]]].
        -- specialize (Hb t Ht). lia.
        -- simpl. lia.
      * intros t Ht. apply in_app_iff in Ht. destruct Ht as [Ht|[<-|[]]].
        -- apply Ho. exact Ht.
        -- simpl. exact Hown.
    + intros t Ht. inversion Ht. split; [reflexivity|]. split; [reflexivity|].
      rewrite length_app. simpl. lia.
Qed.

Lemma create_keeps_the_table_well_formed_witness :
  let outcome := creation.CreateTransaction ledger 4 ticks 2 coffee_request in
  store_ok (snd (fst outcome)) (snd outcome)
  /\ 4 <= snd outcome <= 4 + 1
  /\ (forall t,
        fst (fst outcome) = Ok t ->
        tx_ID t = 4 /\ snd outcome = 4 + 1
        /\ length (transactions (snd (fst outcome))) = S (length (transactions ledger)))
  /\ (forall e, fst (fst outcome) = Err e -> snd (fst outcome) = ledger).
Proof.
  apply (create_keeps_the_table_well_formed ledger 4 ticks 2 coffee_request).
  exact ledger_store_ok.
Defined.

(* ===================================================================== *)
(** ** Registration and login *)
(* ===================================================================== *)

Lemma find_the_one {A} (p : A -> bool) l x :
  (forall y, In y l -> p y = true -> y = x) ->
  In x l -> p x = true -> List.find p l = Some x.
Proof.
  intros Hone Hin Hp. induction l as [|y r IH]; [destruct Hin|]. simpl.
  destruct (p y) eqn:Hy.
  - rewrite (Hone y (or_introl eq_refl) Hy). reflexivity.
  - apply IH.
    + intros z Hz. apply Hone. right. exact Hz.
    + destruct Hin as [->|Hin]; [congruence|exact Hin].
Qed.

Lemma find_none_of {A} (p : A -> bool) l :
  (forall y, In y l -> p y = false) -> List.find p l = None.
Proof.
  intros Hnone. induction l as [|y r IH]; [reflexivity|]. simpl.
  rewrite (Hnone y (or_introl eq_refl)). apply IH.
  intros z Hz. apply Hnone. right. exact Hz.
Qed.

Lemma rows_In db u :
  In u (user_repo.rows db) <->
  exists i v, users db !! i = Some v /\ u = user_repo.with_ID v i.
Proof.
  unfold user_repo.rows. rewrite in_map_iff. split.
  - intros [[i v] [Hu Hin]]. exists i, v. simpl in Hu.
    apply list_elem_of_In, elem_of_map_to_list in Hin. split; [exact Hin|congruence].
  - intros [i [v [Hl ->]]]. exists (i, v). split; [reflexivity|].
    apply list_elem_of_In, elem_of_map_to_list. exact Hl.
Qed.

Lemma FindByPhone_known db phone :
  available db = true ->
  (exists i u, users db !! i = Some u /\ u_Phone u = phone) ->
  exists u, user_repo.FindByPhone db phone = Ok (Some u) /\ u_Phone u = phone.
Proof.
  intros Ha [i [u [Hl Hp]]]. unfold user_repo.FindByPhone. rewrite Ha. simpl.
  destruct (List.find (user_repo.has_phone phone) (user_repo.rows db)) as [v|] eqn:Hf.
  - exists v. split; [reflexivity|]. apply find_some in Hf. destruct Hf as [_ Hv].
    apply String.eqb_eq in Hv. exact Hv.
  - exfalso.
    assert (Hin : In (user_repo.with_ID u i) (user_repo.rows db))
      by (apply rows_In; exists i, u; split; [exact Hl|reflexivity]).
    pose proof (find_none _ _ Hf _ Hin) as Hn.
    unfold user_repo.has_phone in Hn. simpl in Hn.
    rewrite Hp, String.eqb_refl in Hn. discriminate.
Qed.

Lemma no_row_has_phone db phone :
  (forall i u, users db !! i = Some u -> u_Phone u <> phone) ->
  forall y, In y (user_repo.rows db) -> user_repo.has_phone phone y = false.
Proof.
  intros Hnew y Hy. apply rows_In in Hy. destruct Hy as [i [v [Hl ->]]].
  unfold user_repo.has_phone. simpl. apply String.eqb_neq. apply (Hnew i v Hl).
Qed.

Lemma FindByPhone_unknown db phone :
  available db = true ->
  (forall i u, users db !! i = Some u -> u_Phone u <> phone) ->
  user_repo.FindByPhone db phone = Ok None.
Proof.
  intros Ha Hnew. unfold user_repo.FindByPhone. rewrite Ha. simpl.
  rewrite (find_none_of _ _ (no_row_has_phone db phone Hnew)). reflexivity.
Qed.

(** What an accepted insert of a user returns and leaves. *)
Lemma user_Create_accepted db seq user :
  available db = true ->
  seq <= schema.serial_max ->
  users_below seq db ->
  (forall i u, users db !! i = Some u -> u_Phone u <> u_Phone user) ->
  schema.role_check (u_Role user) = true ->
  user_repo.Create db seq user
  = (Ok (user_repo.with_ID user seq),
     mkDB (transactions db) (<[seq := user_repo.with_ID user seq]> (users db))
          (available db) (now db),
     seq + 1).
Proof.
  intros Ha Hseq Hb Hnew Hrole. unfold user_repo.Create. rewrite Ha. simpl.
  destruct (Z.ltb_spec schema.serial_max seq); [lia|]. rewrite Hrole. simpl.
  assert (Hfresh : users db !! seq = None).
  { destruct (users db !! seq) as [u|] eqn:Hl; [|reflexivity].
    specialize (Hb seq u Hl). lia. }
  rewrite bool_decide_eq_false_2; [|rewrite Hfresh; apply is_Some_None].
  assert (He : existsb (user_repo.has_phone (u_Phone user)) (user_repo.rows db) = false).
  { apply not_true_is_false. intros He. apply existsb_exists in He.
    destruct He as [y [Hy Hp]].
    rewrite (no_row_has_phone db (u_Phone user) Hnew y Hy) in Hp. discriminate. }
  rewrite He. rewrite ?Ha. reflexivity.
Qed.

Lemma FindByPhone_after_insert db seq user :
  available db = true ->
  users db !! seq = None ->
  (forall i u, users db !! i = Some u -> u_Phone u <> u_Phone user) ->
  u_ID user = seq ->
  user_repo.FindByPhone
    (mkDB (transactions db) (<[seq := user]> (users db)) (available db) (now db))
    (u_Phone user)
  = Ok (Some user).
Proof.
  intros Ha Hfresh Hnew Hid.
  assert (Hself : user_repo.with_ID user seq = user)
    by (rewrite <- Hid; destruct user; reflexivity).
  unfold user_repo.FindByPhone. simpl. rewrite Ha. simpl.
  rewrite (find_the_one _ _ user); [reflexivity| | |].
  - intros y Hy Hp. apply rows_In in Hy. simpl in Hy. destruct Hy as [i [v [Hl ->]]].
    apply lookup_insert_Some in Hl. destruct Hl as [[<- <-]|[Hne Hl]]; [exact Hself|].
    exfalso. unfold user_repo.has_phone in Hp. simpl in Hp. apply String.eqb_eq in Hp.
    apply (Hnew i v Hl Hp).
  - apply rows_In. simpl. exists seq, user. split; [apply lookup_insert_eq|].
    symmetry. exact Hself.
  - unfold user_repo.has_phone. apply String.eqb_refl.
Qed.

Lemma existsb_has_phone_false db phone :
  existsb (user_repo.has_phone phone) (user_repo.rows db) = false ->
  forall i u, users db !! i = Some u -> u_Phone u <> phone.
Proof.
  intros He i u Hl Hp.
  assert (Ht : existsb (user_repo.has_phone phone) (user_repo.rows db) = true).
  { apply existsb_exists. exists (user_repo.with_ID u i). split.
    - apply rows_In. exists i, u. split; [exact Hl|reflexivity].
    - unfold user_repo.has_phone. simpl. apply String.eqb_eq. exact Hp. }
  congruence.
Qed.

(** The outcomes of an insert of a user. *)
Lemma user_Create_cases db seq user :
  (exists e, user_repo.Create db seq user = (Err e, db, seq))
  \/ (exists e, user_repo.Create db seq user = (Err e, db, seq + 1))
  \/ (available db = true
      /\ seq <= schema.serial_max
      /\ schema.role_check (u_Role user) = true
      /\ users db !! seq = None
      /\ (forall i u, users db !! i = Some u -> u_Phone u <> u_Phone user)
      /\ user_repo.Create db seq user
         = (Ok (user_repo.with_ID user seq),
            mkDB (transactions db) (<[seq := user_repo.with_ID user seq]> (users db))
                 (available db) (now db),
            seq + 1)).
Proof.
  unfold user_repo.Create.
  destruct (available db) eqn:Ha; simpl; [|left; eexists; reflexivity].
  destruct (Z.ltb_spec schema.serial_max seq); [left; eexists; reflexivity|].
  destruct (schema.role_check (u_Role user)) eqn:Hrole; simpl;
    [|right; left; eexists; reflexivity].
  destruct (bool_decide (is_Some (users db !! seq))) eqn:Hpk;
    [right; left; eexists; reflexivity|].
  destruct (existsb (user_repo.has_phone (u_Phone user)) (user_repo.rows db)) eqn:He;
    [right; left; eexists; reflexivity|].
  right. right. apply bool_decide_eq_false_1 in Hpk.
  split; [reflexivity|]. split; [assumption|]. split; [reflexivity|].
  split; [apply eq_None_not_Some; exact Hpk|].
  split; [apply existsb_has_phone_false; exact He|reflexivity].
Qed.

Lemma granted_role_check i p : schema.role_check (granted_role i p) = true.
Proof. unfold granted_role. destruct (_ && _); reflexivity. Qed.

Example ledger_users : forall i u,
  users ledger !! i = Some u -> (i = 1 /\ u = owner1) \/ (i = 2 /\ u = owner2) \/ (i = 9 /\ u = root).
Proof.
  intros i u Hl. unfold ledger in Hl. simpl in Hl.
  apply lookup_insert_Some in Hl. destruct Hl as [[<- <-]|[_ Hl]]; [left; split; reflexivity|].
  apply lookup_insert_Some in Hl. destruct Hl as [[<- <-]|[_ Hl]];
    [right; left; split; reflexivity|].
  apply lookup_insert_Some in Hl. destruct Hl as [[<- <-]|[_ Hl]];
    [right; right; split; reflexivity|].
  rewrite lookup_empty in Hl. discriminate.
Qed.

Example ledger_users_below_10 : users_below 10 ledger.
Proof.
  intros i u Hl. destruct (ledger_users i u Hl) as [[-> _]|[[-> _]|[-> _]]]; lia.
Qed.

Example ledger_has_no_300 : forall i u, users ledger !! i = Some u -> u_Phone u <> "+300".
Proof.
  intros i u Hl. destruct (ledger_users i u Hl) as [[_ ->]|[[_ ->]|[_ ->]]]; discriminate.
Qed.

(** X14.  Register refuses a phone number that is already registered: it
    answers ErrUserAlreadyExists with no user and no token, before hashing
    anything, and leaves the users table and the id sequence as they
    were. *)
Theorem register_refuses_a_known_phone HashPassword GenerateToken INITIAL_ADMIN_PHONE
    db seq time_Now phone password :
  available db = true ->
  (exists i u, users db !! i = Some u /\ u_Phone u = phone) ->
  auth_service.Register HashPassword GenerateToken INITIAL_ADMIN_PHONE
    db seq time_Now phone password
  = ((None, "", Some auth_service.ErrUserAlreadyExists), db, seq).
Proof.
  intros Ha Hknown. destruct (FindByPhone_known db phone Ha Hknown) as [u [Hf _]].
  unfold auth_service.Register. rewrite Hf. reflexivity.
Qed.

Lemma register_refuses_a_known_phone_witness :
  auth_service.Register toy_hash toy_token "" ledger 10 noon "+100" "secret"
  = ((None, "", Some auth_service.ErrUserAlreadyExists), ledger, 10).
Proof.
  apply (register_refuses_a_known_phone toy_hash toy_token "" ledger 10 noon "+100"
           "secret").
  - reflexivity.
  - exists 1, owner1. split; [vm_compute; reflexivity|reflexivity].
Defined.

Lemma same_user_refl u : same_user u u.
Proof. unfold same_user. repeat split; reflexivity. Qed.

(** X15.  Registering a phone number that is not yet known, with the store
    reachable, the id sequence ahead of the stored ids and the password
    hashed, creates the account: the user gets the next id, the phone, the
    hash and the role [admin] exactly when INITIAL_ADMIN_PHONE is set and
    equal to the phone, [user] otherwise.  The row is stored even when
    signing the token then fails (the answer then carries the user, an
    empty token and an error); afterwards the user is found by phone and by
    id, and the transactions are untouched. *)
Theorem registration_creates_the_account HashPassword GenerateToken INITIAL_ADMIN_PHONE
    db seq time_Now phone password hash :
  available db = true ->
  seq <= schema.serial_max ->
  users_below seq db ->
  (forall i u, users db !! i = Some u -> u_Phone u <> phone) ->
  HashPassword password = Ok hash ->
  let user := mkUser seq phone hash (granted_role INITIAL_ADMIN_PHONE phone) time_Now in
  let outcome :=
    auth_service.Register HashPassword GenerateToken INITIAL_ADMIN_PHONE
      db seq time_Now phone password in
  fst (fst outcome)
  = match GenerateToken seq (granted_role INITIAL_ADMIN_PHONE phone) with
    | Ok token => (Some user, token, None)
    | Err err =>
        (Some user, "", Some (Wrapf "user created, but failed to generate token" err))
    end
  /\ snd outcome = seq + 1
  /\ (exists found,
        user_repo.FindByPhone (snd (fst outcome)) phone = Ok (Some found)
        /\ same_user found user)
  /\ (exists found,
        user_repo.FindByID (snd (fst outcome)) seq = Ok (Some found)
        /\ same_user found user)
  /\ (forall i, i <> seq -> users (snd (fst outcome)) !! i = users db !! i)
  /\ transactions (snd (fst outcome)) = transactions db
  /\ (granted_role INITIAL_ADMIN_PHONE phone = RoleAdmin
      <-> INITIAL_ADMIN_PHONE <> "" /\ phone = INITIAL_ADMIN_PHONE).
Proof.
  intros Ha Hseq Hb Hnew Hhash user outcome.
  assert (Hfresh : users db !! seq = None).
  { destruct (users db !! seq) as [u|] eqn:Hl; [|reflexivity].
    specialize (Hb seq u Hl). lia. }
  assert (Hout : outcome
    = (match GenerateToken seq (granted_role INITIAL_ADMIN_PHONE phone) with
       | Ok token => (Some user, token, None)
       | Err err =>
           (Some user, "", Some (Wrapf "user created, but failed to generate token" err))
       end,
       mkDB (transactions db) (<[seq := user]> (users db)) (available db) (now db),
       seq + 1)).
  { unfold outcome, auth_service.Register.
    rewrite (FindByPhone_unknown db phone Ha Hnew). simpl. rewrite Hhash.
    fold (granted_role INITIAL_ADMIN_PHONE phone).
    rewrite (user_Create_accepted db seq
               (mkUser 0 phone hash (granted_role INITIAL_ADMIN_PHONE phone) time_Now)
               Ha Hseq Hb Hnew (granted_role_check _ _)).
    simpl. fold user. destruct (GenerateToken seq _); reflexivity. }
  rewrite Hout. simpl.
  split; [reflexivity|]. split; [reflexivity|].
  split; [|split; [|split; [|split; [reflexivity|]]]].
  - exists user. split; [|apply same_user_refl].
    apply (FindByPhone_after_insert db seq user Ha Hfresh Hnew eq_refl).
  - exists user. split; [|apply same_user_refl].
    unfold user_repo.FindByID. simpl. rewrite Ha. simpl.
    rewrite lookup_insert_eq. reflexivity.
  - intros i Hne. apply lookup_insert_ne. congruence.
  - unfold granted_role.
    destruct (String.eqb_spec INITIAL_ADMIN_PHONE "") as [He|He];
      destruct (String.eqb_spec phone INITIAL_ADMIN_PHONE) as [Hp|Hp]; simpl;
      split; try discriminate; try (intros [H1 H2]; contradiction); intros _;
      split; assumption.
Qed.

Lemma registration_creates_the_account_witness :
  let user := mkUser 10 "+300" "hash:secret" (granted_role "+900" "+300") noon in
  let outcome :=
    auth_service.Register toy_hash no_token "+900" ledger 10 noon "+300" "secret" in
  fst (fst outcome)
  = match no_token 10 (granted_role "+900" "+300") with
    | Ok token => (Some user, token, None)
    | Err err =>
        (Some user, "", Some (Wrapf "user created, but failed to generate token" err))
    end
  /\ snd outcome = 10 + 1
  /\ (exists found,
        user_repo.FindByPhone (snd (fst outcome)) "+300" = Ok (Some found)
        /\ same_user found user)
  /\ (exists found,
        user_repo.FindByID (snd (fst outcome)) 10 = Ok (Some found)
        /\ same_user found user)
  /\ (forall i, i <> 10 -> users (snd (fst outcome)) !! i = users ledger !! i)
  /\ transactions (snd (fst outcome)) = transactions ledger
  /\ (granted_role "+900" "+300" = RoleAdmin <-> "+900" <> "" /\ "+300" = "+900").
Proof.
  apply (registration_creates_the_account toy_hash no_token "+900" ledger 10 noon "+300"
           "secret" "hash:secret").
  - reflexivity.
  - vm_compute. discriminate.
  - exact ledger_users_below_10.
  - exact ledger_has_no_300.
  - reflexivity.
Defined.

Example newcomer_is_registered :
  auth_service.Register toy_hash toy_token "+900" ledger 10 noon "+300" "secret"
  = ((Some newcomer, "10.user", None), ledger_with_newcomer, 11).
Proof. vm_compute. reflexivity. Qed.

(** What Register leaves when it has inserted the user. *)
Lemma Register_inserted HashPassword GenerateToken INITIAL_ADMIN_PHONE
    db seq time_Now phone password hash :
  available db = true ->
  seq <= schema.serial_max ->
  users_below seq db ->
  (forall i u, users db !! i = Some u -> u_Phone u <> phone) ->
  HashPassword password = Ok hash ->
  let user := mkUser seq phone hash (granted_role INITIAL_ADMIN_PHONE phone) time_Now in
  let outcome :=
    auth_service.Register HashPassword GenerateToken INITIAL_ADMIN_PHONE
      db seq time_Now phone password in
  snd (fst outcome)
  = mkDB (transactions db) (<[seq := user]> (users db)) (available db) (now db)
  /\ snd outcome = seq + 1.
Proof.
  intros Ha Hseq Hb Hnew Hhash user outcome.
  unfold outcome, auth_service.Register.
  rewrite (FindByPhone_unknown db phone Ha Hnew). simpl. rewrite Hhash.
  fold (granted_role INITIAL_ADMIN_PHONE phone).
  rewrite (user_Create_accepted db seq
             (mkUser 0 phone hash (granted_role INITIAL_ADMIN_PHONE phone) time_Now)
             Ha Hseq Hb Hnew (granted_role_check _ _)).
  simpl. destruct (GenerateToken seq _); split; reflexivity.
Qed.

(** X16.  Once Register has stored an account, whether or not it could sign
    a token, the account is usable and the phone is taken: Login with the
    registered password (one the hash checks against) answers the stored
    user and a fresh token, Login with a password the hash does not check
    against answers ErrInvalidCredentials, and registering the same phone
    again is refused with ErrUserAlreadyExists. *)
Theorem registered_user_can_log_in HashPassword CheckPasswordHash GenerateToken
    GenerateToken' INITIAL_ADMIN_PHONE db seq time_Now phone password hash :
  available db = true ->
  seq <= schema.serial_max ->
  users_below seq db ->
  (forall i u, users db !! i = Some u -> u_Phone u <> phone) ->
  HashPassword password = Ok hash ->
  CheckPasswordHash password hash = true ->
  let user := mkUser seq phone hash (granted_role INITIAL_ADMIN_PHONE phone) time_Now in
  let outcome :=
    auth_service.Register HashPassword GenerateToken INITIAL_ADMIN_PHONE
      db seq time_Now phone password in
  let db' := snd (fst outcome) in
  (forall token,
     GenerateToken' seq (granted_role INITIAL_ADMIN_PHONE phone) = Ok token ->
     exists found,
       auth_service.Login CheckPasswordHash GenerateToken' db' phone password
       = (Some found, token, None)
       /\ same_user found user)
  /\ (forall wrong,
        CheckPasswordHash wrong hash = false ->
        auth_service.Login CheckPasswordHash GenerateToken' db' phone wrong
        = (None, "", Some auth_service.ErrInvalidCredentials))
  /\ (forall time_Now' password',
        auth_service.Register HashPassword GenerateToken INITIAL_ADMIN_PHONE
          db' (snd outcome) time_Now' phone password'
        = ((None, "", Some auth_service.ErrUserAlreadyExists), db', snd outcome)).
Proof.
  intros Ha Hseq Hb Hnew Hhash Hcheck user outcome db'.
  destruct (Register_inserted HashPassword GenerateToken INITIAL_ADMIN_PHONE
              db seq time_Now phone password hash Ha Hseq Hb Hnew Hhash) as [Hdb Hs].
  fold outcome in Hdb, Hs. fold user in Hdb. fold db' in Hdb.
  assert (Hfresh : users db !! seq = None).
  { destruct (users db !! seq) as [u|] eqn:Hl; [|reflexivity].
    specialize (Hb seq u Hl). lia. }
  assert (Hfind : user_repo.FindByPhone db' phone = Ok (Some user)).
  { rewrite Hdb. apply (FindByPhone_after_insert db seq user Ha Hfresh Hnew eq_refl). }
  split; [|split].
  - intros token Htok. exists user. split; [|apply same_user_refl].
    unfold auth_service.Login. rewrite Hfind. simpl. rewrite Hcheck. simpl.
    rewrite Htok. reflexivity.
  - intros wrong Hwrong. unfold auth_service.Login. rewrite Hfind. simpl.
    rewrite Hwrong. reflexivity.
  - intros time_Now' password'.
    unfold auth_service.Register. rewrite Hfind. reflexivity.
Qed.

Lemma registered_user_can_log_in_witness :
  let user := mkUser 10 "+300" "hash:secret" (granted_role "+900" "+300") noon in
  let outcome :=
    auth_service.Register toy_hash no_token "+900" ledger 10 noon "+300" "secret" in
  let db' := snd (fst outcome) in
  (forall token,
     toy_token 10 (granted_role "+900" "+300") = Ok token ->
     exists found,
       auth_service.Login toy_check toy_token db' "+300" "secret"
       = (Some found, token, None)
       /\ same_user found user)
  /\ (forall wrong,
        toy_check wrong "hash:secret" = false ->
        auth_service.Login toy_check toy_token db' "+300" wrong
        = (None, "", Some auth_service.ErrInvalidCredentials))
  /\ (forall time_Now' password',
        auth_service.Register toy_hash no_token "+900" db' (snd outcome) time_Now'
          "+300" password'
        = ((None, "", Some auth_service.ErrUserAlreadyExists), db', snd outcome)).
Proof.
  apply (registered_user_can_log_in toy_hash toy_check no_token toy_token "+900" ledger 10
           noon "+300" "secret" "hash:secret").
  - reflexivity.
  - vm_compute. discriminate.
  - exact ledger_users_below_10.
  - exact ledger_has_no_300.
  - reflexivity.
  - reflexivity.
Defined.

(** X17.  Login does not tell a caller which part of the credentials was
    wrong: with the store reachable, an unknown phone number and a known
    one with a password its hash does not check against get the same
    answer, ErrInvalidCredentials with no user and no token.  Whatever the
    store and the credentials, Login never answers ErrUserNotFound. *)
Theorem login_failures_are_indistinguishable CheckPasswordHash GenerateToken
    db phone password :
  (available db = true ->
   (forall u, user_repo.FindByPhone db phone = Ok (Some u) ->
              CheckPasswordHash password (u_PasswordHash u) = false) ->
   auth_service.Login CheckPasswordHash GenerateToken db phone password
   = (None, "", Some auth_service.ErrInvalidCredentials))
  /\ snd (auth_service.Login CheckPasswordHash GenerateToken db phone password)
     <> Some auth_service.ErrUserNotFound.
Proof.
  split.
  - intros Ha Hwrong. unfold auth_service.Login.
    destruct (user_repo.FindByPhone db phone) as [[u|]|e] eqn:Hf; simpl.
    + rewrite (Hwrong u eq_refl). reflexivity.
    + reflexivity.
    + unfold user_repo.FindByPhone in Hf. rewrite Ha in Hf. discriminate.
  - unfold auth_service.Login.
    destruct (user_repo.FindByPhone db phone) as [[u|]|e] eqn:Hf; simpl.
    + destruct (CheckPasswordHash password (u_PasswordHash u)); simpl; [|discriminate].
      destruct (GenerateToken (u_ID u) (u_Role u)); simpl; discriminate.
    + discriminate.
    + unfold user_repo.FindByPhone in Hf.
      destruct (negb (available db)); [|discriminate].
      inversion Hf. simpl. discriminate.
Qed.

Lemma login_failures_are_indistinguishable_witness :
  auth_service.Login toy_check toy_token ledger "+100" "guess"
  = (None, "", Some auth_service.ErrInvalidCredentials)
  /\ auth_service.Login toy_check toy_token ledger "+555" "guess"
     = (None, "", Some auth_service.ErrInvalidCredentials).
Proof.
  split.
  - apply (proj1 (login_failures_are_indistinguishable toy_check toy_token ledger "+100"
                    "guess")).
    + reflexivity.
    + intros u Hu. vm_compute in Hu. inversion Hu. reflexivity.
  - apply (proj1 (login_failures_are_indistinguishable toy_check toy_token ledger "+555"
                    "guess")).
    + reflexivity.
    + intros u Hu. vm_compute in Hu. discriminate.
Defined.

(** The outcomes of Register: the store as it was, or one row more. *)
Lemma Register_cases HashPassword GenerateToken INITIAL_ADMIN_PHONE
    db seq time_Now phone password :
  (exists reply s,
     (s = seq \/ s = seq + 1)
     /\ auth_service.Register HashPassword GenerateToken INITIAL_ADMIN_PHONE
          db seq time_Now phone password
        = (reply, db, s))
  \/ (exists reply hash,
        users db !! seq = None
        /\ (forall i u, users db !! i = Some u -> u_Phone u <> phone)
        /\ auth_service.Register HashPassword GenerateToken INITIAL_ADMIN_PHONE
             db seq time_Now phone password
           = (reply,
              mkDB (transactions db)
                   (<[seq := mkUser seq phone hash (granted_role INITIAL_ADMIN_PHONE phone)
                                    time_Now]> (users db))
                   (available db) (now db),
              seq + 1)).
Proof.
  unfold auth_service.Register.
  destruct (user_repo.FindByPhone db phone) as [[existing|]|e] eqn:Hf; simpl.
  - left. eexists. exists seq. split; [left; reflexivity|reflexivity].
  - destruct (HashPassword password) as [hash|e];
      [|left; eexists; exists seq; split; [left; reflexivity|reflexivity]].
    fold (granted_role INITIAL_ADMIN_PHONE phone).
    destruct (user_Create_cases db seq
                (mkUser 0 phone hash (granted_role INITIAL_ADMIN_PHONE phone) time_Now))
      as [[e He]|[[e He]|Hc]].
    + rewrite He. left. eexists. exists seq. split; [left; reflexivity|reflexivity].
    + rewrite He. left. eexists. exists (seq + 1).
      split; [right; reflexivity|reflexivity].
    + destruct Hc as [Ha [Hseq [_ [Hfresh [Hnew Hc]]]]]. simpl in Hnew.
      rewrite Hc. right. simpl.
      destruct (GenerateToken seq (granted_role INITIAL_ADMIN_PHONE phone));
        eexists; exists hash; (split; [exact Hfresh|]); (split; [exact Hnew|]);
        reflexivity.
  - unfold user_repo.FindByPhone in Hf.
    destruct (negb (available db)); [|discriminate].
    inversion Hf. simpl.
    left. eexists. exists seq. split; [left; reflexivity|reflexivity].
Qed.

(** X18.  Register, whatever it answers, keeps the users table well formed
    (ids below the sequence, one account per phone number, every role
    [user] or [admin]), never moves the id sequence backwards and never
    touches the transactions; the only row it can add is one for the given
    phone, and that row is an administrator's only if INITIAL_ADMIN_PHONE is
    set and equal to the phone. *)
Theorem register_keeps_the_users_well_formed HashPassword GenerateToken
    INITIAL_ADMIN_PHONE db seq time_Now phone password :
  users_ok db seq ->
  let outcome :=
    auth_service.Register HashPassword GenerateToken INITIAL_ADMIN_PHONE
      db seq time_Now phone password in
  users_ok (snd (fst outcome)) (snd outcome)
  /\ seq <= snd outcome <= seq + 1
  /\ transactions (snd (fst outcome)) = transactions db
  /\ (forall i u,
        users (snd (fst outcome)) !! i = Some u ->
        users db !! i = Some u
        \/ (i = seq /\ u_Phone u = phone
            /\ (u_Role u = RoleAdmin ->
                INITIAL_ADMIN_PHONE <> "" /\ phone = INITIAL_ADMIN_PHONE))).
Proof.
  intros Hok outcome.
  assert (Hup : users_ok db (seq + 1)).
  { destruct Hok as [Hb [Hp Hr]]. split; [|split; assumption].
    intros i u Hl. specialize (Hb i u Hl). lia. }
  destruct (Register_cases HashPassword GenerateToken INITIAL_ADMIN_PHONE
              db seq time_Now phone password)
    as [[reply [s [Hs Hr]]]|[reply [hash [Hfresh [Hnew Hr]]]]];
    unfold outcome; rewrite Hr; simpl.
  - split; [destruct Hs as [->| ->]; assumption|].
    split; [lia|]. split; [reflexivity|]. intros i u Hl. left. exact Hl.
  - set (user := mkUser seq phone hash (granted_role INITIAL_ADMIN_PHONE phone) time_Now).
    destruct Hok as [Hb [Hp Hro]].
    assert (Hadmin : u_Role user = RoleAdmin ->
                     INITIAL_ADMIN_PHONE <> "" /\ phone = INITIAL_ADMIN_PHONE).
    { unfold user. simpl. unfold granted_role.
      destruct (String.eqb_spec INITIAL_ADMIN_PHONE "") as [He|He];
        destruct (String.eqb_spec phone INITIAL_ADMIN_PHONE) as [Hq|Hq]; simpl;
        try discriminate. intros _. split; assumption. }
    split; [|split; [lia|split; [reflexivity|]]].
    + unfold users_ok, users_below, phones_unique, roles_valid. simpl.
      split; [|split].
      * intros i u Hl. apply lookup_insert_Some in Hl.
        destruct Hl as [[<- _]|[_ Hl]]; [lia|]. specialize (Hb i u Hl). lia.
      * intros i j u v Hi Hj Huv.
        apply lookup_insert_Some in Hi. apply lookup_insert_Some in Hj.
        destruct Hi as [[<- <-]|[Hni Hi]]; destruct Hj as [[<- <-]|[Hnj Hj]].
        -- reflexivity.
        -- exfalso. apply (Hnew j v Hj). symmetry. exact Huv.
        -- exfalso. apply (Hnew i u Hi). exact Huv.
        -- apply (Hp i j u v Hi Hj Huv).
      * intros i u Hl. apply lookup_insert_Some in Hl.
        destruct Hl as [[<- <-]|[_ Hl]]; [|apply (Hro i u Hl)].
        unfold user. simpl. unfold granted_role. destruct (_ && _); [right|left];
          reflexivity.
    + intros i u Hl. apply lookup_insert_Some in Hl.
      destruct Hl as [[<- <-]|[_ Hl]]; [right|left; exact Hl].
      split; [reflexivity|]. split; [reflexivity|exact Hadmin].
Qed.

Example ledger_users_ok : users_ok ledger 10.
Proof.
  split; [exact ledger_users_below_10|]. split.
  - intros i j u v Hi Hj.
    destruct (ledger_users i u Hi) as [[-> ->]|[[-> ->]|[-> ->]]];
      destruct (ledger_users j v Hj) as [[-> ->]|[[-> ->]|[-> ->]]];
      simpl; intros Hp; try reflexivity; discriminate.
  - intros i u Hl.
    destruct (ledger_users i u Hl) as [[_ ->]|[[_ ->]|[_ ->]]];
      [left|left|right]; reflexivity.
Qed.

Lemma register_keeps_the_users_well_formed_witness :
  let outcome :=
    auth_service.Register toy_hash toy_token "+900" ledger 10 noon "+300" "secret" in
  users_ok (snd (fst outcome)) (snd outcome)
  /\ 10 <= snd outcome <= 10 + 1
  /\ transactions (snd (fst outcome)) = transactions ledger
  /\ (forall i u,
        users (snd (fst outcome)) !! i = Some u ->
        users ledger !! i = Some u
        \/ (i = 10 /\ u_Phone u = "+300"
            /\ (u_Role u = RoleAdmin -> "+900" <> "" /\ "+300" = "+900"))).
Proof.
  apply (register_keeps_the_users_well_formed toy_hash toy_token "+900" ledger 10 noon
           "+300" "secret").
  exact ledger_users_ok.
Defined.

(* ===================================================================== *)
(** ** Middleware *)
(* ===================================================================== *)

Import middleware transaction_handler.

Lemma isAllowed_In userRole allowedRoles :
  isAllowed userRole allowedRoles = true <-> In userRole allowedRoles.
Proof.
  induction allowedRoles as [|r rest IH]; simpl; [split; [discriminate|tauto]|].
  destruct (String.eqb_spec userRole r) as [->|Hne].
  - split; [left; reflexivity|reflexivity].
  - rewrite IH. split; [right; assumption|]. intros [Heq|Hin]; [congruence|exact Hin].
Qed.

(** X19.  RoleMiddleware lets a request through exactly when the context
    holds a role that is a string and is one of the allowed roles; it then
    leaves the context as it found it, and every refusal (no role, a role
    that is not a string, a role that is not allowed) is a 403.  So
    AdminMiddleware passes [admin] only, UserMiddleware passes [user] and
    [admin], StrictlyUserMiddleware passes [user] only. *)
Theorem role_middleware_passes_exactly_the_allowed_roles allowedRoles c :
  ((exists c', RoleMiddleware allowedRoles c = Next c')
   <-> exists role, Get c AuthRoleKey = Some (VString role) /\ In role allowedRoles)
  /\ (forall c', RoleMiddleware allowedRoles c = Next c' -> c' = c)
  /\ (forall code msg,
        RoleMiddleware allowedRoles c = AbortWithStatusJSON code msg -> code = 403)
  /\ ((exists c', AdminMiddleware c = Next c')
      <-> Get c AuthRoleKey = Some (VString "admin"))
  /\ ((exists c', UserMiddleware c = Next c')
      <-> Get c AuthRoleKey = Some (VString "user")
          \/ Get c AuthRoleKey = Some (VString "admin"))
  /\ ((exists c', StrictlyUserMiddleware c = Next c')
      <-> Get c AuthRoleKey = Some (VString "user")).
Proof.
  assert (Hgen : forall roles,
    (exists c', RoleMiddleware roles c = Next c')
    <-> exists role, Get c AuthRoleKey = Some (VString role) /\ In role roles).
  { intros roles. unfold RoleMiddleware.
    destruct (Get c AuthRoleKey) as [[i|role|]|].
    - split; [intros [c' Hc]; discriminate|intros [r [Hr _]]; discriminate].
    - destruct (isAllowed role roles) eqn:Hal; simpl.
      + split; [|intros _; exists c; reflexivity].
        intros _. exists role. split; [reflexivity|]. apply isAllowed_In. exact Hal.
      + split; [intros [c' Hc]; discriminate|].
        intros [r [Hr Hin]]. inversion Hr; subst r.
        apply isAllowed_In in Hin. congruence.
    - split; [intros [c' Hc]; discriminate|intros [r [Hr _]]; discriminate].
    - split; [intros [c' Hc]; discriminate|intros [r [Hr _]]; discriminate]. }
  split; [apply Hgen|]. split; [|split; [|split; [|split]]].
  - unfold RoleMiddleware. intros c'.
    destruct (Get c AuthRoleKey) as [[i|role|]|]; try discriminate.
    destruct (isAllowed role allowedRoles); simpl; [|discriminate].
    intros Hn. inversion Hn. reflexivity.
  - unfold RoleMiddleware. intros code msg.
    destruct (Get c AuthRoleKey) as [[i|role|]|];
      try (intros Hx; inversion Hx; reflexivity).
    destruct (isAllowed role allowedRoles); simpl;
      intros Hx; inversion Hx; reflexivity.
  - unfold AdminMiddleware. rewrite Hgen. simpl. split.
    + intros [role [Hr [<-|[]]]]. exact Hr.
    + intros Hr. exists "admin". split; [exact Hr|left; reflexivity].
  - unfold UserMiddleware. rewrite Hgen. simpl. split.
    + intros [role [Hr [<-|[<-|[]]]]]; [left|right]; exact Hr.
    + intros [Hr|Hr]; [exists "user"|exists "admin"]; (split; [exact Hr|]);
        [left|right; left]; reflexivity.
  - unfold StrictlyUserMiddleware. rewrite Hgen. simpl. split.
    + intros [role [Hr [<-|[]]]]. exact Hr.
    + intros Hr. exists "user". split; [exact Hr|left; reflexivity].
Qed.

(** *** The Authorization header *)

Lemma Split_not_nil s sep : Split s sep <> [].
Proof.
  destruct s as [|c r]; simpl; [discriminate|].
  destruct (Ascii.eqb c sep); [discriminate|].
  destruct (Split r sep); discriminate.
Qed.

Lemma Split_free s sep : free_of sep s = true -> Split s sep = [s].
Proof.
  induction s as [|c r IH]; simpl; [reflexivity|].
  destruct (Ascii.eqb c sep); simpl; [discriminate|].
  intros Hr. rewrite (IH Hr). reflexivity.
Qed.

Lemma Split_app a b sep :
  free_of sep a = true -> Split (a +:+ String sep b) sep = a :: Split b sep.
Proof.
  induction a as [|c r IH]; simpl.
  - intros _. rewrite Ascii.eqb_refl. reflexivity.
  - destruct (Ascii.eqb c sep); simpl; [discriminate|].
    intros Hr. change (String.app r (String sep b)) with (r +:+ String sep b).
    rewrite (IH Hr). reflexivity.
Qed.

Lemma Split_one s sep x : Split s sep = [x] -> x = s /\ free_of sep s = true.
Proof.
  revert x. induction s as [|c r IH]; simpl; intros x.
  - intros Hx. inversion Hx. split; reflexivity.
  - destruct (Ascii.eqb c sep) eqn:Hc.
    + intros Hx. inversion Hx as [[Hx1 Hx2]]. exfalso. apply (Split_not_nil r sep Hx2).
    + destruct (Split r sep) as [|h t] eqn:Hr; [exfalso; apply (Split_not_nil r sep Hr)|].
      intros Hx. inversion Hx; subst.
      destruct (IH h eq_refl) as [-> Hfree]. split; [reflexivity|exact Hfree].
Qed.

Lemma Split_two s sep a b :
  Split s sep = [a; b] ->
  s = a +:+ String sep b /\ free_of sep a = true /\ free_of sep b = true.
Proof.
  revert a. induction s as [|c r IH]; simpl; intros a.
  - discriminate.
  - destruct (Ascii.eqb_spec c sep) as [->|Hne].
    + intros Hx. inversion Hx as [[Ha Hr]].
      destruct (Split_one r sep b Hr) as [-> Hfree].
      split; [reflexivity|]. split; [reflexivity|exact Hfree].
    + destruct (Split r sep) as [|h t] eqn:Hr; [discriminate|].
      intros Hx. inversion Hx; subst.
      destruct (IH h eq_refl) as [-> [Hh Hb]].
      split; [reflexivity|]. split; [|exact Hb].
      simpl. rewrite Hh. destruct (Ascii.eqb_spec c sep); [contradiction|reflexivity].
Qed.

Lemma length_two {A} (l : list A) : length l = 2%nat -> exists a b, l = [a; b].
Proof.
  destruct l as [|a [|b [|c r]]]; simpl; try discriminate. intros _. exists a, b. reflexivity.
Qed.

Lemma JWTAuthMiddleware_passes ValidateToken c c' :
  JWTAuthMiddleware ValidateToken c = Next c' <->
  exists scheme token claims,
    Authorization c = scheme +:+ " " +:+ token
    /\ free_of " " scheme = true /\ free_of " " token = true
    /\ ToLower scheme = "bearer"
    /\ ValidateToken token = Ok claims
    /\ c' = Set_ (Set_ c AuthUserKey (VInt (UserID claims)))
                 AuthRoleKey (VString (Role claims)).
Proof.
  unfold JWTAuthMiddleware. split.
  - destruct (String.eqb (Authorization c) ""); [discriminate|].
    destruct (Nat.eqb_spec (length (Split (Authorization c) " ")) 2) as [Hlen|Hlen];
      simpl; [|discriminate].
    destruct (length_two _ Hlen) as [scheme [token Hparts]]. rewrite Hparts. simpl.
    destruct (String.eqb_spec (ToLower scheme) "bearer") as [Hs|Hs]; simpl;
      [|discriminate].
    destruct (ValidateToken token) as [claims|e] eqn:Hv; [|discriminate].
    intros Hn. inversion Hn.
    destruct (Split_two _ _ _ _ Hparts) as [Hh [Hfs Hft]].
    exists scheme, token, claims. repeat split; assumption.
  - intros [scheme [token [claims [Hh [Hfs [Hft [Hs [Hv ->]]]]]]]].
    assert (Hparts : Split (Authorization c) " " = [scheme; token]).
    { rewrite Hh. change (" " +:+ token) with (String " " token).
      rewrite (Split_app scheme token " " Hfs), (Split_free token " " Hft).
      reflexivity. }
    assert (Hne : String.eqb (Authorization c) "" = false).
    { apply String.eqb_neq. rewrite Hh. destruct scheme; discriminate. }
    rewrite Hne, Hparts. simpl. rewrite Hs. simpl. rewrite Hv. reflexivity.
Qed.

Lemma JWTAuthMiddleware_aborts ValidateToken c code msg :
  JWTAuthMiddleware ValidateToken c = AbortWithStatusJSON code msg -> code = 401.
Proof.
  unfold JWTAuthMiddleware.
  destruct (String.eqb (Authorization c) ""); [intros Hx; inversion Hx; reflexivity|].
  destruct (negb _ || negb _); [intros Hx; inversion Hx; reflexivity|].
  destruct (ValidateToken _); [discriminate|intros Hx; inversion Hx; reflexivity].
Qed.

(** X20.  JWTAuthMiddleware lets a request through exactly when its
    Authorization header is a scheme and a token with one space between
    them and no other space anywhere, the scheme reads [bearer] in any
    letter case, and the token validates; the context it leaves is the one
    it found with the user id and the role of the token's claims set.
    Everything else (no header, another scheme, more or fewer parts, a
    token that does not validate) is a 401. *)
Theorem bearer_header_is_checked ValidateToken c :
  (forall c',
     JWTAuthMiddleware ValidateToken c = Next c' <->
     exists scheme token claims,
       Authorization c = scheme +:+ " " +:+ token
       /\ free_of " " scheme = true /\ free_of " " token = true
       /\ ToLower scheme = "bearer"
       /\ ValidateToken token = Ok claims
       /\ c' = Set_ (Set_ c AuthUserKey (VInt (UserID claims)))
                    AuthRoleKey (VString (Role claims)))
  /\ (forall code msg,
        JWTAuthMiddleware ValidateToken c = AbortWithStatusJSON code msg -> code = 401).
Proof.
  split.
  - intros c'. apply JWTAuthMiddleware_passes.
  - intros code msg. apply JWTAuthMiddleware_aborts.
Qed.

Example header_examples :
  JWTAuthMiddleware toy_validate request_of_owner1
  = Next (mkContext "bearer 1.user" (<["authRole" := VString "user"]>
                                       (<["authUser" := VInt 1]> ∅)))
  /\ JWTAuthMiddleware toy_validate (mkContext "Bearer  9.admin" ∅)
     = AbortWithStatusJSON 401 "Invalid authorization header format"
  /\ JWTAuthMiddleware toy_validate (mkContext "Basic 9.admin" ∅)
     = AbortWithStatusJSON 401 "Invalid authorization header format"
  /\ JWTAuthMiddleware toy_validate (mkContext "Bearer 9.root" ∅)
     = AbortWithStatusJSON 401 "Invalid or expired token"
  /\ JWTAuthMiddleware toy_validate (mkContext "" ∅)
     = AbortWithStatusJSON 401 "Authorization header required".
Proof. repeat split; vm_compute; reflexivity. Qed.

(** What the context holds once the JWT middleware has let a request
    through. *)
Lemma JWTAuthMiddleware_Next ValidateToken c c' :
  JWTAuthMiddleware ValidateToken c = Next c' ->
  exists token claims,
    ValidateToken token = Ok claims
    /\ Get c' AuthUserKey = Some (VInt (UserID claims))
    /\ Get c' AuthRoleKey = Some (VString (Role claims)).
Proof.
  intros Hn. apply JWTAuthMiddleware_passes in Hn.
  destruct Hn as [scheme [token [claims [_ [_ [_ [_ [Hv ->]]]]]]]].
  exists token, claims. split; [exact Hv|]. unfold Get, Set_. simpl. split.
  - rewrite lookup_insert_ne; [apply lookup_insert_eq|discriminate].
  - apply lookup_insert_eq.
Qed.

(** X21.  What stands before the handlers (RegisterTransactionRoutes).  A
    handler of the [/transactions] group runs only for a request whose
    token validated, and then finds in the context the user id and the role
    of that token's claims, with the types its helpers assert (so their
    "not found" and "invalid type" answers cannot occur behind the
    middleware).  A handler of the [/admin] group runs only if moreover the
    role of the claims is [admin]: a request that passes the JWT check with
    any other role is answered 403, and one that fails the JWT check is
    answered as the JWT middleware answers it (401). *)
Theorem routes_hand_the_handlers_the_token_identity ValidateToken c :
  (forall c',
     userTxRoutes ValidateToken c = Next c' ->
     exists token claims,
       ValidateToken token = Ok claims
       /\ getAuthUserID c' = Ok (UserID claims)
       /\ getAuthUserRole c' = Ok (Role claims)
       /\ (adminRoutes ValidateToken c = Next c' <-> Role claims = RoleAdmin)
       /\ (Role claims <> RoleAdmin ->
           adminRoutes ValidateToken c
           = AbortWithStatusJSON 403
               "You do not have permission to access this resource"))
  /\ (forall c',
        adminRoutes ValidateToken c = Next c' ->
        userTxRoutes ValidateToken c = Next c' /\ getAuthUserRole c' = Ok RoleAdmin)
  /\ (forall code msg,
        userTxRoutes ValidateToken c = AbortWithStatusJSON code msg ->
        code = 401 /\ adminRoutes ValidateToken c = AbortWithStatusJSON code msg).
Proof.
  unfold userTxRoutes, adminRoutes, chain.
  destruct (JWTAuthMiddleware ValidateToken c) as [c1|code1 msg1] eqn:Hj.
  - destruct (JWTAuthMiddleware_Next ValidateToken c c1 Hj)
      as [token [claims [Hv [Hu Hr]]]].
    assert (Hadmin : AdminMiddleware c1
                     = if String.eqb (Role claims) RoleAdmin then Next c1
                       else AbortWithStatusJSON 403
                              "You do not have permission to access this resource").
    { unfold AdminMiddleware, RoleMiddleware. rewrite Hr. simpl.
      destruct (String.eqb (Role claims) RoleAdmin); reflexivity. }
    split; [|split].
    + intros c' Hn. inversion Hn; subst c'. exists token, claims.
      split; [exact Hv|].
      split; [unfold getAuthUserID; rewrite Hu; reflexivity|].
      split; [unfold getAuthUserRole; rewrite Hr; reflexivity|].
      rewrite Hadmin. destruct (String.eqb_spec (Role claims) RoleAdmin) as [He|He].
      * split; [split; [intros _; exact He|reflexivity]|contradiction].
      * split; [split; [discriminate|contradiction]|reflexivity].
    + intros c'. rewrite Hadmin.
      destruct (String.eqb_spec (Role claims) RoleAdmin) as [He|He]; [|discriminate].
      intros Hn. inversion Hn; subst c'. split; [reflexivity|].
      unfold getAuthUserRole. rewrite Hr, He. reflexivity.
    + intros code msg Hx. discriminate.
  - split; [|split].
    + intros c' Hn. discriminate.
    + intros c' Hn. discriminate.
    + intros code msg Hx. inversion Hx; subst.
      split; [apply (JWTAuthMiddleware_aborts ValidateToken c code msg Hj)|reflexivity].
Qed.

Example admin_route_examples :
  (exists c', adminRoutes toy_validate request_of_root = Next c')
  /\ adminRoutes toy_validate request_of_owner1
     = AbortWithStatusJSON 403 "You do not have permission to access this resource"
  /\ (exists c', userTxRoutes toy_validate request_of_owner1 = Next c').
Proof.
  split; [eexists; vm_compute; reflexivity|].
  split; [vm_compute; reflexivity|eexists; vm_compute; reflexivity].
Qed.

(** X22.  GET /transactions/:id, from the request to the answer.  A request
    the JWT middleware refuses is answered 401 with the middleware's
    message.  Otherwise the caller is the user of the token's claims, and
    the answer is 400 when the id is not a decimal int64, 500 with a fixed
    message (never the store's error text) when the store is out of reach,
    404 when no transaction has the id, 403 when one has but the caller is
    neither its owner nor an administrator, and 200 with that transaction
    in every other case. *)
Theorem get_by_id_over_http ValidateToken db c idParam :
  let answer := GET_transaction ValidateToken db c idParam in
  (forall code msg,
     JWTAuthMiddleware ValidateToken c = AbortWithStatusJSON code msg ->
     code = 401 /\ answer = mkResponse 401 (BError msg))
  /\ (forall c',
        JWTAuthMiddleware ValidateToken c = Next c' ->
        exists token claims,
          ValidateToken token = Ok claims
          /\ (strconv_ParseInt idParam = None ->
              answer = mkResponse 400 (BError "Invalid transaction ID"))
          /\ (forall id,
                strconv_ParseInt idParam = Some id ->
                (available db = false ->
                 answer = mkResponse 500 (BError "Failed to retrieve transaction"))
                /\ (available db = true ->
                    answer
                    = match List.find (same_id id) (transactions db) with
                      | None => mkResponse 404 (BError "transaction not found")
                      | Some t =>
                          if String.eqb (Role claims) RoleAdmin
                             || (tx_UserID t =? UserID claims)
                          then mkResponse 200 (BTransaction t)
                          else mkResponse 403
                                 (BError "forbidden: user does not have permission for this action")
                      end))).
Proof.
  intros answer. unfold answer, GET_transaction, userTxRoutes. split.
  - intros code msg Hx. rewrite Hx.
    rewrite (JWTAuthMiddleware_aborts ValidateToken c code msg Hx). split; reflexivity.
  - intros c' Hn. rewrite Hn.
    destruct (JWTAuthMiddleware_Next ValidateToken c c' Hn)
      as [token [claims [Hv [Hu Hr]]]].
    exists token, claims. split; [exact Hv|].
    unfold GetTransactionByID, getAuthUserID, getAuthUserRole. rewrite Hu, Hr.
    split.
    + intros Hp. rewrite Hp. reflexivity.
    + intros id Hp. rewrite Hp. unfold service.GetTransactionByID.
      rewrite FindByID_spec. split.
      * intros Ha. rewrite Ha. reflexivity.
      * intros Ha. rewrite Ha.
        destruct (List.find (same_id id) (transactions db)) as [t|]; [|reflexivity].
        destruct (String.eqb (Role claims) RoleAdmin); simpl; [reflexivity|].
        destruct (tx_UserID t =? UserID claims); reflexivity.
Qed.

Example get_by_id_examples :
  GET_transaction toy_validate ledger request_of_owner1 "1"
  = mkResponse 200 (BTransaction food)
  /\ GET_transaction toy_validate ledger request_of_owner1 "3"
     = mkResponse 403 (BError "forbidden: user does not have permission for this action")
  /\ GET_transaction toy_validate ledger request_of_root "3"
     = mkResponse 200 (BTransaction taxi)
  /\ GET_transaction toy_validate ledger request_of_owner1 "7"
     = mkResponse 404 (BError "transaction not found")
  /\ GET_transaction toy_validate ledger request_of_owner1 "0x1"
     = mkResponse 400 (BError "Invalid transaction ID")
  /\ GET_transaction toy_validate ledger request_of_owner1 "9223372036854775808"
     = mkResponse 400 (BError "Invalid transaction ID")
  /\ GET_transaction toy_validate ledger (mkContext "1.user" ∅) "1"
     = mkResponse 401 (BError "Invalid authorization header format").
Proof. repeat split; vm_compute; reflexivity. Qed.

(** X23.  The two listing statements agree: what GetUserTransactions lists
    for a user is what GetAllTransactionsAdmin lists for the admin filter
    that names this user and carries the same type, category and
    (normalised) date bounds, row for row and in the same order. *)
Theorem user_listing_is_the_admin_listing_of_that_user db userID f :
  let bounds := adjust_dates f in
  let F :=
    mkAdminTransactionFilters (Some userID) (uf_StartDate bounds) (uf_EndDate bounds)
      (uf_Category f) (uf_Type f) in
  forall listing,
    GetUserTransactions db userID f = Ok listing
    <-> GetAllTransactionsAdmin db F = Ok listing.
Proof.
  intros bounds F listing.
  assert (Hcl : user_clauses userID bounds = clauses F).
  { unfold user_clauses, clauses, F, bounds. simpl.
    rewrite (adjust_dates_Type f), (adjust_dates_Category f). reflexivity. }
  destruct (available db) eqn:Ha.
  - rewrite (GetUserTransactions_spec db userID f Ha),
      (GetAllTransactionsAdmin_spec db F Ha).
    fold bounds. unfold matches. rewrite Hcl. reflexivity.
  - split; intros Hl; exfalso.
    + unfold GetUserTransactions in Hl.
      destruct (FindByUser db userID (adjust_dates f)) as [l|] eqn:Hf; [|discriminate].
      rewrite (FindByUser_available db userID _ l Hf) in Ha. discriminate.
    + unfold GetAllTransactionsAdmin in Hl.
      destruct (FindAll db F) as [l|] eqn:Hf; [|discriminate].
      rewrite (FindAll_available db F l Hf) in Ha. discriminate.
Qed.

(** X24.  On a ledger that can be reached, whose amounts are not negative
    and sum within int64, GetStatisticsAdmin succeeds for every filter, both
    totals lie between zero and the largest int64, and the balance is the
    exact difference of the totals (no sum is refused as out of range and
    the subtraction does not wrap). *)
Theorem statistics_succeed_on_a_bounded_ledger db F :
  available db = true ->
  amounts_bounded db ->
  exists stats,
    GetStatisticsAdmin db F = Ok stats
    /\ 0 <= st_TotalIncome stats <= int64_max
    /\ 0 <= st_TotalExpenses stats <= int64_max
    /\ st_Balance stats = st_TotalIncome stats - st_TotalExpenses stats.
Proof.
  intros Ha Hb.
  destruct (GetAggregatedStats_succeeds db F Ha Hb) as [stats Hs].
  exists stats. unfold GetStatisticsAdmin. rewrite Hs. split; [reflexivity|].
  apply GetAggregatedStats_Ok in Hs.
  destruct Hs as [_ [bi [be [bu [-> _]]]]]. simpl.
  pose proof (filtered_sum_fits db (fun r => matches F (fst r)) income_amount Hb
                income_amount_bounds) as Hi.
  pose proof (filtered_sum_fits db (fun r => matches F (fst r)) expense_amount Hb
                expense_amount_bounds) as He.
  fold (matching db F) in Hi, He.
  fold (total_income (matching db F)) in Hi.
  fold (total_expenses (matching db F)) in He.
  split; [exact Hi|]. split; [exact He|].
  unfold sub64. apply wrap64_fits. unfold fits_int64, int64_min, int64_max in *.
  apply andb_true_intro. split; apply Z.leb_le; lia.
Qed.

Lemma statistics_succeed_on_a_bounded_ledger_witness :
  exists stats,
    GetStatisticsAdmin ledger food_expenses = Ok stats
    /\ 0 <= st_TotalIncome stats <= int64_max
    /\ 0 <= st_TotalExpenses stats <= int64_max
    /\ st_Balance stats = st_TotalIncome stats - st_TotalExpenses stats.
Proof.
  apply (statistics_succeed_on_a_bounded_ledger ledger food_expenses).
  - reflexivity.
  - exact ledger_amounts_bounded.
Defined.
